(** * DarkBotManager: per-folder maintenance over a model of the file system

    A shallow embedding of the maintenance logic of [DarkBotManager.py]
    (functions [is_bot_folder], [refresh_bot_list], [_run_worker],
    [process_single_bot], [clear_old_logs_worker], [clear_single_bot]).

    The file system is a finite map from paths to nodes.  A path is the list
    of its components, innermost component first, so that [p // "logs"] (the
    Python [p / "logs"]) is a cons, [Path.name] is the head and [Path.parent]
    is the tail.  Names are compared byte for byte, as on a case-sensitive
    file system; there are no symbolic links and no permissions, so the
    failures the code catches are the structural ones (unlinking a directory,
    creating a folder below a regular file, copying a directory, ...). *)

From stdpp Require Import gmap strings list fin_maps sorting.

Open Scope string_scope.
Open Scope list_scope.
Open Scope stdpp_scope.

(** ** Paths and nodes *)

Abbreviation path := (list string).

Notation "p // x" := (@cons string x p) (at level 40, left associativity, only parsing).

(** [Path.name]: the final component, empty for the root. *)
Definition name (p : path) : string :=
  match p with
  | [] => ""
  | x :: _ => x
  end.

(** [Path.parent]. *)
Definition parent (p : path) : path := tail p.

Inductive node :=
  | File (data : string)
  | Dir.

#[global] Instance node_eq_dec : EqDecision node.
Proof. solve_decision. Defined.

Abbreviation filesystem := (gmap (list string) node).

(** Every entry other than the root lies in a directory. *)
Definition wf (fs : filesystem) : Prop :=
  map_Forall (λ q _, match q with
                     | [] => True
                     | _ :: p => fs !! p = Some Dir
                     end) fs.

#[global] Instance wf_dec fs : Decision (wf fs).
Proof. unfold wf. apply map_Forall_dec. intros [|x p] n; apply _. Defined.

Definition exists_ (fs : filesystem) (p : path) : bool :=
  bool_decide (is_Some (fs !! p)).

Definition is_dir (fs : filesystem) (p : path) : bool :=
  bool_decide (fs !! p = Some Dir).

Definition is_file (fs : filesystem) (p : path) : bool :=
  match fs !! p with
  | Some (File _) => true
  | _ => false
  end.

(** [fnmatch(name, "*" + ext)]: the name ends with [ext]. *)
Definition has_ext (ext : string) (p : path) : bool :=
  bool_decide (String.list_ascii_of_string ext `suffix_of` String.list_ascii_of_string (name p)).

(** [q] is an entry directly inside [d]. *)
Definition child_of (d q : path) : bool :=
  match q with
  | [] => false
  | _ :: p => bool_decide (p = d)
  end.

(** [q] lies strictly below [d], at any depth. *)
Definition below (d q : path) : bool :=
  bool_decide (d `suffix_of` q) && negb (bool_decide (q = d)).

(** All paths present, in the order the map enumerates them. *)
Definition entries (fs : filesystem) : list path := (map_to_list fs).*1.

(** [Path.iterdir] on a directory. *)
Definition listdir (fs : filesystem) (d : path) : list path :=
  filter (λ q, child_of d q = true) (entries fs).

(** [d.glob("*" + ext)]. *)
Definition glob (fs : filesystem) (d : path) (ext : string) : list path :=
  filter (λ q, has_ext ext q = true) (listdir fs d).

(** [d.glob("**/*" + ext)]. *)
Definition rglob (fs : filesystem) (d : path) (ext : string) : list path :=
  filter (λ q, below d q && has_ext ext q = true) (entries fs).

(** ** Exceptions, log lines and the state of the application *)

Inductive exn :=
  | MissingFolder (bot_path : path)
      (* FileNotFoundError(tr.t("msg_error_bot_folder_does_not_exist")) *)
  | FileNotFoundError (p : path)
  | NotADirectoryError (p : path)
  | IsADirectoryError (p : path)
  | FileExistsError (p : path)
  | SameFileError (src dst : path).

#[global] Instance exn_eq_dec : EqDecision exn.
Proof. solve_decision. Defined.

Inductive tag := info | success | warn | error.

#[global] Instance tag_eq_dec : EqDecision tag.
Proof. solve_decision. Defined.

(** One constructor per message the source formats; the arguments are the
    values interpolated into it. *)
Inductive msg :=
  | OperationStart (total : nat)
  | Processing (idx total : nat) (bp : path)
  | Completed (idx total : nat) (bp : path)
  | ErrorProcessing (idx total : nat) (bp : path) (e : exn)
  | Traceback (e : exn)
  | OperationOk (total : nat)
  | OperationErrors (errors : nat)
  | DidNotRemoveLog (f : path) (e : exn)
  | RemovedLogs (removed : nat) (logs_dir : path)
  | NoLogsFolder (bot_path : path)
  | DidNotRemove (p : path) (e : exn)
  | RemovedJars (removed : nat) (plugins_old : path)
  | NoPluginsOld (bot_path : path)
  | RemovedElements (removed : nat) (plugins_updates : path)
  | CreatedFolder (plugins_updates : path)
  | FailedToCreate (plugins_updates : path) (e : exn)
  | CopiedDarkBot (dest : path)
  | FailedToCopyDarkBot (bot_path : path) (e : exn)
  | InvalidDarkBot (darkjar_src : path)
  | SkippedDarkBotPlugin (jar_name : string)
  | FailedToCopy (jar plugins_updates : path) (e : exn)
  | CopiedPlugins (copied : nat) (plugins_updates : path)
  | InvalidPluginFolder (plugin_src_folder : path)
  | ClearingStart (total : nat)
  | Clearing (idx total : nat) (bp : path)
  | Cleared (idx total : nat) (bp : path)
  | ErrorClearing (idx total : nat) (bp : path) (e : exn)
  | ClearingOk (total : nat)
  | ClearingErrors (errors : nat)
  | DidNotDeleteLog (f : path) (e : exn)
  | MissingLogs (bot_path : path)
  | DidNotDelete (jar : path) (e : exn)
  | MissingPluginsOld (bot_path : path)
  | NoBotRoot
  | LoadedBots (count : nat) (root : path).

#[global] Instance msg_eq_dec : EqDecision msg.
Proof. solve_decision. Defined.

Inductive thread_id := MainThread | WorkerThread.

Inductive widget := ProgressBar | LogText | ListBox | MessageBox.

#[global] Instance thread_id_eq_dec : EqDecision thread_id.
Proof. solve_decision. Defined.

#[global] Instance widget_eq_dec : EqDecision widget.
Proof. solve_decision. Defined.

(** [self.cfg], as read by the workers. *)
Record config := Config {
  darkbot_jar_path : path;
  plugin_updates_folder : path
}.

(** The file system together with the fields of [DarkBotManagerGUI] that the
    modelled methods read or write.  [thread] is the thread executing the
    current statement; [widget_writes] records, for every statement that
    mutates a Tk widget, the thread that executed it. *)
Record world := World {
  files : filesystem;
  cfg : config;
  log_text : list (tag * msg);
  progress_value : nat;
  progress_maximum : nat;
  listbox : list path;
  thread : thread_id;
  widget_writes : list (thread_id * widget)
}.

Definition set_files (f : filesystem → filesystem) (w : world) : world :=
  World (f (files w)) (cfg w) (log_text w) (progress_value w)
        (progress_maximum w) (listbox w) (thread w) (widget_writes w).

Definition touch (wd : widget) (w : world) : world :=
  World (files w) (cfg w) (log_text w) (progress_value w)
        (progress_maximum w) (listbox w) (thread w)
        (widget_writes w ++ [(thread w, wd)]).

(** ** A state and exception monad *)

Inductive outcome (A : Type) :=
  | Return (a : A)
  | Raise (e : exn).
Arguments Return {A} a.
Arguments Raise {A} e.

Definition M (A : Type) : Type := world → outcome A * world.

Definition ret {A} (a : A) : M A := λ w, (Return a, w).

Definition raise {A} (e : exn) : M A := λ w, (Raise e, w).

Definition bind {A B} (m : M A) (k : A → M B) : M B :=
  λ w, match m w with
       | (Return a, w') => k a w'
       | (Raise e, w') => (Raise e, w')
       end.

(** [try: m  except Exception as e: h e] *)
Definition try_except {A} (m : M A) (h : exn → M A) : M A :=
  λ w, match m w with
       | (Return a, w') => (Return a, w')
       | (Raise e, w') => h e w'
       end.

(** [try: m  finally: f] *)
Definition try_finally {A} (m : M A) (f : M unit) : M A :=
  λ w, match m w with
       | (r, w') => match f w' with
                    | (Return _, w'') => (r, w'')
                    | (Raise e, w'') => (Raise e, w'')
                    end
       end.

#[global] Instance M_ret : MRet M := @ret.
#[global] Instance M_bind : MBind M := λ A B k m, bind m k.

Definition get_files : M filesystem := λ w, (Return (files w), w).

(** [for x in l: acc = body x acc], the accumulator being the local counter
    of the loop. *)
Fixpoint for_each {A S : Type} (l : list A) (acc : S) (body : A → S → M S) : M S :=
  match l with
  | [] => ret acc
  | x :: l' => acc' ← body x acc; for_each l' acc' body
  end.

(** ** File operations *)

(** An operation of the operating system: a new file system or an error,
    in which case nothing has changed. *)
Definition fs_op (f : filesystem → exn + filesystem) : M unit := λ w,
  match f (files w) with
  | inr fs' => (Return (), set_files (λ _, fs') w)
  | inl e => (Raise e, w)
  end.

(** [Path.unlink] *)
Definition unlink_fs (p : path) (fs : filesystem) : exn + filesystem :=
  match fs !! p with
  | Some (File _) => inr (delete p fs)
  | Some Dir => inl (IsADirectoryError p)
  | None => inl (FileNotFoundError p)
  end.

Definition unlink (p : path) : M unit := fs_op (unlink_fs p).

(** [shutil.rmtree] *)
Definition rmtree_fs (p : path) (fs : filesystem) : exn + filesystem :=
  match fs !! p with
  | Some Dir => inr (filter (λ kv, ¬ p `suffix_of` kv.1) fs)
  | Some (File _) => inl (NotADirectoryError p)
  | None => inl (FileNotFoundError p)
  end.

Definition rmtree (p : path) : M unit := fs_op (rmtree_fs p).

(** [Path.mkdir(parents=True, exist_ok=True)]: [os.mkdir] first, the parents
    on [FileNotFoundError], and [exist_ok] accepting only a directory. *)
Fixpoint mkdir_parents_fs (p : path) (fs : filesystem) : exn + filesystem :=
  match fs !! p with
  | Some Dir => inr fs
  | Some (File _) => inl (FileExistsError p)
  | None =>
      match p with
      | [] => inl (FileNotFoundError p)
      | _ :: par =>
          match fs !! par with
          | Some Dir => inr (<[p := Dir]> fs)
          | Some (File _) => inl (NotADirectoryError p)
          | None =>
              match mkdir_parents_fs par fs with
              | inr fs' => inr (<[p := Dir]> fs')
              | inl e => inl e
              end
          end
      end
  end.

Definition mkdir_parents (p : path) : M unit := fs_op (mkdir_parents_fs p).

(** [shutil.copy2(src, dst)]: a directory [dst] receives the file under the
    base name of [src]; then [copyfile] refuses the same file, reads [src]
    and opens the target for writing. *)
Definition copy2_fs (src dst : path) (fs : filesystem) : exn + filesystem :=
  let dst := if is_dir fs dst then dst // name src else dst in
  if bool_decide (src = dst) && exists_ fs src then inl (SameFileError src dst)
  else match fs !! src with
       | None => inl (FileNotFoundError src)
       | Some Dir => inl (IsADirectoryError src)
       | Some (File data) =>
           match fs !! dst with
           | Some Dir => inl (IsADirectoryError dst)
           | _ =>
               match fs !! parent dst with
               | Some Dir => inr (<[dst := File data]> fs)
               | Some (File _) => inl (NotADirectoryError dst)
               | None => inl (FileNotFoundError dst)
               end
           end
       end.

Definition copy2 (src dst : path) : M unit := fs_op (copy2_fs src dst).

(** ** Widgets *)

(** [_log]: four statements on [self.log.text], one line appended. *)
Definition _log (text : msg) (t : tag) : M unit := λ w,
  (Return (),
   touch LogText
     (World (files w) (cfg w) (log_text w ++ [(t, text)]) (progress_value w)
            (progress_maximum w) (listbox w) (thread w) (widget_writes w))).

Definition log_info (text : msg) : M unit := _log text info.
Definition log_success (text : msg) : M unit := _log text success.
Definition log_warn (text : msg) : M unit := _log text warn.
Definition log_error (text : msg) : M unit := _log text error.

(** [self.progress["value"] = v] *)
Definition set_progress_value (v : nat) : M unit := λ w,
  (Return (),
   touch ProgressBar
     (World (files w) (cfg w) (log_text w) v
            (progress_maximum w) (listbox w) (thread w) (widget_writes w))).

(** [self.progress["maximum"] = v] *)
Definition set_progress_maximum (v : nat) : M unit := λ w,
  (Return (),
   touch ProgressBar
     (World (files w) (cfg w) (log_text w) (progress_value w)
            v (listbox w) (thread w) (widget_writes w))).

(** [messagebox.showinfo] *)
Definition showinfo : M unit := λ w, (Return (), touch MessageBox w).

(** [self.listbox.delete(0, END)] *)
Definition listbox_clear : M unit := λ w,
  (Return (),
   touch ListBox
     (World (files w) (cfg w) (log_text w) (progress_value w)
            (progress_maximum w) [] (thread w) (widget_writes w))).

(** [self.listbox.insert(END, str(p))] *)
Definition listbox_insert (p : path) : M unit := λ w,
  (Return (),
   touch ListBox
     (World (files w) (cfg w) (log_text w) (progress_value w)
            (progress_maximum w) (listbox w ++ [p]) (thread w) (widget_writes w))).

(** [threading.Thread(target=m).start()]: the statements of [m] execute on
    the new thread; the interleaving with the interface thread is not
    modelled. *)
Definition in_thread {A} (t : thread_id) (m : M A) : M A := λ w,
  match m (World (files w) (cfg w) (log_text w) (progress_value w)
                 (progress_maximum w) (listbox w) t (widget_writes w)) with
  | (r, w') =>
      (r, World (files w') (cfg w') (log_text w') (progress_value w')
                (progress_maximum w') (listbox w') (thread w) (widget_writes w'))
  end.

Definition get_cfg : M config := λ w, (Return (cfg w), w).

Definition get_listbox : M (list path) := λ w, (Return (listbox w), w).

(** [Path.iterdir] *)
Definition iterdir (d : path) : M (list path) := λ w,
  match files w !! d with
  | Some Dir => (Return (listdir (files w) d), w)
  | Some (File _) => (Raise (NotADirectoryError d), w)
  | None => (Raise (FileNotFoundError d), w)
  end.

(** ** Folder enumerator *)

Definition is_bot_folder (fs : filesystem) (p : path) : bool :=
  if negb (is_dir fs p) then false
  else if exists_ fs (p // "logs") || exists_ fs (p // "plugins") then true
  else true.

(** [str.lower] on a name of ASCII characters: the letters [A] to [Z] are
    lowered and nothing else is.  On a name with other characters
    [str.lower] also lowers the letters of other alphabets, which is not
    modelled: what is stated about the order of the list is stated for
    ASCII names, see [is_ascii]. *)
Definition lower_ascii (c : Ascii.ascii) : Ascii.ascii :=
  let n := Ascii.nat_of_ascii c in
  if Nat.leb 65 n && Nat.leb n 90 then Ascii.ascii_of_nat (n + 32) else c.

Fixpoint lower (s : string) : string :=
  match s with
  | EmptyString => EmptyString
  | String c s' => String (lower_ascii c) (lower s')
  end.

(** [s.isascii()]: every character has a code below 128. *)
Fixpoint is_ascii (s : string) : bool :=
  match s with
  | EmptyString => true
  | String c s' => Nat.ltb (Ascii.nat_of_ascii c) 128 && is_ascii s'
  end.

(** [sorted(l, key=key)]: a stable sort, ascending in the key. *)
Fixpoint insert_by {A} (key : A → string) (x : A) (l : list A) : list A :=
  match l with
  | [] => [x]
  | y :: l' => if String.leb (key x) (key y) then x :: y :: l'
               else y :: insert_by key x l'
  end.

Definition sorted {A} (l : list A) (key : A → string) : list A :=
  foldr (insert_by key) [] l.

(** [bots_root] is [None] when the entry field is blank. *)
Definition refresh_bot_list (bots_root : option path) : M unit :=
  listbox_clear;;
  fs ← get_files;
  match bots_root with
  | None => log_warn NoBotRoot
  | Some root =>
      if negb (exists_ fs root) then log_warn NoBotRoot
      else
        l ← iterdir root;
        let children := sorted (filter (λ p, is_dir fs p = true) l)
                               (λ p, lower (name p)) in
        for_each children ()
          (λ p _, if is_bot_folder fs p then listbox_insert p else mret ());;
        shown ← get_listbox;
        log_info (LoadedBots (length shown) root)
  end.

(** ** Per-folder maintenance *)

(** [# 1) logs] *)
Definition step_logs (bot_path : path) : M unit :=
  let logs_dir := bot_path // "logs" in
  fs ← get_files;
  if exists_ fs logs_dir && is_dir fs logs_dir then
    removed ← for_each (rglob fs logs_dir ".log") 0
      (λ f removed,
         try_except (unlink f;; mret (S removed))
                    (λ e, log_warn (DidNotRemoveLog f e);; mret removed));
    log_info (RemovedLogs removed logs_dir)
  else log_warn (NoLogsFolder bot_path).

(** [# 2) plugins/old] *)
Definition step_plugins_old (bot_path : path) : M unit :=
  let plugins_old := bot_path // "plugins" // "old" in
  fs ← get_files;
  if exists_ fs plugins_old && is_dir fs plugins_old then
    removed ← for_each (glob fs plugins_old ".jar") 0
      (λ jar removed,
         try_except (unlink jar;; mret (S removed))
                    (λ e, log_warn (DidNotRemove jar e);; mret removed));
    log_info (RemovedJars removed plugins_old)
  else log_warn (NoPluginsOld bot_path).

(** [# 3) plugins/updates -> delete all files inside (but keep folder)] *)
Definition step_plugins_updates (bot_path : path) : M unit :=
  let plugins_updates := bot_path // "plugins" // "updates" in
  fs ← get_files;
  if exists_ fs plugins_updates && is_dir fs plugins_updates then
    l ← iterdir plugins_updates;
    removed ← for_each l 0
      (λ p removed,
         try_except
           (fs ← get_files;
            if is_file fs p then unlink p;; mret (S removed)
            else if is_dir fs p then rmtree p;; mret (S removed)
            else mret removed)
           (λ e, log_warn (DidNotRemove p e);; mret removed));
    log_info (RemovedElements removed plugins_updates)
  else
    try_except (mkdir_parents plugins_updates;;
                log_info (CreatedFolder plugins_updates))
               (λ e, log_warn (FailedToCreate plugins_updates e)).

(** [# 4) copy DarkBot.jar]; a [Path] is always truthy, so the leading
    [darkjar_src and] of the test is no condition. *)
Definition step_copy_darkbot (bot_path darkjar_src : path) : M unit :=
  fs ← get_files;
  if exists_ fs darkjar_src && is_file fs darkjar_src
     && bool_decide (name darkjar_src = "DarkBot.jar") then
    let dest := bot_path // "DarkBot.jar" in
    try_except (copy2 darkjar_src dest;; log_info (CopiedDarkBot dest))
               (λ e, log_warn (FailedToCopyDarkBot bot_path e))
  else log_warn (InvalidDarkBot darkjar_src).

(** [# 5) copy plugin jars] *)
Definition step_copy_plugins (bot_path plugin_src_folder : path) : M unit :=
  let plugins_updates := bot_path // "plugins" // "updates" in
  fs ← get_files;
  if exists_ fs plugin_src_folder && is_dir fs plugin_src_folder then
    copied ← for_each (glob fs plugin_src_folder ".jar") 0
      (λ jar copied,
         if bool_decide (name jar = "DarkBot.jar") then
           log_warn (SkippedDarkBotPlugin (name jar));; mret copied
         else
           try_except
             (let dest := plugins_updates // name jar in
              copy2 jar dest;; mret (S copied))
             (λ e, log_warn (FailedToCopy jar plugins_updates e);; mret copied));
    log_info (CopiedPlugins copied plugins_updates)
  else log_warn (InvalidPluginFolder plugin_src_folder).

Definition process_single_bot (bot_path darkjar_src plugin_src_folder : path) : M unit :=
  fs ← get_files;
  if negb (exists_ fs bot_path) || negb (is_dir fs bot_path) then
    raise (MissingFolder bot_path)
  else
    step_logs bot_path;;
    step_plugins_old bot_path;;
    step_plugins_updates bot_path;;
    step_copy_darkbot bot_path darkjar_src;;
    step_copy_plugins bot_path plugin_src_folder.

Definition clear_single_bot (bot_path : path) : M unit :=
  fs ← get_files;
  if negb (exists_ fs bot_path) || negb (is_dir fs bot_path) then
    raise (MissingFolder bot_path)
  else
    (let logs := bot_path // "logs" in
     fs ← get_files;
     if exists_ fs logs && is_dir fs logs then
       removed ← for_each (rglob fs logs ".log") 0
         (λ f removed,
            try_except (unlink f;; mret (S removed))
                       (λ e, log_warn (DidNotDeleteLog f e);; mret removed));
       log_info (RemovedLogs removed logs)
     else log_warn (MissingLogs bot_path));;
    (let old := bot_path // "plugins" // "old" in
     fs ← get_files;
     if exists_ fs old && is_dir fs old then
       removed ← for_each (glob fs old ".jar") 0
         (λ jar removed,
            try_except (unlink jar;; mret (S removed))
                       (λ e, log_warn (DidNotDelete jar e);; mret removed));
       log_info (RemovedJars removed old)
     else log_warn (MissingPluginsOld bot_path)).

(** ** Batch runners *)

(** [enumerate(l, start=1)] *)
Definition enumerate1 {A} (l : list A) : list (nat * A) :=
  zip (seq 1 (length l)) l.

Definition _run_worker (bot_paths : list path) : M unit :=
  let total := length bot_paths in
  set_progress_value 0;;
  set_progress_maximum total;;
  log_info (OperationStart total);;
  c ← get_cfg;
  let darkjar := darkbot_jar_path c in
  let plugin_src := plugin_updates_folder c in
  errors ← for_each (enumerate1 bot_paths) 0
    (λ '(idx, bp) errors,
       try_finally
         (try_except
            (log_info (Processing idx total bp);;
             process_single_bot bp darkjar plugin_src;;
             log_success (Completed idx total bp);;
             mret errors)
            (λ e,
               log_error (ErrorProcessing idx total bp e);;
               log_info (Traceback e);;
               mret (S errors)))
         (set_progress_value idx));
  (if bool_decide (errors = 0) then log_success (OperationOk total)
   else log_warn (OperationErrors errors));;
  showinfo.

Definition clear_old_logs_worker (bot_paths : list path) : M unit :=
  let total := length bot_paths in
  set_progress_value 0;;
  set_progress_maximum total;;
  log_info (ClearingStart total);;
  errors ← for_each (enumerate1 bot_paths) 0
    (λ '(idx, bp) errors,
       try_finally
         (try_except
            (log_info (Clearing idx total bp);;
             clear_single_bot bp;;
             log_success (Cleared idx total bp);;
             mret errors)
            (λ e,
               log_error (ErrorClearing idx total bp e);;
               log_info (Traceback e);;
               mret (S errors)))
         (set_progress_value idx));
  (if bool_decide (errors = 0) then log_success (ClearingOk total)
   else log_warn (ClearingErrors errors));;
  showinfo.


Definition run_on_all : M unit :=
  all_items ← get_listbox;
  match all_items with
  | [] => showinfo
  | _ => in_thread WorkerThread (_run_worker all_items);; showinfo
  end.


(** ** The effect of each step on the file system

    The loops of the steps catch every exception of the operation they
    attempt, so on the file system a step is a fold of attempted operations. *)

(** [try: f  except Exception: pass], on the file system alone. *)
Definition try_fs (f : filesystem → exn + filesystem) (fs : filesystem) : filesystem :=
  match f fs with
  | inr fs' => fs'
  | inl _ => fs
  end.

(** The body of the loop over [plugins/updates]. *)
Definition remove_fs (p : path) (fs : filesystem) : exn + filesystem :=
  if is_file fs p then unlink_fs p fs
  else if is_dir fs p then rmtree_fs p fs
  else inr fs.

Definition attempt_all (op : path → filesystem → exn + filesystem)
    (l : list path) (fs : filesystem) : filesystem :=
  foldl (λ fs p, try_fs (op p) fs) fs l.

Definition logs_effect (bot_path : path) (fs : filesystem) : filesystem :=
  let logs_dir := bot_path // "logs" in
  if is_dir fs logs_dir then attempt_all unlink_fs (rglob fs logs_dir ".log") fs
  else fs.

Definition plugins_old_effect (bot_path : path) (fs : filesystem) : filesystem :=
  let plugins_old := bot_path // "plugins" // "old" in
  if is_dir fs plugins_old then attempt_all unlink_fs (glob fs plugins_old ".jar") fs
  else fs.

Definition plugins_updates_effect (bot_path : path) (fs : filesystem) : filesystem :=
  let plugins_updates := bot_path // "plugins" // "updates" in
  if is_dir fs plugins_updates then
    attempt_all remove_fs (listdir fs plugins_updates) fs
  else try_fs (mkdir_parents_fs plugins_updates) fs.

Definition darkbot_ok (fs : filesystem) (darkjar_src : path) : bool :=
  exists_ fs darkjar_src && is_file fs darkjar_src
  && bool_decide (name darkjar_src = "DarkBot.jar").

Definition copy_darkbot_effect (bot_path darkjar_src : path) (fs : filesystem) : filesystem :=
  if darkbot_ok fs darkjar_src then
    try_fs (copy2_fs darkjar_src (bot_path // "DarkBot.jar")) fs
  else fs.

Definition copy_plugin_fs (plugins_updates jar : path) (fs : filesystem) : exn + filesystem :=
  if bool_decide (name jar = "DarkBot.jar") then inr fs
  else copy2_fs jar (plugins_updates // name jar) fs.

Definition copy_plugins_effect (bot_path plugin_src_folder : path) (fs : filesystem) : filesystem :=
  let plugins_updates := bot_path // "plugins" // "updates" in
  if is_dir fs plugin_src_folder then
    attempt_all (copy_plugin_fs plugins_updates) (glob fs plugin_src_folder ".jar") fs
  else fs.

(** Steps 2 and 3, the part shared with the log-only procedure. *)
Definition purge_effect (bot_path : path) (fs : filesystem) : filesystem :=
  plugins_old_effect bot_path (logs_effect bot_path fs).

Definition process_effect (bot_path darkjar_src plugin_src_folder : path)
    (fs : filesystem) : filesystem :=
  if is_dir fs bot_path then
    copy_plugins_effect bot_path plugin_src_folder
      (copy_darkbot_effect bot_path darkjar_src
         (plugins_updates_effect bot_path (purge_effect bot_path fs)))
  else fs.

(** The staging folder is there and holds no folder. *)
Definition staged (bot_path : path) (fs : filesystem) : Prop :=
  let plugins_updates := bot_path // "plugins" // "updates" in
  fs !! plugins_updates = Some Dir ∧
  ∀ q, below plugins_updates q = true → fs !! q ≠ Some Dir.

(** The content of the regular file at [p], if there is one. *)
Definition file_at (fs : filesystem) (p : path) : option string :=
  match fs !! p with
  | Some (File data) => Some data
  | _ => None
  end.

(** The names step 5b copies: [*.jar] other than the application jar. *)
Definition plugin_jar (n : string) : bool :=
  has_ext ".jar" [n] && negb (bool_decide (n = "DarkBot.jar")).

(** ** What a computation may do besides changing files *)

(** Lines written by the batch runners and the enumerator, as opposed to
    the lines of the per-folder steps. *)
Definition batch_line (m : msg) : bool :=
  match m with
  | OperationStart _ | Processing _ _ _ | Completed _ _ _
  | ErrorProcessing _ _ _ _ | Traceback _ | OperationOk _ | OperationErrors _
  | ClearingStart _ | Clearing _ _ _ | Cleared _ _ _ | ErrorClearing _ _ _ _
  | ClearingOk _ | ClearingErrors _ | NoBotRoot | LoadedBots _ _ => true
  | _ => false
  end.

(** [w'] comes from [w] by statements executed on the thread of [w]. *)
Definition same_thread (w w' : world) : Prop :=
  thread w' = thread w ∧
  ∃ ws, widget_writes w' = widget_writes w ++ ws ∧ Forall (λ e, e.1 = thread w) ws.

(** [w'] comes from [w] by the statements of a per-folder step: only step
    lines are logged, and nothing but files and the log changes. *)
Definition extends (w w' : world) : Prop :=
  cfg w' = cfg w ∧ listbox w' = listbox w ∧
  progress_value w' = progress_value w ∧
  progress_maximum w' = progress_maximum w ∧
  (∃ lg, log_text w' = log_text w ++ lg ∧ Forall (λ e, batch_line e.2 = false) lg) ∧
  same_thread w w'.

(** Every statement of [m] executes on the thread that runs [m]. *)
Definition threaded {A} (m : M A) : Prop := ∀ w, same_thread w (m w).2.

(** The effect of the log-only procedure on the file system. *)
Definition purge_if_dir (bp : path) (fs : filesystem) : filesystem :=
  if is_dir fs bp then purge_effect bp fs else fs.

(** [q] is among the entries the log-only procedure on [bp] tries to unlink:
    the folder is there, and [q] matches [logs/**/*.log] or
    [plugins/old/*.jar] with that subfolder in place. *)
Definition purge_target (fs : filesystem) (bp q : path) : bool :=
  is_dir fs bp
  && (is_dir fs (bp // "logs") && below (bp // "logs") q && has_ext ".log" q
      || is_dir fs (bp // "plugins" // "old")
         && child_of (bp // "plugins" // "old") q && has_ext ".jar" q).

(** The validation with steps 2 and 3 of [process_single_bot], and its
    steps 4 and 5. *)
Definition purge_portion (bot_path : path) : M unit :=
  fs ← get_files;
  if negb (exists_ fs bot_path) || negb (is_dir fs bot_path) then
    raise (MissingFolder bot_path)
  else
    step_logs bot_path;;
    step_plugins_old bot_path.

Definition install_portion (bot_path darkjar_src plugin_src_folder : path) : M unit :=
  step_plugins_updates bot_path;;
  step_copy_darkbot bot_path darkjar_src;;
  step_copy_plugins bot_path plugin_src_folder.

(** The two procedures word four of their lines differently. *)
Definition wording (m : msg) : msg :=
  match m with
  | DidNotDeleteLog f e => DidNotRemoveLog f e
  | MissingLogs bot_path => NoLogsFolder bot_path
  | DidNotDelete jar e => DidNotRemove jar e
  | MissingPluginsOld bot_path => NoPluginsOld bot_path
  | m => m
  end.

(** Two states that differ at most in the wording of log lines. *)
Definition alike (w1 w2 : world) : Prop :=
  files w1 = files w2 ∧ cfg w1 = cfg w2 ∧
  prod_map id wording <$> log_text w1 = prod_map id wording <$> log_text w2 ∧
  progress_value w1 = progress_value w2 ∧
  progress_maximum w1 = progress_maximum w2 ∧
  listbox w1 = listbox w2 ∧ thread w1 = thread w2 ∧
  widget_writes w1 = widget_writes w2.

(** [m1] and [m2] do the same, up to that wording. *)
Definition sim {A} (m1 m2 : M A) : Prop :=
  ∀ w1 w2, alike w1 w2 → (m1 w1).1 = (m2 w2).1 ∧ alike (m1 w1).2 (m2 w2).2.

(** [m] returns normally from [w], leaving the files [fs']. *)
Definition runs {A} (m : M A) (w : world) (fs' : filesystem) : Prop :=
  ∃ a w', m w = (Return a, w') ∧ files w' = fs' ∧ extends w w'.

(** ** The shape of the log of a batch *)

Section batch_log.
(** The lines a worker writes around each folder. *)
Variables (starting finished : nat → nat → path → msg)
          (failed : nat → nat → path → exn → msg).
Variable total : nat.

(** The lines of one folder: the announcement, then either the lines of
    the steps and the completion line, or the error line and the
    traceback.  The flag tells whether the folder failed. *)
Inductive folder_block : nat * path → list (tag * msg) → bool → Prop :=
  | block_completed idx bp inner :
      Forall (λ e, batch_line e.2 = false) inner →
      folder_block (idx, bp)
        ((info, starting idx total bp) :: inner
           ++ [(success, finished idx total bp)]) false
  | block_failed idx bp e :
      folder_block (idx, bp)
        [(info, starting idx total bp); (error, failed idx total bp e);
         (info, Traceback e)] true.

(** One block per folder, in the order of the folders, and the number of
    failed ones. *)
Inductive batch_log : list (nat * path) → list (tag * msg) → nat → Prop :=
  | batch_nil : batch_log [] [] 0
  | batch_cons ip rest blk lg fl errors :
      folder_block ip blk fl →
      batch_log rest lg errors →
      batch_log (ip :: rest) (blk ++ lg) ((if fl then 1 else 0) + errors).
End batch_log.

(** The body of the loop of both workers, over the procedure they call and
    the lines they write. *)
Definition batch_body (proc : path → M unit)
    (starting finished : nat → nat → path → msg)
    (failed : nat → nat → path → exn → msg) (total : nat) :
    nat * path → nat → M nat :=
  λ '(idx, bp) errors,
    try_finally
      (try_except
         (log_info (starting idx total bp);;
          proc bp;;
          log_success (finished idx total bp);;
          mret errors)
         (λ e,
            log_error (failed idx total bp e);;
            log_info (Traceback e);;
            mret (S errors)))
      (set_progress_value idx).

(** The number of folders on which the procedure fails, each met in the
    state its predecessors leave. *)
Fixpoint tally (fails : path → filesystem → bool)
    (eff : path → filesystem → filesystem) (l : list path) (fs : filesystem) : nat :=
  match l with
  | [] => 0
  | bp :: l' => (if fails bp fs then 1 else 0) + tally fails eff l' (eff bp fs)
  end.

(** The folders announced by [Processing] lines, with the counter shown. *)
Definition announced (lg : list (tag * msg)) : list (nat * path) :=
  omap (λ e, match e.2 with
             | Processing idx _ bp => Some (idx, bp)
             | _ => None
             end) lg.

(** The folders reported by [Completed] or [Error processing] lines. *)
Definition reported (lg : list (tag * msg)) : list (nat * path) :=
  omap (λ e, match e.2 with
             | Completed idx _ bp | ErrorProcessing idx _ bp _ => Some (idx, bp)
             | _ => None
             end) lg.

(** ** Sample states *)

(** A bot folder with logs, a stale plugin and a used staging folder, next to
    a source folder with the application jar, two plugins, and a jar under
    another name. *)
Definition sample_files : filesystem :=
  list_to_map
    [ ([], Dir); (["bot"], Dir);
      (["DarkBot.jar"; "bot"], File "old application");
      (["logs"; "bot"], Dir);
      (["a.log"; "logs"; "bot"], File "log a");
      (["notes.txt"; "logs"; "bot"], File "notes");
      (["2024"; "logs"; "bot"], Dir);
      (["b.log"; "2024"; "logs"; "bot"], File "log b");
      (["plugins"; "bot"], Dir);
      (["old"; "plugins"; "bot"], Dir);
      (["stale.jar"; "old"; "plugins"; "bot"], File "stale");
      (["updates"; "plugins"; "bot"], Dir);
      (["left.jar"; "updates"; "plugins"; "bot"], File "left over");
      (["src"], Dir);
      (["DarkBot.jar"; "src"], File "application");
      (["notdarkbot.jar"; "src"], File "something else");
      (["a.jar"; "src"], File "plugin a");
      (["b.jar"; "src"], File "plugin b") ].

(** A bot folder in which [plugins] is a regular file. *)
Definition blocked_files : filesystem :=
  list_to_map
    [ ([], Dir); (["bot"], Dir); (["plugins"; "bot"], File "not a folder");
      (["src"], Dir); (["a.jar"; "src"], File "plugin a") ].

(** A bot folder in which [DarkBot.jar] is a folder, and a valid source. *)
Definition folder_target_files : filesystem :=
  list_to_map
    [ ([], Dir); (["bot"], Dir); (["DarkBot.jar"; "bot"], Dir);
      (["src"], Dir); (["DarkBot.jar"; "src"], File "application") ].

(** A root with two bot folders and a regular file. *)
Definition root_files : filesystem :=
  list_to_map
    [ ([], Dir); (["bots"], Dir); (["beta"; "bots"], Dir);
      (["Alpha"; "bots"], Dir); (["readme.txt"; "bots"], File "read me") ].

(** The application just started on the given files, with the given jar and
    plugin folder configured. *)
Definition started (fs : filesystem) (darkjar plugin_src : path) : world :=
  World fs (Config darkjar plugin_src) [] 0 0 [] MainThread [].

(** ** Configuration and translation files *)

#[local] Set Warnings "-register-all".

(** A value read by [json.load].  A number keeps its literal. *)
Inductive json :=
  | JNull
  | JBool (b : bool)
  | JNum (literal : string)
  | JStr (s : string)
  | JList (l : list json)
  | JDict (items : list (string * json)).

(** What [ensure_config] and [save_config] may raise: an exception of the
    operating system, or [TypeError]. *)
Inductive config_exn :=
  | OSError (e : exn)
  | TypeError.

Definition DEFAULT_CONFIG : list (string * json) :=
  [ ("bots_root", JStr ""); ("darkbot_jar_path", JStr "");
    ("plugin_updates_folder", JStr ""); ("language", JStr "en") ].

(** [k in s] on strings: [k] occurs in [s]. *)
Fixpoint substring_of (k s : string) : bool :=
  String.prefix k s
  || match s with
     | EmptyString => false
     | String _ s' => substring_of k s'
     end.

(** [k in v] for a string [k]: a key of a dict, an element of a list, a
    substring of a string; [None] stands for [TypeError]. *)
Definition py_in (k : string) (v : json) : option bool :=
  match v with
  | JDict items => Some (bool_decide (k ∈ items.*1))
  | JList l => Some (existsb (λ x, match x with
                                   | JStr s => bool_decide (s = k)
                                   | _ => false
                                   end) l)
  | JStr s => Some (substring_of k s)
  | JNull | JBool _ | JNum _ => None
  end.

(** [d[k] = x] on the items of a dict: the value is replaced in place, a new
    key goes last. *)
Fixpoint assoc_set (k : string) (x : json) (items : list (string * json)) :
    list (string * json) :=
  match items with
  | [] => [(k, x)]
  | (k', y) :: rest =>
      if decide (k' = k) then (k, x) :: rest else (k', y) :: assoc_set k x rest
  end.

(** [v[k] = x] for a string [k]; [None] stands for [TypeError]. *)
Definition py_setitem (v : json) (k : string) (x : json) : option json :=
  match v with
  | JDict items => Some (JDict (assoc_set k x items))
  | _ => None
  end.

(** [with open(p, "w") as f: f.write(data)] *)
Definition write_text_fs (p : path) (data : string) (fs : filesystem) :
    exn + filesystem :=
  match fs !! p with
  | Some Dir => inl (IsADirectoryError p)
  | _ =>
      match fs !! parent p with
      | Some Dir => inr (<[p := File data]> fs)
      | Some (File _) => inl (NotADirectoryError p)
      | None => inl (FileNotFoundError p)
      end
  end.

(** [with open(p) as f: f.read()] *)
Definition read_text_fs (p : path) (fs : filesystem) : exn + string :=
  match fs !! p with
  | Some (File data) => inr data
  | Some Dir => inl (IsADirectoryError p)
  | None => inl (FileNotFoundError p)
  end.

(** The loop of [ensure_config] over the items of [DEFAULT_CONFIG]; the
    state is [cfg] and [changed]. *)
Fixpoint complete (defaults : list (string * json)) (cfg : json) (changed : bool) :
    option (json * bool) :=
  match defaults with
  | [] => Some (cfg, changed)
  | (k, v) :: rest =>
      match py_in k cfg with
      | None => None
      | Some true => complete rest cfg changed
      | Some false =>
          match py_setitem cfg k v with
          | None => None
          | Some cfg' => complete rest cfg' true
          end
      end
  end.

(** The line [ensure_translations] prints. *)
Inductive notice :=
  | BundledNotFound
  | CopiedTranslations
  | UpdatedTranslations
  | TranslationsUpToDate.

Section config.
(** [CONFIG_DIR] depends on the environment; [json.dump(v, f, indent=2)] and
    [json.load] are those of the library, [None] standing for the exception
    [json.load] raises on text it cannot decode. *)
Variable CONFIG_DIR : path.
Variable json_dump : json → string.
Variable json_load : string → option json.

Definition CONFIG_FILE : path := CONFIG_DIR // "config.json".
Definition translations_path : path := CONFIG_DIR // "translations.json".

Definition save_config (cfg : json) (fs : filesystem) :
    (config_exn + unit) * filesystem :=
  match mkdir_parents_fs CONFIG_DIR fs with
  | inl e => (inl (OSError e), fs)
  | inr fs1 =>
      match write_text_fs CONFIG_FILE (json_dump cfg) fs1 with
      | inl e => (inl (OSError e), fs1)
      | inr fs2 => (inr (), fs2)
      end
  end.

Definition ensure_config (fs : filesystem) : (config_exn + json) * filesystem :=
  match mkdir_parents_fs CONFIG_DIR fs with
  | inl e => (inl (OSError e), fs)
  | inr fs1 =>
      if negb (exists_ fs1 CONFIG_FILE) then
        match write_text_fs CONFIG_FILE (json_dump (JDict DEFAULT_CONFIG)) fs1 with
        | inl e => (inl (OSError e), fs1)
        | inr fs2 => (inr (JDict DEFAULT_CONFIG), fs2)
        end
      else
        let cfg :=
          match read_text_fs CONFIG_FILE fs1 with
          | inr data =>
              match json_load data with
              | Some v => v
              | None => JDict DEFAULT_CONFIG
              end
          | inl _ => JDict DEFAULT_CONFIG
          end in
        match complete DEFAULT_CONFIG cfg false with
        | None => (inl TypeError, fs1)
        | Some (cfg', changed) =>
            if changed then
              match save_config cfg' fs1 with
              | (inl e, fs2) => (inl e, fs2)
              | (inr _, fs2) => (inr cfg', fs2)
              end
            else (inr cfg', fs1)
        end
  end.

(** [shutil.copy] treats the content as [shutil.copy2] does.  The result is
    the line printed. *)
Definition ensure_translations (bundled_path : path) (fs : filesystem) :
    (exn + notice) * filesystem :=
  let target_path := translations_path in
  if negb (exists_ fs bundled_path) then (inr BundledNotFound, fs)
  else
    match mkdir_parents_fs CONFIG_DIR fs with
    | inl e => (inl e, fs)
    | inr fs1 =>
        if negb (exists_ fs1 target_path) then
          match copy2_fs bundled_path target_path fs1 with
          | inl e => (inl e, fs1)
          | inr fs2 => (inr CopiedTranslations, fs2)
          end
        else
          match read_text_fs bundled_path fs1 with
          | inl e => (inl e, fs1)
          | inr bundled =>
              match read_text_fs target_path fs1 with
              | inl e => (inl e, fs1)
              | inr target =>
                  if bool_decide (bundled ≠ target) then
                    match copy2_fs bundled_path target_path fs1 with
                    | inl e => (inl e, fs1)
                    | inr fs2 => (inr UpdatedTranslations, fs2)
                    end
                  else (inr TranslationsUpToDate, fs1)
              end
          end
    end.
End config.

(** A configuration folder with a configuration file that lacks two keys,
    and the bundled translations beside it. *)
Definition config_files : filesystem :=
  list_to_map
    [ ([], Dir); (["app"], Dir); (["translations.json"; "app"], File "bundled");
      (["cfg"], Dir); (["config.json"; "cfg"], File "stored") ].

Definition stored_config : list (string * json) :=
  [ ("language", JStr "pl"); ("bots_root", JStr "bots") ].

(** A codec for the texts of this sample only: the stored text, and the
    text written for the stored configuration once completed. *)
Definition sample_dump (v : json) : string := "completed".

Definition sample_load (s : string) : option json :=
  if decide (s = "stored") then Some (JDict stored_config)
  else if decide (s = "completed") then
    Some (JDict (stored_config
                 ++ [("darkbot_jar_path", JStr ""); ("plugin_updates_folder", JStr "")]))
  else None.

(** * Properties *)

Section monad.
Context {A B : Type}.

Lemma bind_return (m : M A) (k : A → M B) w a w1 :
  m w = (Return a, w1) → (m ≫= k) w = k a w1.
Proof. unfold mbind, M_bind, bind. by intros ->. Qed.

Lemma bind_raise (m : M A) (k : A → M B) w e w1 :
  m w = (Raise e, w1) → (m ≫= k) w = (Raise e, w1).
Proof. unfold mbind, M_bind, bind. by intros ->. Qed.
End monad.

Lemma same_thread_refl w : same_thread w w.
Proof. split; [done|]. exists []. by rewrite app_nil_r. Qed.

Lemma same_thread_trans w1 w2 w3 :
  same_thread w1 w2 → same_thread w2 w3 → same_thread w1 w3.
Proof.
  intros [Ht1 (ws1 & Hw1 & Hf1)] [Ht2 (ws2 & Hw2 & Hf2)]. split; [congruence|].
  exists (ws1 ++ ws2). split.
  - by rewrite Hw2, Hw1, app_assoc.
  - apply Forall_app. split; [done|]. by rewrite <- Ht1.
Qed.

Lemma extends_refl w : extends w w.
Proof.
  repeat split; try done.
  - exists []. by rewrite app_nil_r.
  - exists []. by rewrite app_nil_r.
Qed.

Lemma extends_trans w1 w2 w3 : extends w1 w2 → extends w2 w3 → extends w1 w3.
Proof.
  intros (Hc1 & Hl1 & Hv1 & Hm1 & (lg1 & Hg1 & Hb1) & Hs1)
         (Hc2 & Hl2 & Hv2 & Hm2 & (lg2 & Hg2 & Hb2) & Hs2).
  repeat split; try congruence.
  - exists (lg1 ++ lg2). split; [by rewrite Hg2, Hg1, app_assoc|].
    by apply Forall_app.
  - destruct Hs1, Hs2; congruence.
  - by destruct (same_thread_trans _ _ _ Hs1 Hs2).
Qed.

Lemma extends_set_files f w : extends w (set_files f w).
Proof.
  unfold extends, same_thread. simpl.
  repeat split; try done; exists []; by rewrite app_nil_r.
Qed.

Lemma log_step m t w :
  batch_line m = false →
  ∃ w', _log m t w = (Return (), w') ∧ files w' = files w ∧ extends w w'.
Proof.
  intros Hm. eexists. split; [reflexivity|]. split; [done|].
  repeat split; simpl; try done.
  - exists [(t, m)]. split; [done|]. by constructor.
  - exists [(thread w, LogText)]. split; [done|]. by constructor.
Qed.

Section runs.
Context {A B : Type}.

Lemma runs_ret (a : A) w : runs (mret a) w (files w).
Proof. exists a, w. split; [done|]. split; [done|]. apply extends_refl. Qed.

Lemma runs_bind (m : M A) (k : A → M B) w fs1 fs2 :
  runs m w fs1 →
  (∀ a w1, files w1 = fs1 → runs (k a) w1 fs2) →
  runs (m ≫= k) w fs2.
Proof.
  intros (a & w1 & Hm & Hf & He) Hk.
  destruct (Hk a w1 Hf) as (b & w2 & Hk2 & Hf2 & He2).
  exists b, w2. split; [by rewrite (bind_return _ _ _ _ _ Hm)|].
  split; [done|]. by eapply extends_trans.
Qed.

Lemma runs_get_files (k : filesystem → M B) w fs2 :
  runs (k (files w)) w fs2 → runs (get_files ≫= k) w fs2.
Proof. intros (b & w2 & Hk & Hf & He). by exists b, w2. Qed.
End runs.

Lemma runs_log m t w : batch_line m = false → runs (_log m t) w (files w).
Proof. intros Hm. destruct (log_step m t w Hm) as (w' & ? & ? & ?). by exists (), w'. Qed.

Lemma runs_log_then {A} m t (a : A) w :
  batch_line m = false → runs (_log m t;; mret a) w (files w).
Proof.
  intros Hm. eapply runs_bind; [by apply runs_log|].
  intros _ w1 <-. apply runs_ret.
Qed.

Lemma runs_for_each {X S : Type} (l : list X) (body : X → S → M S)
    (op : X → filesystem → exn + filesystem) :
  (∀ x acc w, runs (body x acc) w (try_fs (op x) (files w))) →
  ∀ acc w, runs (for_each l acc body) w
                (foldl (λ fs x, try_fs (op x) fs) (files w) l).
Proof.
  intros Hbody. induction l as [|x l IH]; intros acc w; simpl.
  - apply runs_ret.
  - eapply runs_bind; [apply Hbody|]. intros acc' w1 <-. apply IH.
Qed.

(** A guarded operation: the exception is logged and swallowed. *)
Lemma runs_try_op {S : Type} (f : filesystem → exn + filesystem) (a b : S)
    (m : exn → msg) w :
  (∀ e, batch_line (m e) = false) →
  runs (try_except (fs_op f;; mret a) (λ e, log_warn (m e);; mret b)) w
       (try_fs f (files w)).
Proof.
  intros Hm. unfold runs, try_except, try_fs, mbind, M_bind, bind, fs_op.
  destruct (f (files w)) as [e|fs'] eqn:Hf.
  - destruct (log_step (m e) warn w (Hm e)) as (w' & Hl & Hfs & He).
    unfold log_warn. rewrite Hl. by exists b, w'.
  - eexists a, _. split; [done|]. split; [done|]. apply extends_set_files.
Qed.

Lemma runs_remove (p : path) (removed : nat) w :
  runs (try_except
          (fs ← get_files;
           if is_file fs p then unlink p;; mret (S removed)
           else if is_dir fs p then rmtree p;; mret (S removed)
           else mret removed)
          (λ e, log_warn (DidNotRemove p e);; mret removed)) w
       (try_fs (remove_fs p) (files w)).
Proof.
  unfold runs, try_except, try_fs, remove_fs, mbind, M_bind, bind, get_files,
    unlink, rmtree, fs_op.
  destruct (is_file (files w) p) eqn:Hfile.
  - destruct (unlink_fs p (files w)) as [e|fs'] eqn:Hf.
    + destruct (log_step (DidNotRemove p e) warn w eq_refl) as (w' & Hl & Hfs & He).
      unfold log_warn. rewrite Hl. by exists removed, w'.
    + eexists (S removed), _. split; [done|]. split; [done|]. apply extends_set_files.
  - destruct (is_dir (files w) p) eqn:Hdir.
    + destruct (rmtree_fs p (files w)) as [e|fs'] eqn:Hf.
      * destruct (log_step (DidNotRemove p e) warn w eq_refl) as (w' & Hl & Hfs & He).
        unfold log_warn. rewrite Hl. by exists removed, w'.
      * eexists (S removed), _. split; [done|]. split; [done|]. apply extends_set_files.
    + exists removed, w. split; [done|]. split; [done|]. apply extends_refl.
Qed.

Lemma is_dir_exists fs p : exists_ fs p && is_dir fs p = is_dir fs p.
Proof.
  unfold exists_, is_dir. destruct (fs !! p) as [[]|] eqn:E; simpl;
    repeat case_bool_decide; naive_solver.
Qed.

Lemma step_logs_runs bot_path w :
  runs (step_logs bot_path) w (logs_effect bot_path (files w)).
Proof.
  unfold step_logs, logs_effect, attempt_all. apply runs_get_files. rewrite is_dir_exists.
  destruct (is_dir (files w) (bot_path // "logs")).
  - eapply runs_bind.
    + apply (runs_for_each _ _ unlink_fs). intros f acc w1.
      by apply (runs_try_op (unlink_fs f) (S acc) acc (DidNotRemoveLog f)).
    + intros removed w1 <-. by apply runs_log.
  - by apply runs_log.
Qed.

Lemma step_plugins_old_runs bot_path w :
  runs (step_plugins_old bot_path) w (plugins_old_effect bot_path (files w)).
Proof.
  unfold step_plugins_old, plugins_old_effect, attempt_all. apply runs_get_files.
  rewrite is_dir_exists.
  destruct (is_dir (files w) (bot_path // "plugins" // "old")).
  - eapply runs_bind.
    + apply (runs_for_each _ _ unlink_fs). intros f acc w1.
      by apply (runs_try_op (unlink_fs f) (S acc) acc (DidNotRemove f)).
    + intros removed w1 <-. by apply runs_log.
  - by apply runs_log.
Qed.

Lemma runs_iterdir {B} (d : path) (k : list path → M B) w fs2 :
  is_dir (files w) d = true →
  runs (k (listdir (files w) d)) w fs2 → runs (iterdir d ≫= k) w fs2.
Proof.
  intros Hd (b & w2 & Hk & Hf & He). exists b, w2. split; [|done].
  apply bool_decide_eq_true in Hd.
  unfold mbind, M_bind, bind, iterdir. by rewrite Hd.
Qed.

Lemma step_plugins_updates_runs bot_path w :
  runs (step_plugins_updates bot_path) w (plugins_updates_effect bot_path (files w)).
Proof.
  unfold step_plugins_updates, plugins_updates_effect, attempt_all. apply runs_get_files.
  rewrite is_dir_exists.
  destruct (is_dir (files w) (bot_path // "plugins" // "updates")) eqn:Hd.
  - apply runs_iterdir; [done|]. eapply runs_bind.
    + apply (runs_for_each _ _ remove_fs). intros p acc w2. apply runs_remove.
    + intros removed w2 <-. by apply runs_log.
  - unfold runs, try_except, try_fs, mbind, M_bind, bind, mkdir_parents, fs_op.
    destruct (mkdir_parents_fs _ (files w)) as [e|fs'] eqn:Hf.
    + destruct (log_step (FailedToCreate (bot_path // "plugins" // "updates") e)
                  warn w eq_refl) as (w' & Hl & Hfs & He).
      unfold log_warn. rewrite Hl. by exists (), w'.
    + destruct (log_step (CreatedFolder (bot_path // "plugins" // "updates"))
                  info (set_files (λ _, fs') w) eq_refl) as (w' & Hl & Hfs & He).
      unfold log_info. rewrite Hl. exists (), w'. split; [done|]. split; [done|].
      eapply extends_trans; [apply extends_set_files|done].
Qed.

Lemma step_copy_darkbot_runs bot_path darkjar_src w :
  runs (step_copy_darkbot bot_path darkjar_src) w
       (copy_darkbot_effect bot_path darkjar_src (files w)).
Proof.
  unfold step_copy_darkbot, copy_darkbot_effect, darkbot_ok. apply runs_get_files.
  destruct (_ && _ && _).
  - unfold runs, try_except, try_fs, mbind, M_bind, bind, copy2, fs_op.
    destruct (copy2_fs _ _ (files w)) as [e|fs'] eqn:Hf.
    + destruct (log_step (FailedToCopyDarkBot bot_path e) warn w eq_refl)
        as (w' & Hl & Hfs & He).
      unfold log_warn. rewrite Hl. by exists (), w'.
    + destruct (log_step (CopiedDarkBot (bot_path // "DarkBot.jar"))
                  info (set_files (λ _, fs') w) eq_refl) as (w' & Hl & Hfs & He).
      unfold log_info. rewrite Hl. exists (), w'. split; [done|]. split; [done|].
      eapply extends_trans; [apply extends_set_files|done].
  - by apply runs_log.
Qed.

Lemma step_copy_plugins_runs bot_path plugin_src_folder w :
  runs (step_copy_plugins bot_path plugin_src_folder) w
       (copy_plugins_effect bot_path plugin_src_folder (files w)).
Proof.
  unfold step_copy_plugins, copy_plugins_effect, attempt_all. apply runs_get_files.
  rewrite is_dir_exists.
  destruct (is_dir (files w) plugin_src_folder).
  - eapply runs_bind.
    + apply (runs_for_each _ _ (copy_plugin_fs (bot_path // "plugins" // "updates"))).
      intros jar acc w1. unfold copy_plugin_fs.
      destruct (bool_decide (name jar = "DarkBot.jar")).
      * unfold try_fs. by apply runs_log_then.
      * by apply (runs_try_op (copy2_fs jar _) (S acc) acc
                    (FailedToCopy jar (bot_path // "plugins" // "updates"))).
    + intros copied w1 <-. by apply runs_log.
  - by apply runs_log.
Qed.

(** The five steps of the full procedure on an existing folder. *)
Lemma process_single_bot_runs bot_path darkjar_src plugin_src_folder w :
  is_dir (files w) bot_path = true →
  runs (process_single_bot bot_path darkjar_src plugin_src_folder) w
       (process_effect bot_path darkjar_src plugin_src_folder (files w)).
Proof.
  intros Hd. unfold process_single_bot, process_effect, purge_effect.
  apply runs_get_files. rewrite Hd.
  assert (exists_ (files w) bot_path = true) as ->.
  { pose proof Hd as Hd'. rewrite <- is_dir_exists in Hd'.
    apply andb_true_iff in Hd'. by destruct Hd'. }
  simpl.
  eapply runs_bind; [apply step_logs_runs|]. intros _ w1 <-.
  eapply runs_bind; [apply step_plugins_old_runs|]. intros _ w2 <-.
  eapply runs_bind; [apply step_plugins_updates_runs|]. intros _ w3 <-.
  eapply runs_bind; [apply step_copy_darkbot_runs|]. intros _ w4 <-.
  apply step_copy_plugins_runs.
Qed.

Lemma process_single_bot_missing bot_path darkjar_src plugin_src_folder w :
  is_dir (files w) bot_path = false →
  process_single_bot bot_path darkjar_src plugin_src_folder w
  = (Raise (MissingFolder bot_path), w).
Proof.
  intros Hd. unfold process_single_bot, mbind, M_bind, bind, get_files.
  rewrite Hd, orb_true_r. done.
Qed.

(** ** Facts on the file system model *)

Lemma is_dir_true fs p : is_dir fs p = true ↔ fs !! p = Some Dir.
Proof. unfold is_dir. by rewrite bool_decide_eq_true. Qed.

Lemma is_dir_false fs p : is_dir fs p = false ↔ fs !! p ≠ Some Dir.
Proof. unfold is_dir. by rewrite bool_decide_eq_false. Qed.

Lemma is_file_true fs p : is_file fs p = true ↔ ∃ data, fs !! p = Some (File data).
Proof.
  unfold is_file. destruct (fs !! p) as [[data|]|]; split; try done; eauto.
  - by intros [? ?].
  - by intros [? ?].
Qed.

Lemma is_file_false fs p :
  is_file fs p = false ↔ fs !! p = Some Dir ∨ fs !! p = None.
Proof.
  unfold is_file. destruct (fs !! p) as [[data|]|]; split; try done; eauto.
  by intros [?|?].
Qed.

Lemma exists_true fs p : exists_ fs p = true ↔ is_Some (fs !! p).
Proof. unfold exists_. by rewrite bool_decide_eq_true. Qed.

Lemma child_of_true d q : child_of d q = true ↔ ∃ x, q = d // x.
Proof.
  destruct q as [|x p]; simpl.
  - split; [done|]. by intros [? ?].
  - rewrite bool_decide_eq_true. split.
    + intros ->. by exists x.
    + intros [y [= -> ->]]. done.
Qed.

Lemma below_true d q : below d q = true ↔ d `suffix_of` q ∧ q ≠ d.
Proof.
  unfold below. rewrite andb_true_iff, negb_true_iff, bool_decide_eq_true,
    bool_decide_eq_false. done.
Qed.

Lemma below_child d x : below d (d // x) = true.
Proof.
  apply below_true. split.
  - apply suffix_cons_r. done.
  - intros H. apply (f_equal length) in H. simpl in H. lia.
Qed.

Lemma child_below d q : child_of d q = true → below d q = true.
Proof. intros [x ->]%child_of_true. apply below_child. Qed.

Lemma suffix_cons_case (d p : path) x :
  d `suffix_of` p // x → d = p // x ∨ d `suffix_of` p.
Proof.
  destruct d as [|y d]; intros Hs.
  - right. apply suffix_nil.
  - by apply suffix_cons_inv in Hs.
Qed.

Lemma below_cons d x p : below d (p // x) = true ↔ d = p ∨ below d p = true.
Proof.
  rewrite !below_true. split.
  - intros [Hs Hne]. apply suffix_cons_case in Hs as [Hs|Hs]; [done|].
    destruct (decide (d = p)) as [->|Hd]; [by left|]. right. split; [done|congruence].
  - intros [->|[Hs Hne]].
    + apply below_true, below_child.
    + split; [by apply suffix_cons_r|].
      intros <-. by apply suffix_cons_not in Hs.
Qed.

Lemma suffix_below (d p : path) x : d `suffix_of` p → below d (p // x) = true.
Proof.
  intros Hs. apply below_cons. destruct (decide (d = p)) as [?|Hne]; [by left|].
  right. by apply below_true.
Qed.

Lemma elem_of_entries (fs : filesystem) q : q ∈ entries fs ↔ is_Some (fs !! q).
Proof.
  unfold entries. rewrite list_elem_of_fmap. split.
  - intros ([q' n] & -> & Hin). apply elem_of_map_to_list in Hin. by exists n.
  - intros [n Hn]. exists (q, n). split; [done|]. by apply elem_of_map_to_list.
Qed.

Lemma elem_of_listdir (fs : filesystem) d q :
  q ∈ listdir fs d ↔ child_of d q = true ∧ is_Some (fs !! q).
Proof. unfold listdir. by rewrite list_elem_of_filter, elem_of_entries. Qed.

Lemma elem_of_glob (fs : filesystem) d ext q :
  q ∈ glob fs d ext ↔ has_ext ext q = true ∧ child_of d q = true ∧ is_Some (fs !! q).
Proof. unfold glob. by rewrite list_elem_of_filter, elem_of_listdir. Qed.

Lemma elem_of_rglob (fs : filesystem) d ext q :
  q ∈ rglob fs d ext ↔
  below d q = true ∧ has_ext ext q = true ∧ is_Some (fs !! q).
Proof.
  unfold rglob. rewrite list_elem_of_filter, elem_of_entries, andb_true_iff.
  tauto.
Qed.

Lemma wf_parent (fs : filesystem) x p :
  wf fs → is_Some (fs !! (p // x)) → fs !! p = Some Dir.
Proof. intros Hwf [n Hn]. by apply (Hwf _ _ Hn). Qed.

(** Below a path that is not a directory there is nothing. *)
Lemma wf_below (fs : filesystem) d q :
  wf fs → below d q = true → is_Some (fs !! q) → fs !! d = Some Dir.
Proof.
  intros Hwf. induction q as [|x p IH]; intros Hb Hq.
  - apply below_true in Hb as [Hs Hne]. by apply suffix_nil_inv in Hs.
  - apply below_cons in Hb as [->|Hb].
    + by eapply wf_parent.
    + apply IH; [done|]. eapply wf_parent in Hq; [|done]. by rewrite Hq.
Qed.

Lemma wf_below_file (fs : filesystem) d q :
  wf fs → is_dir fs d = false → below d q = true → fs !! q = None.
Proof.
  intros Hwf Hd Hb. apply is_dir_false in Hd.
  destruct (fs !! q) as [n|] eqn:Hq; [|done].
  exfalso. apply Hd. by eapply wf_below.
Qed.

(** ** Attempted deletions *)

Lemma lookup_try_unlink (fs : filesystem) p q :
  try_fs (unlink_fs p) fs !! q
  = if bool_decide (q = p) && is_file fs p then None else fs !! q.
Proof.
  unfold try_fs, unlink_fs, is_file.
  destruct (fs !! p) as [[data|]|] eqn:Hp; rewrite ?andb_false_r; try done.
  rewrite andb_true_r. case_bool_decide as Hq.
  - subst. by rewrite lookup_delete_eq.
  - by rewrite lookup_delete_ne.
Qed.

Lemma lookup_unlink_all (l : list path) (fs : filesystem) (q : path) :
  attempt_all unlink_fs l fs !! q
  = if bool_decide (q ∈ l) && is_file fs q then None else fs !! q.
Proof.
  unfold attempt_all. revert fs. induction l as [|p l IH]; intros fs; simpl.
  - done.
  - rewrite IH. unfold is_file at 1. rewrite !lookup_try_unlink.
    destruct (decide (q = p)) as [->|Hne].
    + rewrite (bool_decide_eq_true_2 (p = p)) by done.
      rewrite (bool_decide_eq_true_2 (p ∈ p :: l)) by apply list_elem_of_here.
      simpl. destruct (is_file fs p) eqn:Hf; simpl.
      * by rewrite andb_false_r.
      * unfold is_file in Hf.
        destruct (fs !! p) as [[]|]; rewrite ?andb_false_r; done.
    + rewrite (bool_decide_eq_false_2 (q = p)) by done. simpl.
      assert (bool_decide (q ∈ p :: l) = bool_decide (q ∈ l)) as ->.
      { apply bool_decide_ext. rewrite elem_of_cons. tauto. }
      done.
Qed.

(** Step 2 on the file system, path by path. *)
Lemma lookup_logs_effect (bot_path : path) (fs : filesystem) (q : path) :
  logs_effect bot_path fs !! q
  = if is_dir fs (bot_path // "logs") && below (bot_path // "logs") q
       && has_ext ".log" q && is_file fs q
    then None else fs !! q.
Proof.
  unfold logs_effect. destruct (is_dir fs _) eqn:Hd; [|done]. simpl.
  rewrite lookup_unlink_all.
  destruct (is_file fs q) eqn:Hf; rewrite ?andb_false_r; [|done].
  rewrite !andb_true_r.
  assert (bool_decide (q ∈ rglob fs (bot_path // "logs") ".log")
          = below (bot_path // "logs") q && has_ext ".log" q) as ->; [|done].
  apply is_file_true in Hf as [data Hf].
  destruct (below _ q && has_ext ".log" q) eqn:E.
  - apply bool_decide_eq_true, elem_of_rglob. apply andb_true_iff in E as [? ?].
    by rewrite Hf.
  - apply bool_decide_eq_false. rewrite elem_of_rglob. intros (H1 & H2 & _).
    by rewrite H1, H2 in E.
Qed.

(** Step 3 on the file system, path by path. *)
Lemma lookup_plugins_old_effect (bot_path : path) (fs : filesystem) (q : path) :
  plugins_old_effect bot_path fs !! q
  = if is_dir fs (bot_path // "plugins" // "old")
       && child_of (bot_path // "plugins" // "old") q
       && has_ext ".jar" q && is_file fs q
    then None else fs !! q.
Proof.
  unfold plugins_old_effect. destruct (is_dir fs _) eqn:Hd; [|done]. simpl.
  rewrite lookup_unlink_all.
  destruct (is_file fs q) eqn:Hf; rewrite ?andb_false_r; [|done].
  rewrite !andb_true_r.
  assert (bool_decide (q ∈ glob fs (bot_path // "plugins" // "old") ".jar")
          = child_of (bot_path // "plugins" // "old") q && has_ext ".jar" q) as ->;
    [|done].
  apply is_file_true in Hf as [data Hf].
  destruct (child_of _ q && has_ext ".jar" q) eqn:E.
  - apply bool_decide_eq_true, elem_of_glob. apply andb_true_iff in E as [? ?].
    by rewrite Hf.
  - apply bool_decide_eq_false. rewrite elem_of_glob. intros (H1 & H2 & _).
    by rewrite H1, H2 in E.
Qed.

Lemma wf_intro (fs : filesystem) :
  (∀ x p, is_Some (fs !! (p // x)) → fs !! p = Some Dir) → wf fs.
Proof. intros H [|x p] n Hq; [done|]. apply (H x). by rewrite Hq. Qed.

(** Every ancestor of an entry is present. *)
Lemma wf_suffix (fs : filesystem) (p q : path) :
  wf fs → is_Some (fs !! q) → p `suffix_of` q → is_Some (fs !! p).
Proof.
  intros Hwf. induction q as [|x q IH]; intros Hq Hs.
  - apply suffix_nil_inv in Hs. by subst.
  - apply suffix_cons_case in Hs as [->|Hs]; [done|].
    apply IH; [|done]. eapply wf_parent in Hq; [|done]. by rewrite Hq.
Qed.

Lemma below_via_child (d q : path) :
  below d q = true → ∃ x, d // x `suffix_of` q.
Proof.
  induction q as [|x p IH]; intros Hb.
  - apply below_true in Hb as [Hs Hne]. by apply suffix_nil_inv in Hs.
  - apply below_cons in Hb as [->|Hb].
    + by exists x.
    + destruct (IH Hb) as [y Hy]. exists y. by apply suffix_cons_r.
Qed.

Lemma lookup_prune (p q : path) (fs : filesystem) :
  filter (λ kv : path * node, ¬ p `suffix_of` kv.1) fs !! q
  = if bool_decide (p `suffix_of` q) then None else fs !! q.
Proof.
  rewrite map_lookup_filter. destruct (fs !! q) as [n|]; simpl.
  - case_bool_decide; case_guard; simpl in *; done.
  - by case_bool_decide.
Qed.

(** In a well-formed file system every attempted removal of the loop over
    [plugins/updates] takes the whole subtree away. *)
Lemma lookup_try_remove (fs : filesystem) (p q : path) :
  wf fs →
  try_fs (remove_fs p) fs !! q
  = if bool_decide (p `suffix_of` q) then None else fs !! q.
Proof.
  intros Hwf. unfold try_fs, remove_fs.
  destruct (is_file fs p) eqn:Hfile.
  - apply is_file_true in Hfile as [data Hp]. unfold unlink_fs. rewrite Hp.
    case_bool_decide as Hs.
    + destruct (decide (q = p)) as [->|Hne]; [by rewrite lookup_delete_eq|].
      rewrite lookup_delete_ne by done.
      apply (wf_below_file fs p); [done| |by apply below_true].
      apply is_dir_false. by rewrite Hp.
    + rewrite lookup_delete_ne; [done|]. intros ->. by apply Hs.
  - destruct (is_dir fs p) eqn:Hdir.
    + apply is_dir_true in Hdir. unfold rmtree_fs. rewrite Hdir.
      apply lookup_prune.
    + case_bool_decide as Hs; [|done].
      apply is_file_false in Hfile. apply is_dir_false in Hdir.
      destruct Hfile as [?|Hp]; [done|].
      destruct (fs !! q) as [n|] eqn:Hq; [|done].
      assert (is_Some (fs !! p)) as [? ?]; [|congruence].
      apply (wf_suffix fs p q); [done| |done]. by rewrite Hq.
Qed.

Lemma wf_try_remove (fs : filesystem) (p : path) :
  wf fs → wf (try_fs (remove_fs p) fs).
Proof.
  intros Hwf. apply wf_intro. intros x d.
  rewrite !lookup_try_remove by done.
  case_bool_decide as Hs; [by intros [? ?]|]. intros Hq.
  rewrite bool_decide_eq_false_2.
  - by apply (wf_parent fs x).
  - intros Hs'. apply Hs. by apply suffix_cons_r.
Qed.

Lemma lookup_remove_all (l : list path) (fs : filesystem) (q : path) :
  wf fs →
  attempt_all remove_fs l fs !! q
  = if bool_decide (Exists (λ p, p `suffix_of` q) l) then None else fs !! q.
Proof.
  unfold attempt_all. revert fs. induction l as [|p l IH]; intros fs Hwf; simpl.
  - done.
  - rewrite IH by by apply wf_try_remove. rewrite lookup_try_remove by done.
    destruct (decide (p `suffix_of` q)) as [Hs|Hs].
    + rewrite (bool_decide_eq_true_2 (p `suffix_of` q)) by done.
      rewrite (bool_decide_eq_true_2 (Exists _ (p :: l))); [by case_bool_decide|].
      by apply Exists_cons_hd.
    + rewrite (bool_decide_eq_false_2 (p `suffix_of` q)) by done.
      assert (bool_decide (Exists (λ p, p `suffix_of` q) (p :: l))
              = bool_decide (Exists (λ p, p `suffix_of` q) l)) as ->; [|done].
      apply bool_decide_ext. rewrite Exists_cons. tauto.
Qed.

(** Step 4 on a well-formed file system when [plugins/updates] is a folder:
    everything below it disappears, the folder itself stays. *)
Lemma lookup_clear_updates (d : path) (fs : filesystem) (q : path) :
  wf fs →
  attempt_all remove_fs (listdir fs d) fs !! q
  = if below d q then None else fs !! q.
Proof.
  intros Hwf. rewrite lookup_remove_all by done.
  destruct (fs !! q) as [n|] eqn:Hq; [|by case_bool_decide; destruct (below d q)].
  destruct (below d q) eqn:Hb.
  - rewrite bool_decide_eq_true_2; [done|].
    destruct (below_via_child d q Hb) as [x Hx].
    apply Exists_exists. exists (d // x). split; [|done].
    apply elem_of_listdir. split.
    + apply child_of_true. by exists x.
    + apply (wf_suffix fs _ q); [done| |done]. by rewrite Hq.
  - rewrite bool_decide_eq_false_2; [done|].
    intros (p & Hp & Hs)%Exists_exists.
    apply elem_of_listdir in Hp as [[x ->]%child_of_true _].
    assert (below d q = true); [|congruence].
    apply below_true. split.
    + by apply suffix_cons_l in Hs.
    + intros ->. by apply suffix_cons_not in Hs.
Qed.

(** ** Well-formedness is kept by every attempted operation *)

Lemma wf_delete_file (fs : filesystem) (p : path) data :
  wf fs → fs !! p = Some (File data) → wf (delete p fs).
Proof.
  intros Hwf Hp. apply wf_intro. intros x d [n Hq].
  apply lookup_delete_Some in Hq as [Hne Hq].
  assert (fs !! d = Some Dir) as Hd by (apply (wf_parent fs x); by rewrite ?Hq).
  rewrite lookup_delete_ne; [done|]. intros ->. congruence.
Qed.

Lemma wf_insert (fs : filesystem) (p : path) (n : node) :
  wf fs → fs !! parent p = Some Dir → p ≠ [] → fs !! p ≠ Some Dir →
  wf (<[p := n]> fs).
Proof.
  intros Hwf Hpar Hnil Hp. apply wf_intro. intros x d [m Hq].
  assert (fs !! d = Some Dir) as Hd.
  { apply lookup_insert_Some in Hq as [[Heq _]|[_ Hq]].
    - by subst p.
    - apply (wf_parent fs x); by rewrite ?Hq. }
  rewrite lookup_insert_ne; [done|]. intros ->. congruence.
Qed.

Lemma wf_try_unlink (fs : filesystem) (p : path) :
  wf fs → wf (try_fs (unlink_fs p) fs).
Proof.
  intros Hwf. unfold try_fs, unlink_fs.
  destruct (fs !! p) as [[data|]|] eqn:Hp; try done. by eapply wf_delete_file.
Qed.

Lemma wf_attempt_all (op : path → filesystem → exn + filesystem)
    (l : list path) (fs : filesystem) :
  (∀ p fs, wf fs → wf (try_fs (op p) fs)) → wf fs → wf (attempt_all op l fs).
Proof.
  intros Hop. unfold attempt_all. revert fs.
  induction l as [|p l IH]; intros fs Hwf; simpl; [done|]. by apply IH, Hop.
Qed.

(** ** Copying *)

(** Either nothing changes, or the content of [src] is written to the
    target, which is [dst] or, when [dst] is a folder, the entry of that
    folder with the name of [src]. *)
Lemma copy2_cases (src dst : path) (fs : filesystem) :
  let target := if is_dir fs dst then dst // name src else dst in
  try_fs (copy2_fs src dst) fs = fs ∨
  ∃ data, fs !! src = Some (File data) ∧ src ≠ target ∧
          fs !! target ≠ Some Dir ∧ fs !! parent target = Some Dir ∧
          try_fs (copy2_fs src dst) fs = <[target := File data]> fs.
Proof.
  intros target. unfold try_fs, copy2_fs. fold target.
  destruct (bool_decide (src = target) && exists_ fs src) eqn:Hsame; [by left|].
  destruct (fs !! src) as [[data|]|] eqn:Hsrc; [|by left|by left].
  assert (src ≠ target) as Hne.
  { intros Heq. apply andb_false_iff in Hsame as [Hs|Hs].
    - by apply bool_decide_eq_false in Hs.
    - apply (eq_true_false_abs _ (proj2 (exists_true fs src) ltac:(by rewrite Hsrc)) Hs). }
  destruct (fs !! target) as [[tdata|]|] eqn:Htarget; [|by left|];
    (destruct (fs !! parent target) as [[pdata|]|] eqn:Hparent; [by left| |by left]);
    right; exists data; by rewrite ?Htarget.
Qed.

Lemma copy2_frame (src dst : path) (fs : filesystem) (q : path) :
  q ≠ dst → q ≠ dst // name src →
  try_fs (copy2_fs src dst) fs !! q = fs !! q.
Proof.
  intros H1 H2. destruct (copy2_cases src dst fs) as [->|(data & _ & _ & _ & _ & ->)];
    [done|].
  rewrite lookup_insert_ne; [done|]. by destruct (is_dir fs dst).
Qed.

Lemma wf_try_copy2 (src dst : path) (fs : filesystem) :
  wf fs → wf (try_fs (copy2_fs src dst) fs).
Proof.
  intros Hwf.
  destruct (copy2_cases src dst fs) as [->|(data & _ & _ & Ht & Hp & ->)]; [done|].
  apply wf_insert; try done.
  intros Hnil. rewrite Hnil in Hp, Ht. simpl in Hp. congruence.
Qed.

(** ** Creating the staging folder *)

Lemma mkdir_updates_cases (bot_path : path) (fs : filesystem) :
  let plugins := bot_path // "plugins" in
  let updates := plugins // "updates" in
  fs !! bot_path = Some Dir → fs !! updates ≠ Some Dir →
  ((is_file fs updates = true ∨ is_file fs plugins = true) ∧
   try_fs (mkdir_parents_fs updates) fs = fs) ∨
  (is_file fs updates = false ∧ is_file fs plugins = false ∧
   try_fs (mkdir_parents_fs updates) fs = <[updates := Dir]> (<[plugins := Dir]> fs)).
Proof.
  intros plugins updates Hbot Hupd. unfold try_fs, is_file.
  subst updates plugins. simpl.
  destruct (fs !! ("updates" :: "plugins" :: bot_path)) as [[data|]|] eqn:Hu;
    [left; eauto|done|].
  destruct (fs !! ("plugins" :: bot_path)) as [[data|]|] eqn:Hp.
  - left; eauto.
  - right. by rewrite (insert_id fs _ _ Hp).
  - right. by rewrite Hbot.
Qed.

(** ** The folders of a bot do not overlap *)

Lemma not_suffix_longer (p q : path) : length q < length p → ¬ p `suffix_of` q.
Proof. intros Hlen Hs%suffix_length. lia. Qed.

(** Two different entries of one folder have no common descendant. *)
Lemma siblings_disjoint (p q : path) (x y : string) :
  x ≠ y → p // x `suffix_of` q → p // y `suffix_of` q → False.
Proof.
  intros Hne Hx Hy.
  destruct (suffix_weak_total _ _ _ Hx Hy) as [H|H];
    apply suffix_length_eq in H; simplify_eq; done.
Qed.

Section layout.
Variable bot_path : path.

Local Abbreviation logs := (bot_path // "logs").
Local Abbreviation plugins := (bot_path // "plugins").
Local Abbreviation old := (bot_path // "plugins" // "old").
Local Abbreviation updates := (bot_path // "plugins" // "updates").
Local Abbreviation dest := (bot_path // "DarkBot.jar").

Lemma logs_updates_disjoint (q : path) :
  logs `suffix_of` q → updates `suffix_of` q → False.
Proof.
  intros Hl Hu%suffix_cons_l. by apply (siblings_disjoint bot_path q "logs" "plugins").
Qed.

Lemma old_updates_disjoint (q : path) :
  old `suffix_of` q → updates `suffix_of` q → False.
Proof. by apply siblings_disjoint. Qed.

Lemma dest_plugins_disjoint (q : path) :
  dest `suffix_of` q → plugins `suffix_of` q → False.
Proof. by apply siblings_disjoint. Qed.

Lemma dest_logs_disjoint (q : path) :
  dest `suffix_of` q → logs `suffix_of` q → False.
Proof. by apply siblings_disjoint. Qed.

Lemma bot_not_below_updates : below updates bot_path = false.
Proof.
  apply not_true_is_false. intros [Hs _]%below_true.
  apply (not_suffix_longer updates bot_path); [simpl; lia|done].
Qed.

Lemma plugins_not_below_updates : below updates plugins = false.
Proof.
  apply not_true_is_false. intros [Hs _]%below_true.
  apply (not_suffix_longer updates plugins); [simpl; lia|done].
Qed.

Lemma updates_not_below_updates : below updates updates = false.
Proof. apply not_true_is_false. by intros [_ ?]%below_true. Qed.

(** *** Step 4 *)

Lemma plugins_updates_dir (fs : filesystem) (q : path) :
  wf fs → is_dir fs updates = true →
  plugins_updates_effect bot_path fs !! q
  = if below updates q then None else fs !! q.
Proof.
  intros Hwf Hd. unfold plugins_updates_effect. rewrite Hd.
  by apply lookup_clear_updates.
Qed.

Lemma plugins_updates_mkdir (fs : filesystem) :
  fs !! bot_path = Some Dir → is_dir fs updates = false →
  ((is_file fs updates = true ∨ is_file fs plugins = true) ∧
   plugins_updates_effect bot_path fs = fs) ∨
  (is_file fs updates = false ∧ is_file fs plugins = false ∧
   plugins_updates_effect bot_path fs = <[updates := Dir]> (<[plugins := Dir]> fs)).
Proof.
  intros Hbot Hd. unfold plugins_updates_effect. rewrite Hd.
  apply mkdir_updates_cases; [done|]. by apply is_dir_false.
Qed.

(** After step 4 nothing lies below [plugins/updates]. *)
Lemma plugins_updates_empty (fs : filesystem) (q : path) :
  wf fs → fs !! bot_path = Some Dir → below updates q = true →
  plugins_updates_effect bot_path fs !! q = None.
Proof.
  intros Hwf Hbot Hb. destruct (is_dir fs updates) eqn:Hd.
  - rewrite plugins_updates_dir by done. by rewrite Hb.
  - assert (fs !! q = None) as Hq by by eapply wf_below_file.
    destruct (plugins_updates_mkdir fs Hbot Hd) as [[_ ->]|(_ & _ & ->)]; [done|].
    rewrite !lookup_insert_ne; [done| |].
    + intros <-. by rewrite plugins_not_below_updates in Hb.
    + intros <-. by rewrite updates_not_below_updates in Hb.
Qed.

(** Step 4 changes nothing outside [plugins]. *)
Lemma plugins_updates_frame (fs : filesystem) (q : path) :
  wf fs → fs !! bot_path = Some Dir → ¬ plugins `suffix_of` q →
  plugins_updates_effect bot_path fs !! q = fs !! q.
Proof.
  intros Hwf Hbot Hq. destruct (is_dir fs updates) eqn:Hd.
  - rewrite plugins_updates_dir by done.
    destruct (below updates q) eqn:Hb; [|done].
    apply below_true in Hb as [Hs%suffix_cons_l _]. done.
  - destruct (plugins_updates_mkdir fs Hbot Hd) as [[_ ->]|(_ & _ & ->)]; [done|].
    rewrite !lookup_insert_ne; [done| |].
    + intros <-. by apply Hq.
    + intros <-. apply Hq. by apply suffix_cons_r.
Qed.

(** Step 4 creates no file and takes no folder away outside
    [plugins/updates]. *)
Lemma plugins_updates_files (fs : filesystem) (q : path) data :
  wf fs → fs !! bot_path = Some Dir →
  plugins_updates_effect bot_path fs !! q = Some (File data) →
  fs !! q = Some (File data).
Proof.
  intros Hwf Hbot. destruct (is_dir fs updates) eqn:Hd.
  - rewrite plugins_updates_dir by done. by destruct (below updates q).
  - destruct (plugins_updates_mkdir fs Hbot Hd) as [[_ ->]|(_ & _ & ->)]; [done|].
    intros Hq. apply lookup_insert_Some in Hq as [[_ ?]|[_ Hq]]; [done|].
    by apply lookup_insert_Some in Hq as [[_ ?]|[_ Hq]].
Qed.

Lemma plugins_updates_dirs (fs : filesystem) (q : path) :
  wf fs → fs !! bot_path = Some Dir → below updates q = false →
  fs !! q = Some Dir → plugins_updates_effect bot_path fs !! q = Some Dir.
Proof.
  intros Hwf Hbot Hb Hq. destruct (is_dir fs updates) eqn:Hd.
  - rewrite plugins_updates_dir by done. by rewrite Hb.
  - destruct (plugins_updates_mkdir fs Hbot Hd) as [[_ ->]|(_ & _ & ->)]; [done|].
    apply lookup_insert_Some.
    destruct (decide (updates = q)) as [?|?]; [by left|right; split; [done|]].
    apply lookup_insert_Some.
    destruct (decide (plugins = q)) as [?|?]; [by left|by right].
Qed.

Lemma wf_plugins_updates_effect (fs : filesystem) :
  wf fs → fs !! bot_path = Some Dir → wf (plugins_updates_effect bot_path fs).
Proof.
  intros Hwf Hbot. destruct (is_dir fs updates) eqn:Hd.
  - unfold plugins_updates_effect. rewrite Hd.
    apply wf_attempt_all; [|done]. intros p fs' ?. by apply wf_try_remove.
  - destruct (plugins_updates_mkdir fs Hbot Hd) as [[_ ->]|(Hu & Hp & ->)]; [done|].
    apply is_file_false in Hp. apply is_dir_false in Hd.
    assert (wf (<[plugins := Dir]> fs)) as Hwf'.
    { destruct Hp as [Hp|Hp]; [by rewrite insert_id|].
      apply wf_insert; try done. by rewrite Hp. }
    apply wf_insert; try done.
    + by rewrite lookup_insert_eq.
    + rewrite lookup_insert_ne; [done|].
      intros H. apply (f_equal length) in H. simpl in H. lia.
Qed.

(** Unless a regular file is in the way, the staging folder is there after
    step 4. *)
Lemma plugins_updates_staged (fs : filesystem) :
  wf fs → fs !! bot_path = Some Dir →
  is_file fs plugins = false → is_file fs updates = false →
  plugins_updates_effect bot_path fs !! updates = Some Dir.
Proof.
  intros Hwf Hbot Hp Hu. destruct (is_dir fs updates) eqn:Hd.
  - rewrite plugins_updates_dir by done. rewrite updates_not_below_updates.
    by apply is_dir_true.
  - destruct (plugins_updates_mkdir fs Hbot Hd) as [[[?|?] _]|(_ & _ & ->)];
      [congruence..|].
    by rewrite lookup_insert_eq.
Qed.

(** *** Step 5a *)

(** The jar is written to [DarkBot.jar] of the bot, or into it when that is
    a folder; or nothing changes. *)
Lemma copy_darkbot_cases (darkjar_src : path) (fs : filesystem) :
  copy_darkbot_effect bot_path darkjar_src fs = fs ∨
  ∃ data target,
    (target = dest ∧ is_dir fs dest = false
     ∨ target = dest // "DarkBot.jar" ∧ is_dir fs dest = true) ∧
    darkbot_ok fs darkjar_src = true ∧
    fs !! darkjar_src = Some (File data) ∧ darkjar_src ≠ target ∧
    fs !! target ≠ Some Dir ∧ fs !! parent target = Some Dir ∧
    copy_darkbot_effect bot_path darkjar_src fs = <[target := File data]> fs.
Proof.
  unfold copy_darkbot_effect. destruct (darkbot_ok fs darkjar_src) eqn:Hok; [|by left].
  destruct (copy2_cases darkjar_src dest fs)
    as [->|(data & Hsrc & Hne & Ht & Hp & ->)]; [by left|].
  right. exists data.
  assert (name darkjar_src = "DarkBot.jar") as Hname.
  { unfold darkbot_ok in Hok. apply andb_true_iff in Hok as [_ Hn].
    by apply bool_decide_eq_true in Hn. }
  rewrite Hname in *.
  destruct (is_dir fs dest) eqn:Hd; eexists; (split; [|done]); eauto.
Qed.

Lemma copy_darkbot_frame (darkjar_src : path) (fs : filesystem) (q : path) :
  ¬ dest `suffix_of` q →
  copy_darkbot_effect bot_path darkjar_src fs !! q = fs !! q.
Proof.
  intros Hq. destruct (copy_darkbot_cases darkjar_src fs)
    as [->|(data & target & Ht & _ & _ & _ & _ & _ & ->)]; [done|].
  rewrite lookup_insert_ne; [done|]. intros <-. apply Hq.
  destruct Ht as [[-> _]|[-> _]]; [done|]. by apply suffix_cons_r.
Qed.

Lemma copy_darkbot_dirs (darkjar_src : path) (fs : filesystem) (q : path) :
  copy_darkbot_effect bot_path darkjar_src fs !! q = Some Dir ↔ fs !! q = Some Dir.
Proof.
  destruct (copy_darkbot_cases darkjar_src fs)
    as [->|(data & target & _ & _ & _ & _ & Ht & _ & ->)]; [done|].
  destruct (decide (target = q)) as [<-|Hne].
  - rewrite lookup_insert_eq. split; [done|]. by intros ?.
  - by rewrite lookup_insert_ne.
Qed.

Lemma wf_copy_darkbot_effect (darkjar_src : path) (fs : filesystem) :
  wf fs → wf (copy_darkbot_effect bot_path darkjar_src fs).
Proof.
  intros Hwf. unfold copy_darkbot_effect. destruct (darkbot_ok fs darkjar_src); [|done].
  by apply wf_try_copy2.
Qed.

(** Copying the application jar a second time changes nothing. *)
Lemma copy_darkbot_idem (darkjar_src : path) (fs : filesystem) :
  copy_darkbot_effect bot_path darkjar_src
    (copy_darkbot_effect bot_path darkjar_src fs)
  = copy_darkbot_effect bot_path darkjar_src fs.
Proof.
  destruct (copy_darkbot_cases darkjar_src fs)
    as [Heq|(data & target & Ht & Hok & Hsrc & Hne & Htd & Hpar & ->)];
    [by rewrite !Heq|].
  set (fs' := <[target := File data]> fs).
  assert (fs' !! darkjar_src = Some (File data)) as Hsrc'.
  { unfold fs'. by rewrite lookup_insert_ne. }
  assert (is_dir fs' dest = is_dir fs dest) as Hdest.
  { unfold is_dir. apply bool_decide_ext. unfold fs'.
    destruct (decide (target = dest)) as [->|?].
    - rewrite lookup_insert_eq. split; [done|]. intros ?. congruence.
    - by rewrite lookup_insert_ne. }
  assert (name darkjar_src = "DarkBot.jar") as Hname.
  { unfold darkbot_ok in Hok. apply andb_true_iff in Hok as [_ Hn].
    by apply bool_decide_eq_true in Hn. }
  assert (darkbot_ok fs' darkjar_src = true) as Hok'.
  { unfold darkbot_ok.
    rewrite (proj2 (exists_true _ _)) by (by rewrite Hsrc').
    rewrite (proj2 (is_file_true _ _)) by eauto.
    by apply bool_decide_eq_true. }
  unfold copy_darkbot_effect. rewrite Hok'.
  destruct (copy2_cases darkjar_src dest fs')
    as [->|(data' & Hsrc2 & _ & _ & _ & ->)]; [done|].
  rewrite Hdest, Hname.
  assert ((if is_dir fs dest then dest // "DarkBot.jar" else dest) = target) as ->.
  { by destruct Ht as [[-> ->]|[-> ->]]. }
  unfold fs'. rewrite insert_insert_eq. congruence.
Qed.

(** *** Step 5b *)

Lemma copy_plugin_frame (jar : path) (fs : filesystem) (q : path) :
  below updates q = false →
  try_fs (copy_plugin_fs updates jar) fs !! q = fs !! q.
Proof.
  intros Hb. unfold copy_plugin_fs.
  destruct (bool_decide (name jar = "DarkBot.jar")); [done|].
  apply copy2_frame.
  - intros ->. by rewrite below_child in Hb.
  - intros ->. rewrite (proj2 (below_cons _ _ _)) in Hb; [done|].
    right. apply below_child.
Qed.

(** Step 5b changes nothing outside [plugins/updates]. *)
Lemma copy_plugins_frame (plugin_src_folder : path) (fs : filesystem) (q : path) :
  below updates q = false →
  copy_plugins_effect bot_path plugin_src_folder fs !! q = fs !! q.
Proof.
  intros Hb. unfold copy_plugins_effect, attempt_all.
  destruct (is_dir fs plugin_src_folder); [|done].
  generalize (glob fs plugin_src_folder ".jar") as l. intros l.
  transitivity (foldl (λ fs p, try_fs (copy_plugin_fs updates p) fs) fs l !! q); [done|].
  revert fs. induction l as [|jar l IH]; intros fs; simpl; [done|].
  rewrite IH. by apply copy_plugin_frame.
Qed.

Lemma wf_copy_plugins_effect (plugin_src_folder : path) (fs : filesystem) :
  wf fs → wf (copy_plugins_effect bot_path plugin_src_folder fs).
Proof.
  intros Hwf. unfold copy_plugins_effect.
  destruct (is_dir fs plugin_src_folder); [|done].
  apply wf_attempt_all; [|done]. intros jar fs' Hwf'. unfold copy_plugin_fs.
  destruct (bool_decide (name jar = "DarkBot.jar")); [done|]. by apply wf_try_copy2.
Qed.

(** Without the staging folder no plugin can be copied. *)
Lemma copy_plugins_unstaged (plugin_src_folder : path) (fs : filesystem) :
  wf fs → is_dir fs updates = false →
  copy_plugins_effect bot_path plugin_src_folder fs = fs.
Proof.
  intros Hwf Hd. unfold copy_plugins_effect, attempt_all.
  destruct (is_dir fs plugin_src_folder); [|done].
  generalize (glob fs plugin_src_folder ".jar") as l.
  induction l as [|jar l IH]; simpl; [done|].
  assert (try_fs (copy_plugin_fs updates jar) fs = fs) as ->; [|done].
  unfold copy_plugin_fs.
  destruct (bool_decide (name jar = "DarkBot.jar")); [done|].
  destruct (copy2_cases jar (updates // name jar) fs)
    as [Heq|(data & _ & _ & _ & Hp & _)]; [exact Heq|].
  exfalso. apply is_dir_false in Hd. apply Hd.
  destruct (is_dir fs (updates // name jar)) eqn:Hd'; simpl in Hp; [|done].
  apply is_dir_true in Hd'. apply (wf_parent fs (name jar)); [done|by rewrite Hd'].
Qed.

Local Abbreviation staged := (staged bot_path).

Lemma copy_plugin_cases (jar : path) (fs : filesystem) :
  staged fs → updates ≠ parent jar →
  try_fs (copy_plugin_fs updates jar) fs
  = if negb (bool_decide (name jar = "DarkBot.jar")) && is_file fs jar
    then match fs !! jar with
         | Some n => <[updates // name jar := n]> fs
         | None => fs
         end
    else fs.
Proof.
  intros [Hu Hnd] Hsrc. unfold copy_plugin_fs.
  destruct (bool_decide (name jar = "DarkBot.jar")); [done|]. simpl.
  assert (is_dir fs (updates // name jar) = false) as Hd.
  { apply is_dir_false, Hnd, below_child. }
  destruct (is_file fs jar) eqn:Hf.
  - apply is_file_true in Hf as [data Hf]. rewrite Hf.
    unfold try_fs, copy2_fs. rewrite Hd, Hf.
    rewrite bool_decide_eq_false_2; [|intros Heq; apply Hsrc; by rewrite Heq].
    simpl. rewrite Hu.
    destruct (fs !! (updates // name jar)) as [[?|]|] eqn:Ht; try done.
    by apply Hnd in Ht; [|apply below_child].
  - destruct (copy2_cases jar (updates // name jar) fs)
      as [Heq|(data & Hf' & _)]; [exact Heq|].
    apply is_file_false in Hf as [?|?]; congruence.
Qed.

Lemma staged_copy_plugin (jar : path) (fs : filesystem) :
  staged fs → updates ≠ parent jar →
  staged (try_fs (copy_plugin_fs updates jar) fs).
Proof.
  intros Hst Hsrc. rewrite copy_plugin_cases by done.
  destruct (negb _ && is_file fs jar) eqn:Hc; [|done].
  apply andb_true_iff in Hc as [_ [data Hf]%is_file_true]. rewrite Hf.
  destruct Hst as [Hu Hnd]. split.
  - rewrite lookup_insert_ne; [done|].
    intros H. apply (f_equal length) in H. simpl in H. lia.
  - intros q Hb Hq. apply (Hnd q Hb).
    apply lookup_insert_Some in Hq as [[_ ?]|[_ ?]]; done.
Qed.

(** What the loop of step 5b leaves in a staged folder under the name [n],
    for the jars [l] found in a source folder outside the staging folder. *)
Lemma copy_plugins_loop (plugin_src_folder : path) (l : list path)
    (fs : filesystem) (n : string) :
  staged fs → ¬ updates `suffix_of` plugin_src_folder →
  Forall (λ jar, child_of plugin_src_folder jar = true) l →
  attempt_all (copy_plugin_fs updates) l fs !! (updates // n)
  = if bool_decide (plugin_src_folder // n ∈ l)
       && negb (bool_decide (n = "DarkBot.jar"))
       && is_file fs (plugin_src_folder // n)
    then fs !! (plugin_src_folder // n)
    else fs !! (updates // n).
Proof.
  intros Hst Hsrc Hl. unfold attempt_all. revert fs Hst.
  induction Hl as [|jar l Hjar Hl IH]; intros fs Hst; simpl.
  - done.
  - apply child_of_true in Hjar as [m ->].
    assert (updates ≠ parent (plugin_src_folder // m)) as Hpar.
    { simpl. intros <-. by apply Hsrc. }
    assert (below updates (plugin_src_folder // n) = false) as Hout.
    { apply not_true_is_false.
      intros [Heq|[Hs _]%below_true]%below_cons; apply Hsrc; [by rewrite Heq|done]. }
    rewrite IH by by apply staged_copy_plugin.
    unfold is_file at 1. rewrite (copy_plugin_frame _ _ (plugin_src_folder // n)) by done.
    fold (is_file fs (plugin_src_folder // n)).
    rewrite copy_plugin_cases by done. simpl.
    destruct (decide (m = n)) as [->|Hmn].
    + rewrite (bool_decide_eq_true_2 (_ ∈ _ :: l)) by apply list_elem_of_here.
      destruct (negb (bool_decide (n = "DarkBot.jar"))); simpl;
        [|by rewrite !andb_false_r].
      rewrite !andb_true_r.
      destruct (is_file fs (plugin_src_folder // n)) eqn:Hf; simpl.
      * apply is_file_true in Hf as [data Hf]. rewrite Hf, lookup_insert_eq.
        by destruct (bool_decide _).
      * by rewrite andb_false_r.
    + assert (bool_decide (plugin_src_folder // n ∈ (plugin_src_folder // m) :: l)
              = bool_decide (plugin_src_folder // n ∈ l)) as ->.
      { apply bool_decide_ext. rewrite elem_of_cons.
        split; [intros [[=]|?]; done|by right]. }
      destruct (_ && _ && is_file fs (plugin_src_folder // n)); [done|].
      destruct (negb _ && is_file fs (plugin_src_folder // m)); [|done].
      destruct (fs !! (plugin_src_folder // m)); [|done].
      rewrite lookup_insert_ne; [done|]. congruence.
Qed.

Lemma copy_plugins_loop_deep (l : list path) (fs : filesystem) (q : path) :
  staged fs → Forall (λ jar, updates ≠ parent jar) l →
  below updates q = true → child_of updates q = false →
  attempt_all (copy_plugin_fs updates) l fs !! q = fs !! q.
Proof.
  intros Hst Hl Hb Hc. unfold attempt_all. revert fs Hst.
  induction Hl as [|jar l Hjar Hl IH]; intros fs Hst; simpl; [done|].
  rewrite IH by by apply staged_copy_plugin.
  rewrite copy_plugin_cases by done.
  destruct (negb _ && is_file fs jar); [|done].
  destruct (fs !! jar); [|done].
  rewrite lookup_insert_ne; [done|]. intros <-. simpl in Hc.
  by rewrite bool_decide_eq_true_2 in Hc.
Qed.

Lemma empty_staged (fs : filesystem) :
  fs !! updates = Some Dir → (∀ q, below updates q = true → fs !! q = None) →
  staged fs.
Proof. intros Hu He. split; [done|]. intros q Hb. by rewrite (He q Hb). Qed.

(** Step 5b on a staging folder that is empty: what it holds afterwards. *)
Lemma copy_plugins_staged (plugin_src_folder : path) (fs : filesystem) :
  wf fs → fs !! updates = Some Dir →
  (∀ q, below updates q = true → fs !! q = None) →
  (∀ n, copy_plugins_effect bot_path plugin_src_folder fs !! (updates // n)
        = if plugin_jar n then File <$> file_at fs (plugin_src_folder // n)
          else None) ∧
  (∀ q, below updates q = true → child_of updates q = false →
        copy_plugins_effect bot_path plugin_src_folder fs !! q = None).
Proof.
  intros Hwf Hu Hempty.
  assert (is_dir fs plugin_src_folder = false →
          ∀ n, file_at fs (plugin_src_folder // n) = None) as Hnodir.
  { intros Hd n. unfold file_at.
    rewrite (wf_below_file fs plugin_src_folder); [done..|apply below_child]. }
  destruct (decide (updates `suffix_of` plugin_src_folder)) as [Hin|Hout].
  - assert (copy_plugins_effect bot_path plugin_src_folder fs = fs) as ->.
    { unfold copy_plugins_effect.
      destruct (is_dir fs plugin_src_folder) eqn:Hd; [|done].
      assert (glob fs plugin_src_folder ".jar" = []) as ->; [|done].
      apply elem_of_nil_inv. intros jar (_ & [x ->]%child_of_true & [? Hjar])%elem_of_glob.
      rewrite Hempty in Hjar; [done|]. by apply suffix_below. }
    split; [|by auto]. intros n. rewrite Hempty by apply below_child.
    assert (file_at fs (plugin_src_folder // n) = None) as ->;
      [|by destruct (plugin_jar n)].
    unfold file_at. rewrite Hempty; [done|]. by apply suffix_below.
  - unfold copy_plugins_effect.
    destruct (is_dir fs plugin_src_folder) eqn:Hd.
    + assert (Forall (λ jar, child_of plugin_src_folder jar = true)
                (glob fs plugin_src_folder ".jar")) as Hl.
      { apply Forall_forall. by intros jar (_ & ? & _)%elem_of_glob. }
      split.
      * intros n. rewrite (copy_plugins_loop plugin_src_folder);
          [|by apply empty_staged|done..].
        rewrite (Hempty (updates // n)) by apply below_child.
        unfold plugin_jar, file_at.
        destruct (fs !! (plugin_src_folder // n)) as [[data|]|] eqn:Hn;
          unfold is_file; rewrite Hn; rewrite ?andb_false_r;
          [|by destruct (_ && _)..].
        rewrite andb_true_r.
        assert (bool_decide (plugin_src_folder // n ∈ glob fs plugin_src_folder ".jar")
                = has_ext ".jar" [n]) as ->; [|by destruct (_ && _)].
        destruct (has_ext ".jar" [n]) eqn:He.
        -- apply bool_decide_eq_true, elem_of_glob. split; [done|].
           split; [apply child_of_true; by eexists|by rewrite Hn].
        -- apply bool_decide_eq_false. intros (He' & _)%elem_of_glob.
           unfold has_ext in *. simpl in *. congruence.
      * intros q Hb Hc.
        rewrite copy_plugins_loop_deep;
          [by apply Hempty|by apply empty_staged| |done|done].
        eapply Forall_impl; [exact Hl|]. intros jar [x ->]%child_of_true.
        simpl. intros <-. by apply Hout.
    + split; [|by auto]. intros n. rewrite Hempty by apply below_child.
      rewrite Hnodir by done. by destruct (plugin_jar n).
Qed.

(** *** Steps 2 and 3 *)

Lemma logs_effect_sub (fs : filesystem) (q : path) :
  logs_effect bot_path fs !! q = None ∨ logs_effect bot_path fs !! q = fs !! q.
Proof. rewrite lookup_logs_effect. destruct (_ && _); auto. Qed.

Lemma logs_effect_dirs (fs : filesystem) (q : path) :
  logs_effect bot_path fs !! q = Some Dir ↔ fs !! q = Some Dir.
Proof.
  rewrite lookup_logs_effect. destruct (is_file fs q) eqn:Hf.
  - apply is_file_true in Hf as [data Hf]. rewrite Hf. by destruct (_ && _).
  - by rewrite andb_false_r.
Qed.

Lemma plugins_old_effect_sub (fs : filesystem) (q : path) :
  plugins_old_effect bot_path fs !! q = None
  ∨ plugins_old_effect bot_path fs !! q = fs !! q.
Proof. rewrite lookup_plugins_old_effect. destruct (_ && _); auto. Qed.

Lemma plugins_old_effect_dirs (fs : filesystem) (q : path) :
  plugins_old_effect bot_path fs !! q = Some Dir ↔ fs !! q = Some Dir.
Proof.
  rewrite lookup_plugins_old_effect. destruct (is_file fs q) eqn:Hf.
  - apply is_file_true in Hf as [data Hf]. rewrite Hf. by destruct (_ && _).
  - by rewrite andb_false_r.
Qed.

Lemma wf_logs_effect (fs : filesystem) : wf fs → wf (logs_effect bot_path fs).
Proof.
  intros Hwf. unfold logs_effect. destruct (is_dir fs logs); [|done].
  apply wf_attempt_all; [|done]. intros p fs' ?. by apply wf_try_unlink.
Qed.

Lemma wf_plugins_old_effect (fs : filesystem) :
  wf fs → wf (plugins_old_effect bot_path fs).
Proof.
  intros Hwf. unfold plugins_old_effect. destruct (is_dir fs old); [|done].
  apply wf_attempt_all; [|done]. intros p fs' ?. by apply wf_try_unlink.
Qed.

(** After step 2 no [.log] file is left below [logs]. *)
Lemma logs_effect_done (fs : filesystem) (q : path) :
  wf fs → below logs q = true → has_ext ".log" q = true →
  is_file (logs_effect bot_path fs) q = false.
Proof.
  intros Hwf Hb He. unfold is_file at 1. rewrite lookup_logs_effect, Hb, He.
  destruct (is_dir fs logs) eqn:Hd; simpl.
  - destruct (is_file fs q) eqn:Hf; [done|]. by fold (is_file fs q).
  - by rewrite (wf_below_file fs logs q).
Qed.

(** After step 3 no [.jar] file is left in [plugins/old]. *)
Lemma plugins_old_effect_done (fs : filesystem) (q : path) :
  wf fs → child_of old q = true → has_ext ".jar" q = true →
  is_file (plugins_old_effect bot_path fs) q = false.
Proof.
  intros Hwf Hc He. unfold is_file at 1. rewrite lookup_plugins_old_effect, Hc, He.
  destruct (is_dir fs old) eqn:Hd; simpl.
  - destruct (is_file fs q) eqn:Hf; [done|]. by fold (is_file fs q).
  - rewrite (wf_below_file fs old q); [done..|by apply child_below].
Qed.

(** Where nothing is left to delete, steps 2 and 3 change nothing. *)
Lemma logs_effect_id (fs : filesystem) :
  (∀ q, below logs q = true → has_ext ".log" q = true → is_file fs q = false) →
  logs_effect bot_path fs = fs.
Proof.
  intros Hnone. apply map_eq. intros q. rewrite lookup_logs_effect.
  destruct (below logs q) eqn:Hb; [|by rewrite andb_false_r].
  destruct (has_ext ".log" q) eqn:He; [|by rewrite andb_false_r].
  by rewrite Hnone, andb_false_r.
Qed.

Lemma plugins_old_effect_id (fs : filesystem) :
  (∀ q, child_of old q = true → has_ext ".jar" q = true → is_file fs q = false) →
  plugins_old_effect bot_path fs = fs.
Proof.
  intros Hnone. apply map_eq. intros q. rewrite lookup_plugins_old_effect.
  destruct (child_of old q) eqn:Hb; [|by rewrite andb_false_r].
  destruct (has_ext ".jar" q) eqn:He; [|by rewrite andb_false_r].
  by rewrite Hnone, andb_false_r.
Qed.

(** *** Where the steps may put a file *)

Lemma is_file_sub (fs fs' : filesystem) (q : path) :
  fs' !! q = None ∨ fs' !! q = fs !! q →
  is_file fs' q = true → is_file fs q = true.
Proof. unfold is_file. by intros [->| ->]. Qed.

Lemma plugins_updates_is_file (fs : filesystem) (q : path) :
  wf fs → fs !! bot_path = Some Dir →
  is_file (plugins_updates_effect bot_path fs) q = true → is_file fs q = true.
Proof.
  intros Hwf Hbot [data Hq]%is_file_true. apply is_file_true. exists data.
  by apply plugins_updates_files.
Qed.

Lemma copy_darkbot_is_file (darkjar_src : path) (fs : filesystem) (q : path) :
  is_file (copy_darkbot_effect bot_path darkjar_src fs) q = true →
  is_file fs q = true ∨ (dest `suffix_of` q ∧ name q = "DarkBot.jar").
Proof.
  destruct (copy_darkbot_cases darkjar_src fs)
    as [->|(data & target & Ht & _ & _ & _ & _ & _ & ->)]; [by left|].
  destruct (decide (target = q)) as [<-|Hne].
  - intros _. right. destruct Ht as [[-> _]|[-> _]]; split; try done.
    by apply suffix_cons_r.
  - unfold is_file. rewrite lookup_insert_ne by done. by left.
Qed.

Lemma copy_plugins_is_file (plugin_src_folder : path) (fs : filesystem) (q : path) :
  is_file (copy_plugins_effect bot_path plugin_src_folder fs) q = true →
  is_file fs q = true ∨ below updates q = true.
Proof.
  destruct (below updates q) eqn:Hb; [by right|]. left.
  unfold is_file in *. by rewrite copy_plugins_frame in *.
Qed.

(** *** The second run *)

(** When step 4 leaves no staging folder, a regular file is in the way. *)
Lemma plugins_updates_blocked (fs : filesystem) :
  wf fs → fs !! bot_path = Some Dir →
  is_dir (plugins_updates_effect bot_path fs) updates = false →
  is_file (plugins_updates_effect bot_path fs) updates = true
  ∨ is_file (plugins_updates_effect bot_path fs) plugins = true.
Proof.
  intros Hwf Hbot Hd'. destruct (is_dir fs updates) eqn:Hd.
  - apply is_dir_false in Hd'. exfalso. apply Hd'.
    rewrite plugins_updates_dir, updates_not_below_updates by done.
    by apply is_dir_true.
  - destruct (plugins_updates_mkdir fs Hbot Hd) as [[? ->]|(_ & _ & Heq)]; [done|].
    apply is_dir_false in Hd'. exfalso. apply Hd'.
    by rewrite Heq, lookup_insert_eq.
Qed.

(** Step 4 undoes step 5b: on a state whose staging folder is empty (or
    blocked by a regular file), clearing after the plugin copy gives the
    state before the copy. *)
Lemma plugins_updates_after_copy (plugin_src_folder : path) (fs : filesystem) :
  wf fs → fs !! bot_path = Some Dir →
  (∀ q, below updates q = true → fs !! q = None) →
  (is_dir fs updates = false →
   is_file fs updates = true ∨ is_file fs plugins = true) →
  plugins_updates_effect bot_path
    (copy_plugins_effect bot_path plugin_src_folder fs) = fs.
Proof.
  intros Hwf Hbot Hempty Hblocked. destruct (is_dir fs updates) eqn:Hd.
  - apply map_eq. intros q. rewrite plugins_updates_dir.
    + destruct (below updates q) eqn:Hb; [by rewrite Hempty|].
      by apply copy_plugins_frame.
    + by apply wf_copy_plugins_effect.
    + apply is_dir_true. rewrite copy_plugins_frame by apply updates_not_below_updates.
      by apply is_dir_true.
  - rewrite copy_plugins_unstaged by done.
    destruct (plugins_updates_mkdir fs Hbot Hd) as [[_ ->]|(Hu & Hp & _)]; [done|].
    destruct (Hblocked eq_refl); congruence.
Qed.

Section second_run.
Variables (darkjar_src plugin_src_folder : path) (fs : filesystem).
Hypothesis Hwf : wf fs.
Hypothesis Hbot : fs !! bot_path = Some Dir.

Local Abbreviation fs2 := (purge_effect bot_path fs).
Local Abbreviation fs3 := (plugins_updates_effect bot_path fs2).
Local Abbreviation fs4 := (copy_darkbot_effect bot_path darkjar_src fs3).
Local Abbreviation fs5 := (copy_plugins_effect bot_path plugin_src_folder fs4).

Lemma wf_purge : wf fs2.
Proof. by apply wf_plugins_old_effect, wf_logs_effect. Qed.

Lemma bot_purge : fs2 !! bot_path = Some Dir.
Proof. by apply plugins_old_effect_dirs, logs_effect_dirs. Qed.

Lemma wf_staged : wf fs3.
Proof. apply wf_plugins_updates_effect; [apply wf_purge|apply bot_purge]. Qed.

Lemma bot_staged : fs3 !! bot_path = Some Dir.
Proof.
  apply plugins_updates_dirs;
    [apply wf_purge|apply bot_purge|apply bot_not_below_updates|apply bot_purge].
Qed.

Lemma wf_darkbot : wf fs4.
Proof. apply wf_copy_darkbot_effect, wf_staged. Qed.

Lemma bot_darkbot : fs4 !! bot_path = Some Dir.
Proof. apply copy_darkbot_dirs, bot_staged. Qed.

Lemma wf_processed : wf fs5.
Proof. apply wf_copy_plugins_effect, wf_darkbot. Qed.

Lemma bot_processed : fs5 !! bot_path = Some Dir.
Proof. rewrite copy_plugins_frame; [apply bot_darkbot|apply bot_not_below_updates]. Qed.

Lemma darkbot_empty (q : path) : below updates q = true → fs4 !! q = None.
Proof.
  intros Hb. rewrite copy_darkbot_frame.
  - apply plugins_updates_empty; [apply wf_purge|apply bot_purge|done].
  - intros Hs. apply below_true in Hb as [Hu%suffix_cons_l _].
    by apply (dest_plugins_disjoint q).
Qed.

Lemma darkbot_blocked :
  is_dir fs4 updates = false →
  is_file fs4 updates = true ∨ is_file fs4 plugins = true.
Proof.
  unfold is_dir, is_file. rewrite !copy_darkbot_frame.
  - apply plugins_updates_blocked; [apply wf_purge|apply bot_purge].
  - intros Hs. by apply (dest_plugins_disjoint plugins).
  - intros Hs. apply (dest_plugins_disjoint updates); [done|]. by apply suffix_cons_r.
Qed.

(** After the procedure no [.log] file lies below [logs]. *)
Lemma processed_no_logs (q : path) :
  below logs q = true → has_ext ".log" q = true → is_file fs5 q = false.
Proof.
  intros Hb He. apply not_true_is_false. intros Hf.
  apply below_true in Hb as Hs. destruct Hs as [Hs _].
  apply copy_plugins_is_file in Hf as [Hf|[Hu _]%below_true];
    [|by apply (logs_updates_disjoint q)].
  apply copy_darkbot_is_file in Hf as [Hf|[Hd Hn]].
  - apply plugins_updates_is_file in Hf; [|apply wf_purge|apply bot_purge].
    apply (is_file_sub _ _ _ (plugins_old_effect_sub _ _)) in Hf.
    by rewrite logs_effect_done in Hf.
  - by apply (dest_logs_disjoint q).
Qed.

(** After the procedure no [.jar] file lies in [plugins/old]. *)
Lemma processed_no_old_jars (q : path) :
  child_of old q = true → has_ext ".jar" q = true → is_file fs5 q = false.
Proof.
  intros Hc He. apply not_true_is_false. intros Hf.
  apply child_of_true in Hc as Hx. destruct Hx as [x ->].
  apply copy_plugins_is_file in Hf as [Hf|[Hu _]%below_true].
  - apply copy_darkbot_is_file in Hf as [Hf|[Hd Hn]].
    + apply plugins_updates_is_file in Hf; [|apply wf_purge|apply bot_purge].
      unfold purge_effect in Hf.
      rewrite plugins_old_effect_done in Hf; [done|by apply wf_logs_effect|done..].
    + apply (dest_plugins_disjoint (old // x)); [done|].
      by do 2 apply suffix_cons_r.
  - apply (old_updates_disjoint (old // x)); [|done]. by apply suffix_cons_r.
Qed.

Lemma purge_processed : purge_effect bot_path fs5 = fs5.
Proof.
  unfold purge_effect at 1.
  rewrite logs_effect_id by apply processed_no_logs.
  apply plugins_old_effect_id, processed_no_old_jars.
Qed.

Lemma staged_processed : plugins_updates_effect bot_path fs5 = fs4.
Proof.
  apply plugins_updates_after_copy.
  - apply wf_darkbot.
  - apply bot_darkbot.
  - apply darkbot_empty.
  - apply darkbot_blocked.
Qed.

(** On an existing folder the effect of the procedure is idempotent. *)
Lemma process_effect_twice :
  process_effect bot_path darkjar_src plugin_src_folder
    (process_effect bot_path darkjar_src plugin_src_folder fs)
  = process_effect bot_path darkjar_src plugin_src_folder fs.
Proof.
  unfold process_effect at 2 3. rewrite (proj2 (is_dir_true _ _) Hbot).
  unfold process_effect. rewrite (proj2 (is_dir_true _ _) bot_processed).
  rewrite purge_processed, staged_processed. by rewrite copy_darkbot_idem.
Qed.
End second_run.

End layout.

(** * The maintenance steps *)

(** Every directory passes for a bot folder. *)
Lemma is_bot_folder_of_dir (fs : filesystem) (p : path) :
  is_dir fs p = true → is_bot_folder fs p = true.
Proof.
  intros Hd. unfold is_bot_folder. rewrite Hd. simpl.
  by destruct (exists_ fs (p // "logs") || exists_ fs (p // "plugins")).
Qed.

(** C9. [is_bot_folder p] is true exactly when [p] is a directory; and the
    test for a [logs] or [plugins] subfolder never changes the answer:
    whatever that test yields, the function returns what [p.is_dir()]
    returns. *)
Theorem is_bot_folder_is_dir (fs : filesystem) (p : path) :
  is_bot_folder fs p = is_dir fs p ∧
  ∀ has_subfolder : bool,
    (if negb (is_dir fs p) then false
     else if has_subfolder then true
     else true) = is_dir fs p.
Proof.
  unfold is_bot_folder. split.
  - destruct (is_dir fs p); simpl; [|done].
    by destruct (exists_ fs (p // "logs") || exists_ fs (p // "plugins")).
  - intros []; by destruct (is_dir fs p).
Qed.

(** C3. Step 2 returns normally, and the only entries it changes are regular
    files below [<folder>/logs], at any depth, whose name ends in [.log]:
    these are gone when [logs] is a folder.  Every other entry, in particular
    everything under [<folder>/plugins] and every entry of [logs] with another
    extension, is as before. *)
Theorem step_logs_removes_only_logs (bot_path : path) (w : world) :
  ∃ w', step_logs bot_path w = (Return (), w') ∧
    (∀ q, files w' !! q
          = if is_dir (files w) (bot_path // "logs")
               && below (bot_path // "logs") q
               && has_ext ".log" q && is_file (files w) q
            then None else files w !! q) ∧
    (∀ q, bot_path // "plugins" `suffix_of` q → files w' !! q = files w !! q) ∧
    (∀ q, has_ext ".log" q = false → files w' !! q = files w !! q) ∧
    (∀ q, is_file (files w) q = false → files w' !! q = files w !! q).
Proof.
  destruct (step_logs_runs bot_path w) as ([] & w' & Hrun & Hfiles & _).
  exists w'. split; [done|]. rewrite Hfiles.
  split; [|split; [|split]]; intros q; rewrite lookup_logs_effect.
  - done.
  - intros Hq. destruct (below (bot_path // "logs") q) eqn:Hb;
      [|by rewrite andb_false_r].
    apply below_true in Hb as [Hb _].
    by destruct (siblings_disjoint bot_path q "logs" "plugins").
  - intros ->. by rewrite andb_false_r.
  - intros ->. by rewrite andb_false_r.
Qed.

(** ** The log-only procedure and the batch loop *)

Lemma clear_single_bot_runs (bot_path : path) (w : world) :
  is_dir (files w) bot_path = true →
  runs (clear_single_bot bot_path) w (purge_effect bot_path (files w)).
Proof.
  intros Hd. unfold clear_single_bot, purge_effect.
  apply runs_get_files. rewrite Hd.
  assert (exists_ (files w) bot_path = true) as ->.
  { pose proof Hd as Hd'. rewrite <- is_dir_exists in Hd'.
    apply andb_true_iff in Hd'. by destruct Hd'. }
  simpl.
  eapply runs_bind with (fs1 := logs_effect bot_path (files w)).
  - unfold logs_effect, attempt_all. apply runs_get_files. rewrite is_dir_exists.
    destruct (is_dir (files w) (bot_path // "logs")).
    + eapply runs_bind.
      * apply (runs_for_each _ _ unlink_fs). intros f acc w1.
        by apply (runs_try_op (unlink_fs f) (S acc) acc (DidNotDeleteLog f)).
      * intros removed w1 <-. by apply runs_log.
    + by apply runs_log.
  - intros _ w1 <-. unfold plugins_old_effect, attempt_all.
    apply runs_get_files. rewrite is_dir_exists.
    destruct (is_dir (files w1) (bot_path // "plugins" // "old")).
    + eapply runs_bind.
      * apply (runs_for_each _ _ unlink_fs). intros f acc w2.
        by apply (runs_try_op (unlink_fs f) (S acc) acc (DidNotDelete f)).
      * intros removed w2 <-. by apply runs_log.
    + by apply runs_log.
Qed.

Lemma clear_single_bot_missing (bot_path : path) (w : world) :
  is_dir (files w) bot_path = false →
  clear_single_bot bot_path w = (Raise (MissingFolder bot_path), w).
Proof.
  intros Hd. unfold clear_single_bot, mbind, M_bind, bind, get_files.
  by rewrite Hd, orb_true_r.
Qed.

Section batch.
(** A per-folder procedure: when it fails and with what, its effect on
    files otherwise; and the lines the worker writes around it. *)
Variables (proc : path → M unit) (eff : path → filesystem → filesystem).
Variables (fails : path → filesystem → bool) (exc : path → exn).
Variables (starting finished : nat → nat → path → msg)
          (failed : nat → nat → path → exn → msg).
Variable total : nat.

Hypothesis proc_spec : ∀ bp w,
  if fails bp (files w)
  then proc bp w = (Raise (exc bp), w) ∧ eff bp (files w) = files w
  else runs (proc bp) w (eff bp (files w)).

Local Abbreviation body := (batch_body proc starting finished failed total).
Local Abbreviation block := (folder_block starting finished failed total).

Lemma batch_body_spec (idx : nat) (bp : path) (errors : nat) (w : world) :
  ∃ w' blk,
    body (idx, bp) errors w
    = (Return ((if fails bp (files w) then 1 else 0) + errors), w') ∧
    block (idx, bp) blk (fails bp (files w)) ∧
    log_text w' = log_text w ++ blk ∧
    files w' = eff bp (files w) ∧ cfg w' = cfg w ∧
    progress_value w' = idx ∧ progress_maximum w' = progress_maximum w.
Proof.
  unfold batch_body, try_finally, try_except, mbind, M_bind, bind, log_info,
    log_success, log_error, _log, set_progress_value, mret, M_ret, ret. simpl.
  set (w1 := touch LogText _).
  pose proof (proc_spec bp w1) as Hproc.
  change (files w1) with (files w) in Hproc.
  destruct (fails bp (files w)).
  - destruct Hproc as [-> Heff]. simpl. eexists _, _. split; [done|].
    split; [apply block_failed|]. simpl. rewrite <- !app_assoc. by rewrite Heff.
  - destruct Hproc as ([] & w2 & -> & Hfiles & He).
    destruct He as (Hcfg & _ & _ & Hmax & (inner & Hlog & Hinner) & _).
    simpl. eexists _, _. split; [done|].
    split; [by apply (block_completed _ _ _ _ idx bp inner)|].
    simpl. rewrite Hlog. simpl. rewrite <- !app_assoc. done.
Qed.

Lemma batch_loop_spec (l : list (nat * path)) (errors : nat) (w : world) :
  ∃ w' lg n,
    for_each l errors body w = (Return (n + errors), w') ∧
    n = tally fails eff l.*2 (files w) ∧
    batch_log starting finished failed total l lg n ∧
    log_text w' = log_text w ++ lg ∧
    files w' = foldl (λ fs ip, eff ip.2 fs) (files w) l ∧
    cfg w' = cfg w ∧
    progress_value w' = default (progress_value w) (last (l.*1)) ∧
    progress_maximum w' = progress_maximum w.
Proof.
  revert errors w. induction l as [|[idx bp] l IH]; intros errors w.
  - exists w, [], 0. simpl. rewrite app_nil_r. repeat split; constructor.
  - destruct (batch_body_spec idx bp errors w)
      as (w1 & blk & Hbody & Hblk & Hlog & Hfiles & Hcfg & Hval & Hmax).
    destruct (IH ((if fails bp (files w) then 1 else 0) + errors) w1)
      as (w' & lg & n & Hrest & Hn & Hbatch & Hlog' & Hfiles' & Hcfg' & Hval' & Hmax').
    exists w', (blk ++ lg), (n + (if fails bp (files w) then 1 else 0)).
    split; [|split; [|split; [|split; [|split; [|split; [|split]]]]]].
    + simpl. rewrite (bind_return _ _ _ _ _ Hbody), Hrest. do 2 f_equal. lia.
    + rewrite fmap_cons. simpl. rewrite <- Hfiles, <- Hn. apply Nat.add_comm.
    + rewrite Nat.add_comm. by econstructor.
    + by rewrite Hlog', Hlog, app_assoc.
    + simpl. by rewrite Hfiles', Hfiles.
    + congruence.
    + rewrite Hval', Hval, fmap_cons, last_cons. simpl. by destruct (last l.*1).
    + congruence.
Qed.

End batch.

Lemma foldl_enumerate1 {A B} (f : A → B → B) (l : list A) (b : B) :
  foldl (λ acc ip, f ip.2 acc) b (enumerate1 l) = foldl (λ acc x, f x acc) b l.
Proof.
  unfold enumerate1. generalize 1 as k. revert b.
  induction l as [|x l IH]; intros b k; simpl; [done|]. apply IH.
Qed.

Lemma fst_enumerate1 {A} (l : list A) : (enumerate1 l).*1 = seq 1 (length l).
Proof. unfold enumerate1. apply fst_zip. by rewrite length_seq. Qed.

Lemma snd_enumerate1 {A} (l : list A) : (enumerate1 l).*2 = l.
Proof. unfold enumerate1. apply snd_zip. by rewrite length_seq. Qed.

Lemma last_seq1 (n : nat) (d : nat) : default d (last (seq 1 n)) = if n is 0 then d else n.
Proof.
  destruct n as [|n]; [done|]. rewrite seq_S, last_snoc. simpl. done.
Qed.

Lemma process_single_bot_spec (darkjar_src plugin_src_folder bp : path) (w : world) :
  if negb (is_dir (files w) bp)
  then process_single_bot bp darkjar_src plugin_src_folder w
       = (Raise (MissingFolder bp), w)
       ∧ process_effect bp darkjar_src plugin_src_folder (files w) = files w
  else runs (process_single_bot bp darkjar_src plugin_src_folder) w
            (process_effect bp darkjar_src plugin_src_folder (files w)).
Proof.
  destruct (is_dir (files w) bp) eqn:Hd; simpl.
  - by apply process_single_bot_runs.
  - split; [by apply process_single_bot_missing|].
    unfold process_effect. by rewrite Hd.
Qed.

Lemma clear_single_bot_spec (bp : path) (w : world) :
  if negb (is_dir (files w) bp)
  then clear_single_bot bp w = (Raise (MissingFolder bp), w)
       ∧ purge_if_dir bp (files w) = files w
  else runs (clear_single_bot bp) w (purge_if_dir bp (files w)).
Proof.
  unfold purge_if_dir. destruct (is_dir (files w) bp) eqn:Hd; simpl.
  - by apply clear_single_bot_runs.
  - split; [by apply clear_single_bot_missing|done].
Qed.

(** The batch worker, start to end. *)
Lemma run_worker_spec (bot_paths : list path) (w : world) :
  let total := length bot_paths in
  let darkjar := darkbot_jar_path (cfg w) in
  let plugin_src := plugin_updates_folder (cfg w) in
  ∃ w' lg errors,
    _run_worker bot_paths w = (Return (), w') ∧
    errors = tally (λ bp fs, negb (is_dir fs bp))
                   (λ bp, process_effect bp darkjar plugin_src)
                   bot_paths (files w) ∧
    batch_log Processing Completed ErrorProcessing total
      (enumerate1 bot_paths) lg errors ∧
    log_text w' = log_text w
      ++ [(info, OperationStart total)] ++ lg
      ++ [if bool_decide (errors = 0) then (success, OperationOk total)
          else (warn, OperationErrors errors)] ∧
    files w' = foldl (λ fs bp, process_effect bp darkjar plugin_src fs)
                 (files w) bot_paths ∧
    cfg w' = cfg w ∧
    progress_value w' = total ∧ progress_maximum w' = total.
Proof.
  intros total darkjar plugin_src.
  unfold _run_worker. fold total.
  do 4 (erewrite bind_return; [|reflexivity]). simpl.
  set (w1 := touch LogText _).
  destruct (batch_loop_spec (λ bp, process_single_bot bp darkjar plugin_src)
              (λ bp, process_effect bp darkjar plugin_src)
              (λ bp fs, negb (is_dir fs bp)) MissingFolder
              Processing Completed ErrorProcessing total
              (process_single_bot_spec darkjar plugin_src)
              (enumerate1 bot_paths) 0 w1)
    as (w2 & lg & n & Hloop & Hn & Hbatch & Hlog & Hfiles & Hcfg & Hval & Hmax).
  rewrite Nat.add_0_r in Hloop. rewrite snd_enumerate1 in Hn.
  change (cfg w1) with (cfg w) in *.
  rewrite (bind_return _ _ _ _ _ Hloop).
  rewrite (foldl_enumerate1 (λ bp, process_effect bp darkjar plugin_src)) in Hfiles.
  rewrite fst_enumerate1, last_seq1 in Hval.
  fold total in Hval.
  assert (progress_value w2 = total) as Hval'.
  { rewrite Hval. subst total. by destruct (length bot_paths). }
  unfold log_success, log_warn, _log, showinfo, mbind, M_bind, bind.
  destruct (bool_decide (n = 0)) eqn:Hn0; simpl;
    eexists _, lg, n; (split; [done|]); (split; [done|]); (split; [done|]); simpl;
    rewrite Hlog, Hfiles, Hcfg, Hval', Hmax, Hn0; simpl;
    rewrite <- !app_assoc; done.
Qed.

Lemma announced_app (l1 l2 : list (tag * msg)) :
  announced (l1 ++ l2) = announced l1 ++ announced l2.
Proof. apply omap_app. Qed.

Lemma reported_app (l1 l2 : list (tag * msg)) :
  reported (l1 ++ l2) = reported l1 ++ reported l2.
Proof. apply omap_app. Qed.

(** The lines of the steps announce and report nothing. *)
Lemma step_lines_silent (lg : list (tag * msg)) :
  Forall (λ e, batch_line e.2 = false) lg → announced lg = [] ∧ reported lg = [].
Proof.
  induction 1 as [|[t m] lg Hm _ [IH1 IH2]]; [done|].
  unfold announced, reported in *.
  destruct m; simpl in *; try discriminate; by rewrite ?IH1, ?IH2.
Qed.

Lemma batch_log_lines (total : nat) (l : list (nat * path))
    (lg : list (tag * msg)) (errors : nat) :
  batch_log Processing Completed ErrorProcessing total l lg errors →
  announced lg = l ∧ reported lg = l ∧ (errors ≤ length l)%nat.
Proof.
  induction 1 as [|ip rest blk lg fl errors Hblk _ (IH1 & IH2 & IH3)]; [done|].
  rewrite announced_app, reported_app, IH1, IH2.
  destruct Hblk as [idx bp inner Hinner|idx bp e].
  - destruct (step_lines_silent inner Hinner) as [Ha Hr].
    change ((info, Processing idx total bp) :: inner ++ [(success, Completed idx total bp)])
      with ([(info, Processing idx total bp)] ++ inner ++ [(success, Completed idx total bp)]).
    rewrite !announced_app, !reported_app, Ha, Hr. simpl. repeat split; [done..|lia].
  - simpl. repeat split; [done..|lia].
Qed.

(** ** Which thread touches the widgets *)

Section threaded.
Context {A B : Type}.


Lemma threaded_raise (e : exn) : threaded (@raise A e).
Proof. intros w. apply same_thread_refl. Qed.




End threaded.

Lemma threaded_touch (wd : widget) (f : world → world) :
  (∀ w, thread (f w) = thread w ∧ widget_writes (f w) = widget_writes w) →
  threaded (λ w, (Return (), touch wd (f w))).
Proof.
  intros Hf w. destruct (Hf w) as [Ht Hw]. split; simpl; [done|].
  exists [(thread w, wd)]. rewrite Ht, Hw. split; [done|]. by constructor.
Qed.



Lemma threaded_set_progress_maximum (v : nat) : threaded (set_progress_maximum v).
Proof. by apply threaded_touch. Qed.







(** ** The log-only procedure against the full one *)

Lemma alike_refl (w : world) : alike w w.
Proof. by repeat split. Qed.

Section sim.
Context {A B : Type}.

Lemma sim_ret (a : A) : sim (mret a) (mret a).
Proof. by intros w1 w2 H. Qed.

Lemma sim_raise (e : exn) : sim (@raise A e) (raise e).
Proof. by intros w1 w2 H. Qed.

Lemma sim_bind (m1 m2 : M A) (k1 k2 : A → M B) :
  sim m1 m2 → (∀ a, sim (k1 a) (k2 a)) → sim (m1 ≫= k1) (m2 ≫= k2).
Proof.
  intros Hm Hk w1 w2 Hw. destruct (Hm w1 w2 Hw) as [Hr Hw'].
  unfold mbind, M_bind, bind.
  destruct (m1 w1) as [[a|e] w1'], (m2 w2) as [[a'|e'] w2'];
    simpl in *; simplify_eq; [by apply Hk|done].
Qed.

Lemma sim_try_except (m1 m2 : M A) (h1 h2 : exn → M A) :
  sim m1 m2 → (∀ e, sim (h1 e) (h2 e)) → sim (try_except m1 h1) (try_except m2 h2).
Proof.
  intros Hm Hh w1 w2 Hw. destruct (Hm w1 w2 Hw) as [Hr Hw'].
  unfold try_except.
  destruct (m1 w1) as [[a|e] w1'], (m2 w2) as [[a'|e'] w2'];
    simpl in *; simplify_eq; [done|by apply Hh].
Qed.

Lemma sim_get_files (k1 k2 : filesystem → M B) :
  (∀ fs, sim (k1 fs) (k2 fs)) → sim (get_files ≫= k1) (get_files ≫= k2).
Proof.
  intros Hk w1 w2 Hw. unfold mbind, M_bind, bind, get_files.
  destruct Hw as [Hf Hw]. rewrite Hf. apply Hk. by split.
Qed.
End sim.

Lemma sim_for_each {A B : Type} (l : list A) (acc : B) (body1 body2 : A → B → M B) :
  (∀ x acc, sim (body1 x acc) (body2 x acc)) →
  sim (for_each l acc body1) (for_each l acc body2).
Proof.
  intros Hbody. revert acc. induction l as [|x l IH]; intros acc; simpl.
  - by intros w1 w2 H.
  - apply sim_bind; [apply Hbody|]. intros acc'. apply IH.
Qed.

Lemma sim_fs_op (f : filesystem → exn + filesystem) : sim (fs_op f) (fs_op f).
Proof.
  intros w1 w2 (Hf & Hc & Hl & Hv & Hm & Hb & Ht & Hw). unfold fs_op.
  rewrite Hf. destruct (f (files w2)); simpl; by repeat split.
Qed.

Lemma sim_log (m1 m2 : msg) (t : tag) :
  wording m1 = wording m2 → sim (_log m1 t) (_log m2 t).
Proof.
  intros Hm w1 w2 (Hf & Hc & Hl & Hv & Hx & Hb & Ht & Hw). split; [done|].
  repeat split; simpl; try done.
  - rewrite !fmap_app, Hl. simpl. by rewrite Hm.
  - by rewrite Ht, Hw.
Qed.

Lemma clear_single_bot_sim (bot_path : path) :
  sim (clear_single_bot bot_path) (purge_portion bot_path).
Proof.
  unfold clear_single_bot, purge_portion, step_logs, step_plugins_old.
  apply sim_get_files. intros fs.
  destruct (negb (exists_ fs bot_path) || negb (is_dir fs bot_path));
    [apply sim_raise|].
  apply sim_bind; [|intros _].
  - apply sim_get_files. intros fs1. destruct (_ && _); [|by apply sim_log].
    apply sim_bind; [|intros removed; by apply sim_log].
    apply sim_for_each. intros f removed. apply sim_try_except.
    + apply sim_bind; [apply sim_fs_op|]. intros _. apply sim_ret.
    + intros e. apply sim_bind; [by apply sim_log|]. intros _. apply sim_ret.
  - apply sim_get_files. intros fs1. destruct (_ && _); [|by apply sim_log].
    apply sim_bind; [|intros removed; by apply sim_log].
    apply sim_for_each. intros f removed. apply sim_try_except.
    + apply sim_bind; [apply sim_fs_op|]. intros _. apply sim_ret.
    + intros e. apply sim_bind; [by apply sim_log|]. intros _. apply sim_ret.
Qed.

(** The full procedure is its first portion followed by its second. *)
Lemma process_single_bot_split (bot_path darkjar_src plugin_src_folder : path)
    (w : world) :
  process_single_bot bot_path darkjar_src plugin_src_folder w
  = (purge_portion bot_path;; install_portion bot_path darkjar_src plugin_src_folder) w.
Proof.
  unfold process_single_bot, purge_portion, install_portion, mbind, M_bind, bind,
    get_files, raise.
  destruct (negb (exists_ (files w) bot_path) || negb (is_dir (files w) bot_path));
    [done|].
  destruct (step_logs bot_path w) as [[[]|e] w1]; [|done].
  by destruct (step_plugins_old bot_path w1) as [[[]|e] w2].
Qed.

(** Steps 2 and 3 change nothing outside [logs] and [plugins/old]. *)
Lemma purge_effect_frame (bot_path : path) (fs : filesystem) (q : path) :
  ¬ bot_path // "logs" `suffix_of` q →
  ¬ bot_path // "plugins" // "old" `suffix_of` q →
  purge_effect bot_path fs !! q = fs !! q.
Proof.
  intros Hl Ho. unfold purge_effect.
  rewrite lookup_plugins_old_effect, lookup_logs_effect.
  destruct (child_of _ q) eqn:Hc.
  { apply child_of_true in Hc as [x ->]. exfalso. apply Ho. by apply suffix_cons_r. }
  rewrite andb_false_r. simpl.
  destruct (below _ q) eqn:Hb.
  { apply below_true in Hb as [? _]. done. }
  by rewrite andb_false_r.
Qed.


(** C2 (amended). With the bot folder in place and [<folder>/DarkBot.jar]
    not a folder, step 5a returns normally and touches nothing but
    [<folder>/DarkBot.jar].  When the configured source exists, is a regular
    file and is named exactly [DarkBot.jar], that file has the content of the
    source afterwards: the step has written it, replacing what was there,
    and logged the copy; unless the source is that very file, in which case
    the copy is refused, the failure is logged as a warning and the files are
    as before.  In every other case (a source named [notdarkbot.jar], say)
    the files are as before and the step has logged the one warning that it
    was skipped. *)
Theorem darkbot_jar_copied_iff_valid (bot_path darkjar_src : path) (w : world) :
  is_dir (files w) bot_path = true →
  is_dir (files w) (bot_path // "DarkBot.jar") = false →
  ∃ w', step_copy_darkbot bot_path darkjar_src w = (Return (), w') ∧
    (∀ q, q ≠ bot_path // "DarkBot.jar" → files w' !! q = files w !! q) ∧
    if exists_ (files w) darkjar_src && is_file (files w) darkjar_src
       && bool_decide (name darkjar_src = "DarkBot.jar")
    then ∃ data, files w !! darkjar_src = Some (File data) ∧
                 files w' !! (bot_path // "DarkBot.jar") = Some (File data) ∧
                 if bool_decide (darkjar_src = bot_path // "DarkBot.jar")
                 then files w' = files w ∧
                      log_text w'
                      = log_text w
                        ++ [(warn, FailedToCopyDarkBot bot_path
                                     (SameFileError darkjar_src
                                        (bot_path // "DarkBot.jar")))]
                 else files w' = <[bot_path // "DarkBot.jar" := File data]> (files w) ∧
                      log_text w'
                      = log_text w
                        ++ [(info, CopiedDarkBot (bot_path // "DarkBot.jar"))]
    else files w' = files w ∧
         log_text w' = log_text w ++ [(warn, InvalidDarkBot darkjar_src)].
Proof.
  intros Hbot Hdest.
  unfold step_copy_darkbot. erewrite bind_return; [|reflexivity]. cbv beta.
  destruct (exists_ (files w) darkjar_src && is_file (files w) darkjar_src
            && bool_decide (name darkjar_src = "DarkBot.jar")) eqn:Hok.
  - apply andb_true_iff in Hok as [Hok _].
    apply andb_true_iff in Hok as [Hex [data Hsrc]%is_file_true].
    apply is_dir_true in Hbot.
    unfold try_except, copy2, fs_op, copy2_fs, mbind, M_bind, bind, log_info,
      log_warn, _log, mret, M_ret, ret.
    rewrite Hdest, Hex, andb_true_r, Hsrc.
    case_bool_decide as Hsame.
    + eexists. split; [done|]. split; [done|]. exists data.
      split; [done|]. split; [by rewrite <- Hsame|done].
    + cbn [parent tail]. rewrite Hbot. apply is_dir_false in Hdest.
      destruct (files w !! (bot_path // "DarkBot.jar")) as [[tdata|]|] eqn:Ht;
        [|done|];
        (eexists; split; [done|]; split;
         [intros q Hq; simpl; by rewrite lookup_insert_ne
         |exists data; split; [done|]; split;
          [simpl; by rewrite lookup_insert_eq|done]]).
  - by eexists.
Qed.

(** The jar of the sample is named [notdarkbot.jar]: step 5a is skipped and
    [bot/DarkBot.jar] keeps its content. *)
Lemma darkbot_jar_copied_iff_valid_witness :
  ∃ w', step_copy_darkbot ["bot"] ["notdarkbot.jar"; "src"]
          (started sample_files ["notdarkbot.jar"; "src"] ["src"])
        = (Return (), w') ∧
    (∀ q, q ≠ ["DarkBot.jar"; "bot"] → files w' !! q = sample_files !! q) ∧
    files w' = sample_files ∧
    log_text w' = [(warn, InvalidDarkBot ["notdarkbot.jar"; "src"])].
Proof.
  exact (darkbot_jar_copied_iff_valid ["bot"] ["notdarkbot.jar"; "src"]
           (started sample_files ["notdarkbot.jar"; "src"] ["src"])
           ltac:(vm_compute; reflexivity) ltac:(vm_compute; reflexivity)).
Defined.

(** C2, as stated, fails where [<folder>/DarkBot.jar] is a folder: the
    source is valid and the step logs the copy, but the file is written
    inside that folder, under the name of the source, and
    [<folder>/DarkBot.jar] itself is the folder it was. *)
Lemma darkbot_target_folder_counterexample :
  let w := started folder_target_files ["DarkBot.jar"; "src"] ["src"] in
  let w' := (step_copy_darkbot ["bot"] ["DarkBot.jar"; "src"] w).2 in
  bool_decide (wf (files w)) = true ∧
  is_dir (files w) ["bot"] = true ∧
  exists_ (files w) ["DarkBot.jar"; "src"]
  && is_file (files w) ["DarkBot.jar"; "src"]
  && bool_decide (name ["DarkBot.jar"; "src"] = "DarkBot.jar") = true ∧
  files w !! ["DarkBot.jar"; "src"] = Some (File "application") ∧
  files w' !! ["DarkBot.jar"; "bot"] = Some Dir ∧
  files w' !! ["DarkBot.jar"; "DarkBot.jar"; "bot"] = Some (File "application") ∧
  log_text w' = [(info, CopiedDarkBot ["DarkBot.jar"; "bot"])].
Proof. vm_compute. repeat split. Qed.

Lemma copy_darkbot_other_names (bot_path darkjar_src : path) (fs : filesystem) (q : path) :
  name q ≠ "DarkBot.jar" →
  copy_darkbot_effect bot_path darkjar_src fs !! q = fs !! q.
Proof.
  intros Hq. destruct (copy_darkbot_cases bot_path darkjar_src fs)
    as [->|(data & target & Ht & _ & _ & _ & _ & _ & ->)]; [done|].
  rewrite lookup_insert_ne; [done|]. intros <-.
  by destruct Ht as [[-> _]|[-> _]].
Qed.

Lemma plugins_updates_file_at (bot_path : path) (fs : filesystem) (q : path) :
  wf fs → fs !! bot_path = Some Dir →
  below (bot_path // "plugins" // "updates") q = false →
  file_at (plugins_updates_effect bot_path fs) q = file_at fs q.
Proof.
  intros Hwf Hbot Hb. unfold file_at.
  destruct (is_dir fs (bot_path // "plugins" // "updates")) eqn:Hd.
  - rewrite plugins_updates_dir by done. by rewrite Hb.
  - destruct (plugins_updates_mkdir bot_path fs Hbot Hd)
      as [[_ ->]|(Hu & Hp & ->)]; [done|].
    apply is_file_false in Hu, Hp.
    destruct (decide (bot_path // "plugins" // "updates" = q)) as [<-|Hne1].
    { rewrite lookup_insert_eq. by destruct Hu as [-> | ->]. }
    rewrite lookup_insert_ne by done.
    destruct (decide (bot_path // "plugins" = q)) as [<-|Hne2].
    { rewrite lookup_insert_eq. by destruct Hp as [-> | ->]. }
    by rewrite lookup_insert_ne.
Qed.

(** C1, as stated, fails where [plugins] is a regular file: the staging
    folder does not exist before step 4 and does not exist after it (the
    creation fails and is logged as a warning), nor after step 5b. *)
Lemma staging_blocked_counterexample :
  let w := started blocked_files [] ["src"] in
  let w4 := (step_plugins_updates ["bot"] w).2 in
  let w5 := (step_copy_plugins ["bot"] ["src"] w4).2 in
  bool_decide (wf (files w)) = true ∧
  is_dir (files w) ["bot"] = true ∧
  exists_ (files w) ["updates"; "plugins"; "bot"] = false ∧
  exists_ (files w4) ["updates"; "plugins"; "bot"] = false ∧
  exists_ (files w5) ["updates"; "plugins"; "bot"] = false ∧
  log_text w4 = [(warn, FailedToCreate ["updates"; "plugins"; "bot"]
                          (NotADirectoryError ["updates"; "plugins"; "bot"]))].
Proof. vm_compute. repeat split. Qed.

Lemma process_single_bot_files (bot_path darkjar_src plugin_src_folder : path)
    (w : world) :
  files (process_single_bot bot_path darkjar_src plugin_src_folder w).2
  = process_effect bot_path darkjar_src plugin_src_folder (files w).
Proof.
  pose proof (process_single_bot_spec darkjar_src plugin_src_folder bot_path w) as H.
  destruct (negb (is_dir (files w) bot_path)).
  - destruct H as [-> ->]. done.
  - by destruct H as (a & w' & -> & Hf & _).
Qed.

Lemma process_effect_wf (bot_path darkjar_src plugin_src_folder : path)
    (fs : filesystem) :
  wf fs → wf (process_effect bot_path darkjar_src plugin_src_folder fs).
Proof.
  intros Hwf. unfold process_effect. destruct (is_dir fs bot_path) eqn:Hd; [|done].
  apply wf_processed; [done|by apply is_dir_true].
Qed.

(** The effect of the procedure is idempotent on every well-formed file
    system, whatever the folder and the configured sources. *)
Lemma process_effect_idem (bot_path darkjar_src plugin_src_folder : path)
    (fs : filesystem) :
  wf fs →
  process_effect bot_path darkjar_src plugin_src_folder
    (process_effect bot_path darkjar_src plugin_src_folder fs)
  = process_effect bot_path darkjar_src plugin_src_folder fs.
Proof.
  intros Hwf. destruct (is_dir fs bot_path) eqn:Hd.
  - apply process_effect_twice; [done|by apply is_dir_true].
  - unfold process_effect. by rewrite !Hd.
Qed.

(** C6 (amended). On a well-formed file system, running the full procedure
    twice in a row leaves the files that running it once leaves, for every
    folder and every configured source.  In the second run on an existing
    folder, steps 2 and 3 find nothing to delete; step 4 does delete: it takes
    away whatever lies in [plugins/updates], that is the plugins copied by
    the first run, and nothing else; and step 5 then puts back the same
    files. *)
Theorem process_twice_same_files
    (bot_path darkjar_src plugin_src_folder : path) (w : world) :
  wf (files w) →
  let w1 := (process_single_bot bot_path darkjar_src plugin_src_folder w).2 in
  let w2 := (process_single_bot bot_path darkjar_src plugin_src_folder w1).2 in
  let w4 := (step_plugins_updates bot_path w1).2 in
  files w2 = files w1 ∧
  (is_dir (files w) bot_path = true →
   files (step_logs bot_path w1).2 = files w1 ∧
   files (step_plugins_old bot_path w1).2 = files w1 ∧
   (∀ q, files w4 !! q
         = if below (bot_path // "plugins" // "updates") q then None
           else files w1 !! q) ∧
   files ((step_copy_darkbot bot_path darkjar_src;;
           step_copy_plugins bot_path plugin_src_folder) w4).2 = files w1).
Proof.
  intros Hwf w1 w2 w4.
  assert (files w1 = process_effect bot_path darkjar_src plugin_src_folder (files w))
    as Hw1 by apply process_single_bot_files.
  split.
  { unfold w2. rewrite process_single_bot_files, Hw1. by apply process_effect_idem. }
  intros Hd. pose proof (proj1 (is_dir_true _ _) Hd) as Hbot.
  unfold process_effect in Hw1. rewrite Hd in Hw1.
  assert (files w4 = copy_darkbot_effect bot_path darkjar_src
                       (plugins_updates_effect bot_path
                          (purge_effect bot_path (files w)))) as Hw4.
  { unfold w4. destruct (step_plugins_updates_runs bot_path w1)
      as ([] & w' & -> & Hf & _). simpl. rewrite Hf, Hw1. by apply staged_processed. }
  split; [|split; [|split]].
  - destruct (step_logs_runs bot_path w1) as ([] & w' & -> & Hf & _).
    simpl. rewrite Hf, Hw1. apply logs_effect_id. by apply processed_no_logs.
  - destruct (step_plugins_old_runs bot_path w1) as ([] & w' & -> & Hf & _).
    simpl. rewrite Hf, Hw1. apply plugins_old_effect_id. by apply processed_no_old_jars.
  - intros q. rewrite Hw4, Hw1.
    destruct (below _ q) eqn:Hb.
    + by apply darkbot_empty.
    + by rewrite copy_plugins_frame.
  - assert (runs (step_copy_darkbot bot_path darkjar_src;;
                  step_copy_plugins bot_path plugin_src_folder) w4 (files w1))
      as (a & w' & -> & Hf & _); [|done].
    eapply runs_bind; [apply step_copy_darkbot_runs|]. intros _ w5 Hw5.
    assert (files w1 = copy_plugins_effect bot_path plugin_src_folder (files w5)) as ->.
    { by rewrite Hw5, Hw4, copy_darkbot_idem, Hw1. }
    apply step_copy_plugins_runs.
Qed.

(** The sample, processed twice. *)
Lemma process_twice_same_files_witness :
  let w := started sample_files ["DarkBot.jar"; "src"] ["src"] in
  let w1 := (process_single_bot ["bot"] ["DarkBot.jar"; "src"] ["src"] w).2 in
  let w2 := (process_single_bot ["bot"] ["DarkBot.jar"; "src"] ["src"] w1).2 in
  let w4 := (step_plugins_updates ["bot"] w1).2 in
  files w2 = files w1 ∧
  files (step_logs ["bot"] w1).2 = files w1 ∧
  files (step_plugins_old ["bot"] w1).2 = files w1 ∧
  (∀ q, files w4 !! q
        = if below ["updates"; "plugins"; "bot"] q then None else files w1 !! q) ∧
  files ((step_copy_darkbot ["bot"] ["DarkBot.jar"; "src"];;
          step_copy_plugins ["bot"] ["src"]) w4).2 = files w1.
Proof.
  intros w w1 w2 w4.
  destruct (process_twice_same_files ["bot"] ["DarkBot.jar"; "src"] ["src"] w)
    as [Hsame Hsteps].
  - apply (bool_decide_unpack _). vm_compute. reflexivity.
  - split; [exact Hsame|]. apply Hsteps. vm_compute. reflexivity.
Defined.

(** C6, as stated, fails at step 4: in the second run on the sample the
    three jars copied by the first run are in [plugins/updates], and step 4
    deletes them, as its log line says. *)
Lemma second_run_step4_counterexample :
  let w := started sample_files ["DarkBot.jar"; "src"] ["src"] in
  let w1 := (process_single_bot ["bot"] ["DarkBot.jar"; "src"] ["src"] w).2 in
  let w4 := (step_plugins_updates ["bot"] w1).2 in
  let w2 := (process_single_bot ["bot"] ["DarkBot.jar"; "src"] ["src"] w1).2 in
  files w1 !! ["a.jar"; "updates"; "plugins"; "bot"] = Some (File "plugin a") ∧
  files w4 !! ["a.jar"; "updates"; "plugins"; "bot"] = None ∧
  bool_decide (files w4 = files w1) = false ∧
  bool_decide ((info, RemovedElements 3 ["updates"; "plugins"; "bot"])
               ∈ drop (length (log_text w1)) (log_text w2)) = true.
Proof. vm_compute. repeat split. Qed.

(** C5. For every list of folders the batch worker returns normally.  The
    lines it appends to the log announce every input folder exactly once, in
    the given order and numbered from 1, and report every input folder
    exactly once, in the same order, as completed or as failed: the log is
    the opening line, one block of lines per folder, and the summary.  A
    folder whose procedure raises is tallied and the loop goes on: the files
    at the end are those obtained by running the procedure on every folder in
    turn, and the number of folders attempted is the input count. *)
Theorem run_worker_processes_each_folder_once (bot_paths : list path) (w : world) :
  let total := length bot_paths in
  let darkjar := darkbot_jar_path (cfg w) in
  let plugin_src := plugin_updates_folder (cfg w) in
  ∃ w' lg blocks errors,
    _run_worker bot_paths w = (Return (), w') ∧
    log_text w' = log_text w ++ lg ∧
    announced lg = enumerate1 bot_paths ∧
    reported lg = enumerate1 bot_paths ∧
    (announced lg).*2 = bot_paths ∧
    length (announced lg) = total ∧
    lg = [(info, OperationStart total)] ++ blocks
         ++ [if bool_decide (errors = 0) then (success, OperationOk total)
             else (warn, OperationErrors errors)] ∧
    batch_log Processing Completed ErrorProcessing total
      (enumerate1 bot_paths) blocks errors ∧
    errors = tally (λ bp fs, negb (is_dir fs bp))
                   (λ bp, process_effect bp darkjar plugin_src)
                   bot_paths (files w) ∧
    files w' = foldl (λ fs bp, process_effect bp darkjar plugin_src fs)
                 (files w) bot_paths ∧
    progress_value w' = total.
Proof.
  intros total darkjar plugin_src.
  destruct (run_worker_spec bot_paths w)
    as (w' & blocks & errors & Hrun & Herrors & Hbatch & Hlog & Hfiles & _ & Hval & _).
  destruct (batch_log_lines _ _ _ _ Hbatch) as (Ha & Hr & _).
  set (lg := [(info, OperationStart total)] ++ blocks
             ++ [if bool_decide (errors = 0) then (success, OperationOk total)
                 else (warn, OperationErrors errors)]).
  assert (announced lg = enumerate1 bot_paths) as Ha'.
  { unfold lg. destruct (bool_decide (errors = 0)); rewrite !announced_app, Ha; simpl;
      by rewrite app_nil_r. }
  assert (reported lg = enumerate1 bot_paths) as Hr'.
  { unfold lg. destruct (bool_decide (errors = 0)); rewrite !reported_app, Hr; simpl;
      by rewrite app_nil_r. }
  exists w', lg, blocks, errors. rewrite Ha', Hr'.
  split; [done|]. split; [exact Hlog|]. split; [done|]. split; [done|].
  split; [apply snd_enumerate1|]. split; [|done].
  unfold enumerate1. rewrite length_zip, length_seq. apply Nat.min_id.
Qed.

(** C7. The log-only procedure does what the validation and steps 2 and 3
    of the full procedure do: on every state both have the same outcome and
    leave the same files, and their logs differ only in the wording of the
    warnings, so every failed deletion and every missing folder is handled in
    the same way.  The full procedure is this portion followed by steps 4 and
    5.  The log-only procedure changes nothing at or below
    [<folder>/plugins/updates] and leaves [<folder>/DarkBot.jar] as it is. *)
Theorem clear_single_bot_is_purge_portion
    (bot_path darkjar_src plugin_src_folder : path) (w : world) :
  let cleared := clear_single_bot bot_path w in
  let purged := purge_portion bot_path w in
  cleared.1 = purged.1 ∧
  alike cleared.2 purged.2 ∧
  process_single_bot bot_path darkjar_src plugin_src_folder w
  = (purge_portion bot_path;;
     install_portion bot_path darkjar_src plugin_src_folder) w ∧
  files cleared.2
  = (if is_dir (files w) bot_path then purge_effect bot_path (files w) else files w) ∧
  (∀ q, bot_path // "plugins" // "updates" `suffix_of` q →
        files cleared.2 !! q = files w !! q) ∧
  files cleared.2 !! (bot_path // "DarkBot.jar") = files w !! (bot_path // "DarkBot.jar").
Proof.
  intros cleared purged.
  destruct (clear_single_bot_sim bot_path w w (alike_refl w)) as [Hout Halike].
  split; [done|]. split; [done|]. split; [apply process_single_bot_split|].
  assert (files cleared.2 = purge_if_dir bot_path (files w)) as Hfiles.
  { unfold cleared. pose proof (clear_single_bot_spec bot_path w) as H.
    destruct (negb (is_dir (files w) bot_path)).
    - by destruct H as [-> ->].
    - by destruct H as (a & w' & -> & Hf & _). }
  rewrite Hfiles. unfold purge_if_dir. split; [done|].
  destruct (is_dir (files w) bot_path); [|done]. split.
  - intros q Hq. apply purge_effect_frame.
    + intros Hl. by apply (logs_updates_disjoint bot_path q).
    + intros Ho. by apply (old_updates_disjoint bot_path q).
  - apply purge_effect_frame.
    + intros Hl. by apply (dest_logs_disjoint bot_path (bot_path // "DarkBot.jar")).
    + intros Ho%suffix_cons_l.
      by apply (dest_plugins_disjoint bot_path (bot_path // "DarkBot.jar")).
Qed.




(** ** The folder enumerator *)

Section sorted.
Context {A : Type} (key : A → string).

Local Abbreviation key_le := (λ a b : A, String.le (key a) (key b)).

Lemma insert_by_perm (x : A) (l : list A) : insert_by key x l ≡ₚ x :: l.
Proof.
  induction l as [|y l IH]; simpl; [done|].
  destruct (String.leb (key x) (key y)); [done|].
  rewrite IH. apply Permutation_swap.
Qed.

Lemma sorted_perm (l : list A) : sorted l key ≡ₚ l.
Proof.
  unfold sorted. induction l as [|x l IH]; simpl; [done|].
  by rewrite insert_by_perm, IH.
Qed.

Lemma insert_by_sorted (x : A) (l : list A) :
  StronglySorted key_le l → StronglySorted key_le (insert_by key x l).
Proof.
  induction 1 as [|y l Hl IH Hy]; simpl.
  - by repeat constructor.
  - destruct (String.leb (key x) (key y)) eqn:Hxy.
    + constructor; [by constructor|]. constructor.
      * unfold String.le. by rewrite Hxy.
      * eapply Forall_impl; [exact Hy|]. intros z Hz. simpl in *.
        transitivity (key y); [|done]. unfold String.le. by rewrite Hxy.
    + constructor; [done|]. rewrite insert_by_perm. constructor; [|done].
      destruct (total String.le (key x) (key y)) as [Hle|Hle]; [|done].
      unfold String.le in Hle. by rewrite Hxy in Hle.
Qed.

Lemma sorted_sorted (l : list A) : StronglySorted key_le (sorted l key).
Proof.
  unfold sorted. induction l as [|x l IH]; simpl; [constructor|].
  by apply insert_by_sorted.
Qed.
End sorted.

Lemma filter_all {A} (P : A → Prop) `{!∀ x, Decision (P x)} (l : list A) :
  Forall P l → filter P l = l.
Proof.
  induction 1 as [|x l Hx _ IH]; [done|]. by rewrite filter_cons_True, IH.
Qed.

Lemma filter_same {A} (P Q : A → Prop) `{!∀ x, Decision (P x)}
    `{!∀ x, Decision (Q x)} (l : list A) :
  (∀ x, P x ↔ Q x) → filter P l = filter Q l.
Proof.
  intros HPQ. induction l as [|x l IH]; [done|].
  rewrite !filter_cons, IH. destruct (decide (P x)), (decide (Q x)); firstorder.
Qed.

Lemma listbox_fill (fs : filesystem) (l : list path) (w : world) :
  ∃ w', for_each l ()
          (λ p _, if is_bot_folder fs p then listbox_insert p else mret ()) w
        = (Return (), w') ∧
        files w' = files w ∧ log_text w' = log_text w ∧
        listbox w' = listbox w ++ filter (λ p, is_bot_folder fs p = true) l.
Proof.
  revert w. induction l as [|p l IH]; intros w; simpl.
  - exists w. by rewrite app_nil_r.
  - rewrite filter_cons. destruct (is_bot_folder fs p) eqn:Hp.
    + erewrite bind_return; [|reflexivity].
      destruct (IH (touch ListBox (World (files w) (cfg w) (log_text w)
                      (progress_value w) (progress_maximum w) (listbox w ++ [p])
                      (thread w) (widget_writes w))))
        as (w' & -> & Hf & Hl & Hb).
      exists w'. rewrite decide_True by done. simpl in *.
      by rewrite Hb, <- app_assoc.
    + erewrite bind_return; [|reflexivity].
      destruct (IH w) as (w' & -> & Hf & Hl & Hb).
      exists w'. by rewrite decide_False by done.
Qed.

(** On a root that is a folder the enumerator lists its immediate
    subfolders, each once, in ascending order of the lower-cased name. *)
Lemma refresh_bot_list_on_folder (root : path) (w : world) :
  files w !! root = Some Dir →
  ∃ w', refresh_bot_list (Some root) w = (Return (), w') ∧
    files w' = files w ∧
    listbox w' ≡ₚ filter (λ p, is_bot_folder (files w) p = true)
                    (listdir (files w) root) ∧
    StronglySorted (λ p q, String.le (lower (name p)) (lower (name q))) (listbox w') ∧
    log_text w' = log_text w ++ [(info, LoadedBots (length (listbox w')) root)].
Proof.
  intros Hroot. unfold refresh_bot_list.
  unfold mbind at 1 2. unfold M_bind, bind, listbox_clear, get_files. simpl.
  rewrite (proj2 (exists_true _ _)) by by rewrite Hroot. simpl.
  unfold mbind at 1. unfold M_bind, bind, iterdir. simpl. rewrite Hroot.
  set (children := sorted _ _). set (w1 := touch ListBox _).
  destruct (listbox_fill (files w) children w1) as (w2 & Hfill & Hf & Hl & Hb).
  rewrite (bind_return _ _ _ _ _ Hfill).
  unfold mbind, M_bind, bind, get_listbox, log_info, _log. simpl.
  eexists. split; [done|]. simpl. rewrite Hf, Hl, Hb. simpl.
  assert (filter (λ p, is_bot_folder (files w) p = true) children = children) as ->.
  { apply filter_all, Forall_forall. intros p Hp. unfold children in Hp.
    rewrite sorted_perm in Hp. apply list_elem_of_filter in Hp as [Hp _].
    by apply is_bot_folder_of_dir. }
  split; [done|]. split; [|split; [apply sorted_sorted|done]].
  unfold children. rewrite sorted_perm.
  rewrite (filter_same _ (λ p, is_bot_folder (files w) p = true)); [done|].
  intros p. split; [apply is_bot_folder_of_dir|].
  unfold is_bot_folder. by destruct (is_dir (files w) p).
Qed.

(** Without a root, or with a root that does not exist, the list is left
    empty and a warning is logged. *)
Lemma refresh_bot_list_without_root (bots_root : option path) (w : world) :
  (∀ root, bots_root = Some root → files w !! root = None) →
  ∃ w', refresh_bot_list bots_root w = (Return (), w') ∧
    files w' = files w ∧ listbox w' = [] ∧
    log_text w' = log_text w ++ [(warn, NoBotRoot)].
Proof.
  intros Hroot. unfold refresh_bot_list.
  do 2 (erewrite bind_return; [|reflexivity]). simpl.
  destruct bots_root as [root|]; [|by eexists].
  assert (exists_ (files w) root = false) as ->; [|by eexists].
  apply bool_decide_eq_false. rewrite (Hroot root eq_refl). by intros [? ?].
Qed.

(** C8. The enumerator raises on a root that exists but is no folder: with
    [bots_root] the regular file [bots/readme.txt], [iterdir] raises
    [NotADirectoryError], which the function does not catch. *)
Theorem refresh_bot_list_raises_on_file :
  let w := started root_files [] [] in
  exists_ (files w) ["readme.txt"; "bots"] = true ∧
  is_dir (files w) ["readme.txt"; "bots"] = false ∧
  (refresh_bot_list (Some ["readme.txt"; "bots"]) w).1
  = Raise (NotADirectoryError ["readme.txt"; "bots"]) ∧
  listbox (refresh_bot_list (Some ["bots"]) w).2 = [["Alpha"; "bots"]; ["beta"; "bots"]].
Proof. vm_compute. repeat split. Qed.

(** ** The sample, processed once *)

(** Both logs are gone and the notes are kept; the stale plugin and the
    left-over staging file are gone; the application jar is replaced; the
    three plugin jars of the source are staged and its [DarkBot.jar] is
    not. *)
Example sample_processed :
  let w := started sample_files ["DarkBot.jar"; "src"] ["src"] in
  let w' := (process_single_bot ["bot"] ["DarkBot.jar"; "src"] ["src"] w).2 in
  let fs' := files w' in
  fs' !! ["a.log"; "logs"; "bot"] = None ∧
  fs' !! ["b.log"; "2024"; "logs"; "bot"] = None ∧
  fs' !! ["notes.txt"; "logs"; "bot"] = Some (File "notes") ∧
  fs' !! ["stale.jar"; "old"; "plugins"; "bot"] = None ∧
  fs' !! ["left.jar"; "updates"; "plugins"; "bot"] = None ∧
  fs' !! ["DarkBot.jar"; "bot"] = Some (File "application") ∧
  fs' !! ["a.jar"; "updates"; "plugins"; "bot"] = Some (File "plugin a") ∧
  fs' !! ["b.jar"; "updates"; "plugins"; "bot"] = Some (File "plugin b") ∧
  fs' !! ["notdarkbot.jar"; "updates"; "plugins"; "bot"] = Some (File "something else") ∧
  fs' !! ["DarkBot.jar"; "updates"; "plugins"; "bot"] = None ∧
  length (listdir fs' ["updates"; "plugins"; "bot"]) = 3 ∧
  log_text w'
  = [ (info, RemovedLogs 2 ["logs"; "bot"]);
      (info, RemovedJars 1 ["old"; "plugins"; "bot"]);
      (info, RemovedElements 1 ["updates"; "plugins"; "bot"]);
      (info, CopiedDarkBot ["DarkBot.jar"; "bot"]);
      (warn, SkippedDarkBotPlugin "DarkBot.jar");
      (info, CopiedPlugins 3 ["updates"; "plugins"; "bot"]) ].
Proof. vm_compute. repeat split. Qed.

(** * Further properties of the maintenance procedure *)

(** X1. Step 3 returns normally and removes exactly the regular files that
    lie directly in [<folder>/plugins/old] and whose name ends in [.jar],
    when that is a folder.  It is not recursive: what lies inside a subfolder
    of [plugins/old] stays, as does every folder and every other entry. *)
Theorem step_plugins_old_removes_only_jars (bot_path : path) (w : world) :
  ∃ w', step_plugins_old bot_path w = (Return (), w') ∧
    (∀ q, files w' !! q
          = if is_dir (files w) (bot_path // "plugins" // "old")
               && child_of (bot_path // "plugins" // "old") q
               && has_ext ".jar" q && is_file (files w) q
            then None else files w !! q) ∧
    (∀ q x y, q = bot_path // "plugins" // "old" // x // y →
              files w' !! q = files w !! q) ∧
    (∀ q, files w' !! q = Some Dir ↔ files w !! q = Some Dir).
Proof.
  destruct (step_plugins_old_runs bot_path w) as ([] & w' & Hrun & Hfiles & _).
  exists w'. split; [done|]. rewrite Hfiles. split; [|split].
  - intros q. apply lookup_plugins_old_effect.
  - intros q x y ->. rewrite lookup_plugins_old_effect. simpl.
    rewrite (bool_decide_eq_false_2 (_ = _)); [by rewrite andb_false_r|].
    intros H. apply (f_equal length) in H. simpl in H. lia.
  - intros q. apply plugins_old_effect_dirs.
Qed.

Lemma mkdir_updates_blocked (bot_path : path) (fs : filesystem) :
  fs !! bot_path = Some Dir →
  is_file fs (bot_path // "plugins" // "updates") = true
  ∨ is_file fs (bot_path // "plugins") = true →
  wf fs →
  ∃ e, mkdir_parents_fs (bot_path // "plugins" // "updates") fs = inl e.
Proof.
  intros Hbot Hblocked Hwf. simpl.
  destruct (fs !! (bot_path // "plugins" // "updates")) as [[data|]|] eqn:Hu.
  - by eexists.
  - exfalso. destruct Hblocked as [Hf|Hf]; apply is_file_true in Hf as [data Hf];
      [congruence|].
    assert (fs !! (bot_path // "plugins") = Some Dir); [|congruence].
    apply (wf_parent fs "updates"); [done|by rewrite Hu].
  - destruct Hblocked as [Hf|Hf]; apply is_file_true in Hf as [data Hf];
      [congruence|].
    rewrite Hf. by eexists.
Qed.

(** X2. Step 4, on a well-formed file system with the bot folder in place,
    returns normally and keeps the file system well formed.  Afterwards
    nothing lies below [<folder>/plugins/updates]; nothing outside
    [<folder>/plugins] has changed; no regular file has been created; and a
    staging folder that was there is still there, with everything beside it
    untouched.  Where [plugins] or [plugins/updates] is a regular file, no
    file changes at all and the step logs the one warning that the folder
    could not be created. *)
Theorem step_plugins_updates_resets (bot_path : path) (w : world) :
  let plugins := bot_path // "plugins" in
  let updates := plugins // "updates" in
  wf (files w) →
  is_dir (files w) bot_path = true →
  ∃ w', step_plugins_updates bot_path w = (Return (), w') ∧
    wf (files w') ∧
    (∀ q, below updates q = true → files w' !! q = None) ∧
    (∀ q, ¬ plugins `suffix_of` q → files w' !! q = files w !! q) ∧
    (∀ q data, files w' !! q = Some (File data) → files w !! q = Some (File data)) ∧
    (if is_dir (files w) updates
     then ∀ q, below updates q = false → files w' !! q = files w !! q
     else if is_file (files w) updates || is_file (files w) plugins
          then files w' = files w ∧
               ∃ e, log_text w' = log_text w ++ [(warn, FailedToCreate updates e)]
          else files w' = <[updates := Dir]> (<[plugins := Dir]> (files w))).
Proof.
  intros plugins updates Hwf Hbot%is_dir_true. subst updates plugins.
  destruct (step_plugins_updates_runs bot_path w) as ([] & w' & Hrun & Hfiles & _).
  exists w'. split; [done|]. rewrite Hfiles.
  split; [by apply wf_plugins_updates_effect|].
  split; [intros q Hq; by apply plugins_updates_empty|].
  split; [intros q Hq; by apply plugins_updates_frame|].
  split; [intros q data; by apply plugins_updates_files|].
  destruct (is_dir (files w) (bot_path // "plugins" // "updates")) eqn:Hd.
  - intros q Hq. rewrite plugins_updates_dir by done. by rewrite Hq.
  - destruct (plugins_updates_mkdir bot_path (files w) Hbot Hd)
      as [[Hblocked Heq]|(Hu & Hp & Heq)].
    + rewrite (proj2 (orb_true_iff _ _) Hblocked).
      split; [done|].
      destruct (mkdir_updates_blocked bot_path (files w) Hbot Hblocked Hwf) as [e He].
      exists e. unfold step_plugins_updates, mbind, M_bind, bind, get_files in Hrun.
      rewrite is_dir_exists, Hd in Hrun.
      unfold try_except, mkdir_parents, fs_op in Hrun.
      rewrite He in Hrun. unfold log_warn, _log in Hrun. by simplify_eq.
    + by rewrite Hu, Hp.
Qed.

(** The sample has a staging folder with a left-over file in it. *)
Lemma step_plugins_updates_resets_witness :
  ∃ w', step_plugins_updates ["bot"] (started sample_files [] []) = (Return (), w') ∧
    wf (files w') ∧
    (∀ q, below ["updates"; "plugins"; "bot"] q = true → files w' !! q = None) ∧
    (∀ q, ¬ ["plugins"; "bot"] `suffix_of` q → files w' !! q = sample_files !! q) ∧
    (∀ q data, files w' !! q = Some (File data) →
               sample_files !! q = Some (File data)) ∧
    (∀ q, below ["updates"; "plugins"; "bot"] q = false →
          files w' !! q = sample_files !! q).
Proof.
  exact (step_plugins_updates_resets ["bot"] (started sample_files [] [])
           ltac:(apply (bool_decide_unpack _); vm_compute; reflexivity)
           ltac:(vm_compute; reflexivity)).
Defined.

Lemma child_suffix_below (d q : path) (x : string) :
  d // x `suffix_of` q → below d q = true.
Proof.
  intros Hs. apply below_true. split; [by apply suffix_cons_l in Hs|].
  intros ->. by apply suffix_cons_not in Hs.
Qed.

(** The procedure changes nothing that does not lie strictly below the bot
    folder. *)
Lemma process_effect_frame (bot_path darkjar_src plugin_src_folder : path)
    (fs : filesystem) (q : path) :
  wf fs → below bot_path q = false →
  process_effect bot_path darkjar_src plugin_src_folder fs !! q = fs !! q.
Proof.
  intros Hwf Hq. unfold process_effect.
  destruct (is_dir fs bot_path) eqn:Hd; [|done]. apply is_dir_true in Hd.
  assert (¬ bot_path // "plugins" `suffix_of` q) as Hplugins.
  { intros Hs%child_suffix_below. congruence. }
  rewrite copy_plugins_frame.
  2:{ apply not_true_is_false. intros [Hs%suffix_cons_l _]%below_true. done. }
  rewrite copy_darkbot_frame.
  2:{ intros Hs%child_suffix_below. congruence. }
  rewrite plugins_updates_frame; [|by apply wf_purge|by apply bot_purge|done].
  apply purge_effect_frame.
  - intros Hs%child_suffix_below. congruence.
  - intros Hs%suffix_cons_l. done.
Qed.

(** The procedure removes no folder, except inside the staging folder. *)
Lemma process_effect_dirs (bot_path darkjar_src plugin_src_folder : path)
    (fs : filesystem) (q : path) :
  wf fs → below (bot_path // "plugins" // "updates") q = false →
  fs !! q = Some Dir →
  process_effect bot_path darkjar_src plugin_src_folder fs !! q = Some Dir.
Proof.
  intros Hwf Hq Hdir. unfold process_effect.
  destruct (is_dir fs bot_path) eqn:Hd; [|done]. apply is_dir_true in Hd.
  rewrite copy_plugins_frame by done. apply copy_darkbot_dirs.
  apply plugins_updates_dirs; [by apply wf_purge|by apply bot_purge|done|].
  by apply plugins_old_effect_dirs, logs_effect_dirs.
Qed.

(** X3. The full procedure is confined to the bot folder.  From a
    well-formed file system, whatever the folder and the configured sources,
    it leaves the file system well formed, changes no entry that does not lie
    strictly below the bot folder (so not the folder itself, not its siblings,
    not sources kept elsewhere), removes no folder other than those inside
    the staging folder, and leaves the configuration, the progress bar and
    the list of bots as they were. *)
Theorem process_single_bot_confined
    (bot_path darkjar_src plugin_src_folder : path) (w : world) :
  wf (files w) →
  let w' := (process_single_bot bot_path darkjar_src plugin_src_folder w).2 in
  wf (files w') ∧
  (∀ q, below bot_path q = false → files w' !! q = files w !! q) ∧
  (∀ q, below (bot_path // "plugins" // "updates") q = false →
        files w !! q = Some Dir → files w' !! q = Some Dir) ∧
  cfg w' = cfg w ∧ listbox w' = listbox w ∧
  progress_value w' = progress_value w ∧
  progress_maximum w' = progress_maximum w.
Proof.
  intros Hwf w'.
  assert (files w' = process_effect bot_path darkjar_src plugin_src_folder (files w))
    as Hfiles by apply process_single_bot_files.
  rewrite Hfiles. split; [by apply process_effect_wf|].
  split; [intros q Hq; by apply process_effect_frame|].
  split; [intros q Hq Hd; by apply process_effect_dirs|].
  unfold w'.
  pose proof (process_single_bot_spec darkjar_src plugin_src_folder bot_path w) as H.
  destruct (negb (is_dir (files w) bot_path)).
  - by destruct H as [-> _].
  - destruct H as (a & w1 & -> & _ & Hc & Hl & Hv & Hm & _). done.
Qed.

(** A folder of the sample and the sources beside it. *)
Lemma process_single_bot_confined_witness :
  let w := started sample_files ["DarkBot.jar"; "src"] ["src"] in
  let w' := (process_single_bot ["bot"] ["DarkBot.jar"; "src"] ["src"] w).2 in
  wf (files w') ∧
  (∀ q, below ["bot"] q = false → files w' !! q = files w !! q) ∧
  (∀ q, below ["updates"; "plugins"; "bot"] q = false →
        files w !! q = Some Dir → files w' !! q = Some Dir) ∧
  cfg w' = cfg w ∧ listbox w' = listbox w ∧
  progress_value w' = progress_value w ∧
  progress_maximum w' = progress_maximum w.
Proof.
  exact (process_single_bot_confined ["bot"] ["DarkBot.jar"; "src"] ["src"]
           (started sample_files ["DarkBot.jar"; "src"] ["src"])
           ltac:(apply (bool_decide_unpack _); vm_compute; reflexivity)).
Defined.

(** Steps 2 and 3 together, entry by entry. *)
Lemma lookup_purge_effect (bot_path : path) (fs : filesystem) (q : path) :
  wf fs →
  purge_effect bot_path fs !! q
  = if below (bot_path // "logs") q && has_ext ".log" q && is_file fs q
    then None
    else if child_of (bot_path // "plugins" // "old") q && has_ext ".jar" q
            && is_file fs q
         then None
         else fs !! q.
Proof.
  intros Hwf. unfold purge_effect.
  rewrite lookup_plugins_old_effect, lookup_logs_effect.
  assert (is_dir (logs_effect bot_path fs) (bot_path // "plugins" // "old")
          = is_dir fs (bot_path // "plugins" // "old")) as ->.
  { unfold is_dir. apply bool_decide_ext, logs_effect_dirs. }
  destruct (below (bot_path // "logs") q) eqn:Hl.
  - assert (child_of (bot_path // "plugins" // "old") q = false) as ->.
    { apply not_true_is_false. intros [Hc _]%child_below%below_true.
      apply below_true in Hl as [Hl _]. apply suffix_cons_l in Hc.
      by apply (siblings_disjoint bot_path q "logs" "plugins"). }
    rewrite andb_false_r. simpl.
    destruct (is_file fs q) eqn:Hf; rewrite ?andb_false_r; [|done].
    assert (is_dir fs (bot_path // "logs") = true) as ->; [|done].
    apply is_dir_true, (wf_below fs _ q); [done..|].
    apply is_file_true in Hf as [data ->]. done.
  - rewrite andb_false_r. simpl.
    assert (is_file (logs_effect bot_path fs) q = is_file fs q) as ->.
    { unfold is_file. by rewrite lookup_logs_effect, Hl, andb_false_r. }
    destruct (child_of (bot_path // "plugins" // "old") q) eqn:Hc;
      rewrite ?andb_false_r; [|done].
    destruct (is_file fs q) eqn:Hf; rewrite ?andb_false_r; [|done].
    assert (is_dir fs (bot_path // "plugins" // "old") = true) as ->; [|done].
    apply child_of_true in Hc as [x ->].
    apply is_dir_true, (wf_parent fs x); [done|].
    apply is_file_true in Hf as [data ->]. done.
Qed.

(** Step 4 when no regular file is in its way, entry by entry. *)
Lemma lookup_plugins_updates_effect (bot_path : path) (fs : filesystem) (q : path) :
  wf fs → fs !! bot_path = Some Dir →
  is_file fs (bot_path // "plugins") = false →
  is_file fs (bot_path // "plugins" // "updates") = false →
  plugins_updates_effect bot_path fs !! q
  = if bool_decide (q = bot_path // "plugins")
       || bool_decide (q = bot_path // "plugins" // "updates")
    then Some Dir
    else if below (bot_path // "plugins" // "updates") q then None else fs !! q.
Proof.
  intros Hwf Hbot Hp Hu.
  destruct (is_dir fs (bot_path // "plugins" // "updates")) eqn:Hd.
  - rewrite plugins_updates_dir by done. apply is_dir_true in Hd.
    case_bool_decide as H1; simpl.
    { subst q. rewrite plugins_not_below_updates.
      apply (wf_parent fs "updates"); [done|by rewrite Hd]. }
    case_bool_decide as H2; simpl; [|done].
    subst q. by rewrite updates_not_below_updates.
  - destruct (plugins_updates_mkdir bot_path fs Hbot Hd)
      as [[[Hx|Hx] _]|(_ & _ & ->)]; [congruence..|].
    case_bool_decide as H1; simpl.
    { subst q. rewrite lookup_insert_ne
        by (intros H; apply (f_equal length) in H; simpl in H; lia).
      by rewrite lookup_insert_eq. }
    case_bool_decide as H2; simpl.
    { subst q. by rewrite lookup_insert_eq. }
    rewrite !lookup_insert_ne by done.
    destruct (below (bot_path // "plugins" // "updates") q) eqn:Hb; [|done].
    by apply (wf_below_file fs (bot_path // "plugins" // "updates")).
Qed.

(** Step 5a when the target is not a folder and is not the source. *)
Lemma lookup_copy_darkbot_effect (bot_path darkjar_src : path) (fs : filesystem)
    (q : path) :
  fs !! bot_path = Some Dir →
  is_dir fs (bot_path // "DarkBot.jar") = false →
  darkjar_src ≠ bot_path // "DarkBot.jar" →
  copy_darkbot_effect bot_path darkjar_src fs !! q
  = if bool_decide (q = bot_path // "DarkBot.jar") && darkbot_ok fs darkjar_src
    then fs !! darkjar_src else fs !! q.
Proof.
  intros Hbot Hd Hne. unfold copy_darkbot_effect.
  destruct (darkbot_ok fs darkjar_src) eqn:Hok; [|by rewrite andb_false_r].
  rewrite andb_true_r. unfold try_fs, copy2_fs. rewrite Hd.
  rewrite (bool_decide_eq_false_2 _ Hne). simpl.
  unfold darkbot_ok in Hok. apply andb_true_iff in Hok as [Hok _].
  apply andb_true_iff in Hok as [_ [data Hsrc]%is_file_true].
  rewrite Hsrc, Hbot. apply is_dir_false in Hd.
  assert (∀ fs' : filesystem, fs' = <[bot_path // "DarkBot.jar" := File data]> fs →
            fs' !! q = if bool_decide (q = bot_path // "DarkBot.jar")
                       then Some (File data) else fs !! q) as Hins.
  { intros fs' ->. case_bool_decide as Hq.
    - subst q. by rewrite lookup_insert_eq.
    - by rewrite lookup_insert_ne. }
  destruct (fs !! (bot_path // "DarkBot.jar")) as [[old_data|]|] eqn:Hdest;
    [by apply Hins|done|by apply Hins].
Qed.

(** Steps 2 to 5a leave alone whatever does not lie strictly below the bot
    folder. *)
Lemma staged_frame (bot_path darkjar_src : path) (fs : filesystem) (q : path) :
  wf fs → fs !! bot_path = Some Dir → below bot_path q = false →
  copy_darkbot_effect bot_path darkjar_src
    (plugins_updates_effect bot_path (purge_effect bot_path fs)) !! q = fs !! q.
Proof.
  intros Hwf Hbot Hq.
  rewrite copy_darkbot_frame.
  2:{ intros Hs%child_suffix_below. congruence. }
  rewrite plugins_updates_frame; [|by apply wf_purge|by apply bot_purge|].
  2:{ intros Hs%child_suffix_below. congruence. }
  apply purge_effect_frame.
  - intros Hs%child_suffix_below. congruence.
  - intros Hs%suffix_cons_l%child_suffix_below. congruence.
Qed.

Lemma outside_not_below (bot_path p : path) (x : string) :
  ¬ bot_path `suffix_of` p → below bot_path (p // x) = false.
Proof.
  intros Hout. apply not_true_is_false. intros [Hs Hne]%below_true.
  apply suffix_cons_case in Hs as [Hs|Hs]; [by apply Hne|done].
Qed.

(** X4. The whole procedure, entry by entry.  On a well-formed file system
    where the bot folder exists, [plugins] and [plugins/updates] are not
    regular files, [DarkBot.jar] in the bot folder is not a folder, and both
    configured sources lie outside the bot folder, the procedure returns
    normally and the resulting file system is determined as follows:
    [<bot>/DarkBot.jar] has the content of the source jar when that is an
    existing regular file named [DarkBot.jar], and is unchanged otherwise;
    [plugins] and [plugins/updates] are folders; [plugins/updates] holds
    exactly the plugin jars found in the source folder at the start; regular
    [.log] files below [logs] and regular [.jar] files directly in
    [plugins/old] are gone; every other entry is as before. *)
Theorem process_single_bot_result
    (bot_path darkjar_src plugin_src_folder : path) (w : world) :
  let logs := bot_path // "logs" in
  let plugins := bot_path // "plugins" in
  let old := plugins // "old" in
  let updates := plugins // "updates" in
  let dest := bot_path // "DarkBot.jar" in
  wf (files w) →
  is_dir (files w) bot_path = true →
  is_file (files w) plugins = false →
  is_file (files w) updates = false →
  is_dir (files w) dest = false →
  ¬ bot_path `suffix_of` darkjar_src →
  ¬ bot_path `suffix_of` plugin_src_folder →
  ∃ w', process_single_bot bot_path darkjar_src plugin_src_folder w = (Return (), w') ∧
    ∀ q, files w' !! q =
      if bool_decide (q = dest) then
        if darkbot_ok (files w) darkjar_src then files w !! darkjar_src
        else files w !! dest
      else if bool_decide (q = plugins) || bool_decide (q = updates) then Some Dir
      else if below updates q then
        if child_of updates q && plugin_jar (name q)
        then File <$> file_at (files w) (plugin_src_folder // name q)
        else None
      else if below logs q && has_ext ".log" q && is_file (files w) q then None
      else if child_of old q && has_ext ".jar" q && is_file (files w) q then None
      else files w !! q.
Proof.
  intros logs plugins old updates dest Hwf Hbot Hp Hu Hdest Hjar Hsrc.
  subst logs plugins old updates dest.
  destruct (process_single_bot_runs bot_path darkjar_src plugin_src_folder w Hbot)
    as ([] & w' & Hrun & Hfiles & _).
  exists w'. split; [done|]. intros q. rewrite Hfiles.
  unfold process_effect. rewrite Hbot. apply is_dir_true in Hbot.
  set (fs := files w) in *.
  set (fs1 := purge_effect bot_path fs).
  set (fs2 := plugins_updates_effect bot_path fs1).
  set (fs3 := copy_darkbot_effect bot_path darkjar_src fs2).
  assert (wf fs1) as Hwf1 by by apply wf_purge.
  assert (fs1 !! bot_path = Some Dir) as Hbot1 by by apply bot_purge.
  assert (∀ p, is_file fs p = false → is_file fs1 p = false) as Hsub.
  { intros p Hf. apply not_true_is_false. intros Hf1.
    apply (is_file_sub fs) in Hf1; [congruence|].
    unfold fs1. rewrite (lookup_purge_effect bot_path fs p Hwf).
    repeat destruct (_ && _); auto. }
  assert (wf fs2) as Hwf2 by by apply wf_staged.
  assert (fs2 !! bot_path = Some Dir) as Hbot2 by by apply bot_staged.
  assert (∀ p, fs2 !! p
               = if bool_decide (p = bot_path // "plugins")
                    || bool_decide (p = bot_path // "plugins" // "updates")
                 then Some Dir
                 else if below (bot_path // "plugins" // "updates") p then None
                      else fs1 !! p) as Hfs2.
  { intros p. apply lookup_plugins_updates_effect; auto. }
  assert (darkjar_src ≠ bot_path // "DarkBot.jar") as Hne.
  { intros ->. apply Hjar. by apply suffix_cons_r. }
  assert (below bot_path darkjar_src = false) as Hjar'.
  { apply not_true_is_false. by intros [Hs _]%below_true. }
  assert (∀ p, below bot_path p = false → fs3 !! p = fs !! p) as Hframe.
  { intros p Hb. by apply staged_frame. }
  assert (below (bot_path // "plugins" // "updates") (bot_path // "DarkBot.jar")
          = false) as Hdu.
  { apply not_true_is_false. intros [Hs%suffix_cons_l _]%below_true.
    by apply (dest_plugins_disjoint bot_path (bot_path // "DarkBot.jar")). }
  assert (fs2 !! (bot_path // "DarkBot.jar") = fs !! (bot_path // "DarkBot.jar"))
    as Hdest2.
  { unfold fs2, fs1. rewrite plugins_updates_frame; [|done..|].
    2:{ intros Hs. by apply (dest_plugins_disjoint bot_path (bot_path // "DarkBot.jar")). }
    apply purge_effect_frame.
    - intros Hs. by apply (dest_logs_disjoint bot_path (bot_path // "DarkBot.jar")).
    - intros Hs%suffix_cons_l.
      by apply (dest_plugins_disjoint bot_path (bot_path // "DarkBot.jar")). }
  assert (is_dir fs2 (bot_path // "DarkBot.jar") = false) as Hd2.
  { unfold is_dir in *. by rewrite Hdest2. }
  assert (fs2 !! darkjar_src = fs !! darkjar_src) as Hjar2.
  { unfold fs2, fs1. rewrite plugins_updates_frame; [|done..|].
    2:{ intros Hs%suffix_cons_l. done. }
    apply purge_effect_frame.
    - intros Hs%suffix_cons_l. done.
    - intros Hs%suffix_cons_l%suffix_cons_l. done. }
  assert (darkbot_ok fs2 darkjar_src = darkbot_ok fs darkjar_src) as Hok2.
  { unfold darkbot_ok, exists_, is_file. by rewrite Hjar2. }
  assert (∀ p, fs3 !! p
               = if bool_decide (p = bot_path // "DarkBot.jar")
                    && darkbot_ok fs darkjar_src
                 then fs !! darkjar_src else fs2 !! p) as Hfs3.
  { intros p. unfold fs3. rewrite lookup_copy_darkbot_effect by done.
    by rewrite Hok2, Hjar2. }
  assert (wf fs3) as Hwf3 by by apply wf_darkbot.
  assert (fs3 !! (bot_path // "plugins" // "updates") = Some Dir) as Hup3.
  { rewrite Hfs3, Hfs2. rewrite bool_decide_eq_false_2 by done. simpl.
    by rewrite (bool_decide_eq_true_2 (_ = _) eq_refl). }
  assert (∀ p, below (bot_path // "plugins" // "updates") p = true →
               fs3 !! p = None) as Hempty3.
  { intros p Hb. by apply darkbot_empty. }
  destruct (copy_plugins_staged bot_path plugin_src_folder fs3 Hwf3 Hup3 Hempty3)
    as [Hchildren Hdeep].
  fold fs1 fs2 fs3.
  case_bool_decide as Hq1.
  { subst q. rewrite copy_plugins_frame by done. rewrite Hfs3.
    rewrite (bool_decide_eq_true_2 (_ = _) eq_refl). simpl.
    destruct (darkbot_ok fs darkjar_src); [done|]. by rewrite Hdest2. }
  destruct (bool_decide (q = bot_path // "plugins")
            || bool_decide (q = bot_path // "plugins" // "updates")) eqn:Hq2.
  { assert (below (bot_path // "plugins" // "updates") q = false) as Hb.
    { apply orb_true_iff in Hq2 as [->%bool_decide_eq_true| ->%bool_decide_eq_true];
        [apply plugins_not_below_updates|apply updates_not_below_updates]. }
    rewrite copy_plugins_frame by done. rewrite Hfs3.
    rewrite (bool_decide_eq_false_2 _ Hq1). simpl. by rewrite Hfs2, Hq2. }
  destruct (below (bot_path // "plugins" // "updates") q) eqn:Hb.
  { destruct (child_of (bot_path // "plugins" // "updates") q) eqn:Hc.
    - apply child_of_true in Hc as [n ->]. rewrite Hchildren. simpl.
      destruct (plugin_jar n); [|done].
      unfold file_at. rewrite Hframe; [done|by apply outside_not_below].
    - simpl. by apply Hdeep. }
  rewrite copy_plugins_frame by done. rewrite Hfs3.
  rewrite (bool_decide_eq_false_2 _ Hq1). simpl. rewrite Hfs2, Hq2, Hb.
  unfold fs1. by apply lookup_purge_effect.
Qed.

(** The sample: the bot folder [bot], the sources in [src] beside it. *)
Lemma process_single_bot_result_witness :
  let w := started sample_files ["DarkBot.jar"; "src"] ["src"] in
  ∃ w', process_single_bot ["bot"] ["DarkBot.jar"; "src"] ["src"] w = (Return (), w') ∧
    ∀ q, files w' !! q =
      if bool_decide (q = ["DarkBot.jar"; "bot"]) then
        if darkbot_ok (files w) ["DarkBot.jar"; "src"]
        then files w !! ["DarkBot.jar"; "src"]
        else files w !! ["DarkBot.jar"; "bot"]
      else if bool_decide (q = ["plugins"; "bot"])
              || bool_decide (q = ["updates"; "plugins"; "bot"]) then Some Dir
      else if below ["updates"; "plugins"; "bot"] q then
        if child_of ["updates"; "plugins"; "bot"] q && plugin_jar (name q)
        then File <$> file_at (files w) (["src"] // name q)
        else None
      else if below ["logs"; "bot"] q && has_ext ".log" q && is_file (files w) q
           then None
      else if child_of ["old"; "plugins"; "bot"] q && has_ext ".jar" q
              && is_file (files w) q
           then None
      else files w !! q.
Proof.
  exact (process_single_bot_result ["bot"] ["DarkBot.jar"; "src"] ["src"]
           (started sample_files ["DarkBot.jar"; "src"] ["src"])
           ltac:(apply (bool_decide_unpack _); vm_compute; reflexivity)
           ltac:(vm_compute; reflexivity)
           ltac:(vm_compute; reflexivity)
           ltac:(vm_compute; reflexivity)
           ltac:(vm_compute; reflexivity)
           ltac:(apply (bool_decide_unpack _); vm_compute; reflexivity)
           ltac:(apply (bool_decide_unpack _); vm_compute; reflexivity)).
Defined.

(** ** What the deleting loops report *)

Lemma filter_same_in {A} (P Q : A → Prop) `{!∀ x, Decision (P x)}
    `{!∀ x, Decision (Q x)} (l : list A) :
  (∀ x, x ∈ l → P x ↔ Q x) → filter P l = filter Q l.
Proof.
  induction l as [|x l IH]; [done|]. intros HPQ.
  rewrite !filter_cons, IH by (intros y Hy; apply HPQ; by right).
  pose proof (HPQ x ltac:(by left)). destruct (decide (P x)), (decide (Q x)); tauto.
Qed.

Lemma filter_is_file_delete (x : path) (l : list path) (fs : filesystem) :
  x ∉ l →
  filter (λ p, is_file (delete x fs) p = true) l
  = filter (λ p, is_file fs p = true) l.
Proof.
  intros Hx. apply filter_same_in. intros y Hy. unfold is_file.
  rewrite lookup_delete_ne; [done|]. by intros ->.
Qed.

Lemma omap_unlink_delete (mk : path → exn → msg) (x : path) (l : list path)
    (fs : filesystem) :
  x ∉ l →
  omap (λ p, match unlink_fs p (delete x fs) with
             | inl e => Some (warn, mk p e)
             | inr _ => None
             end) l
  = omap (λ p, match unlink_fs p fs with
               | inl e => Some (warn, mk p e)
               | inr _ => None
               end) l.
Proof.
  induction l as [|y l IH]; [done|]. intros [Hy Hl]%not_elem_of_cons.
  csimpl. rewrite IH by done. unfold unlink_fs. rewrite lookup_delete_ne by done.
  by destruct (fs !! y) as [[]|].
Qed.

(** One round of a deleting loop. *)
Lemma unlink_round (mk : path → exn → msg) (f : path) (removed : nat) (w : world) :
  ∃ w',
    try_except (unlink f;; mret (S removed))
               (λ e, log_warn (mk f e);; mret removed) w
    = (Return (removed + if is_file (files w) f then 1 else 0), w') ∧
    files w' = try_fs (unlink_fs f) (files w) ∧
    files w' = (if is_file (files w) f then delete f (files w) else files w) ∧
    size (files w) = size (files w') + (if is_file (files w) f then 1 else 0) ∧
    log_text w'
    = log_text w ++ match unlink_fs f (files w) with
                    | inl e => [(warn, mk f e)]
                    | inr _ => []
                    end.
Proof.
  unfold try_except, unlink, fs_op, mbind, M_bind, bind, try_fs, unlink_fs, is_file,
    log_warn, _log, mret, M_ret, ret.
  destruct (files w !! f) as [[data|]|] eqn:Hf; simpl; eexists;
    (split; [by rewrite ?Nat.add_1_r, ?Nat.add_0_r|]); simpl; rewrite ?app_nil_r;
    repeat split; try lia.
  pose proof (map_size_delete_Some f (files w) ltac:(by rewrite Hf)).
  pose proof (map_size_ne_0_lookup_2 (files w) f ltac:(by rewrite Hf)). lia.
Qed.

(** A loop that unlinks the paths of a list without repetition, counting the
    successes and logging each failure: the count is the number of regular
    files among the paths, all of them are gone, and the warnings are for
    the other paths, in order. *)
Lemma unlink_loop (mk : path → exn → msg) (l : list path) (acc : nat) (w : world) :
  NoDup l →
  ∃ w',
    for_each l acc
      (λ f removed,
         try_except (unlink f;; mret (S removed))
                    (λ e, log_warn (mk f e);; mret removed)) w
    = (Return (acc + length (filter (λ p, is_file (files w) p = true) l)), w') ∧
    files w' = attempt_all unlink_fs l (files w) ∧
    size (files w)
    = size (files w') + length (filter (λ p, is_file (files w) p = true) l) ∧
    log_text w'
    = log_text w ++ omap (λ p, match unlink_fs p (files w) with
                               | inl e => Some (warn, mk p e)
                               | inr _ => None
                               end) l.
Proof.
  revert acc w. induction l as [|x l IH]; intros acc w Hnd.
  - exists w. simpl. rewrite Nat.add_0_r, app_nil_r. repeat split; lia.
  - apply NoDup_cons in Hnd as [Hx Hnd].
    destruct (unlink_round mk x acc w) as (w1 & Hround & Hfiles1 & Hcase & Hsize1 & Hlog1).
    destruct (IH (acc + if is_file (files w) x then 1 else 0) w1 Hnd)
      as (w' & Hrun & Hfiles & Hsize & Hlog).
    assert (filter (λ p, is_file (files w1) p = true) l
            = filter (λ p, is_file (files w) p = true) l) as Hfilter.
    { rewrite Hcase. destruct (is_file (files w) x); [|done].
      by apply filter_is_file_delete. }
    assert (omap (λ p, match unlink_fs p (files w1) with
                       | inl e => Some (warn, mk p e)
                       | inr _ => None
                       end) l
            = omap (λ p, match unlink_fs p (files w) with
                         | inl e => Some (warn, mk p e)
                         | inr _ => None
                         end) l) as Homap.
    { rewrite Hcase. destruct (is_file (files w) x); [|done].
      by apply omap_unlink_delete. }
    rewrite Hfilter in Hrun, Hsize. rewrite Homap in Hlog.
    exists w'. simpl for_each. rewrite (bind_return _ _ _ _ _ Hround), Hrun.
    rewrite filter_cons. unfold attempt_all in *. simpl foldl. rewrite <- Hfiles1.
    split; [|split; [done|split]].
    + do 2 f_equal. destruct (is_file (files w) x) eqn:Hfx.
      * rewrite decide_True by done. simpl. lia.
      * rewrite decide_False by done. lia.
    + rewrite Hsize1, Hsize. destruct (is_file (files w) x) eqn:Hfx.
      * rewrite decide_True by done. simpl. lia.
      * rewrite decide_False by done. lia.
    + rewrite Hlog, Hlog1, <- app_assoc. f_equal. csimpl.
      by destruct (unlink_fs x (files w)).
Qed.

Lemma NoDup_rglob (fs : filesystem) (d : path) (ext : string) : NoDup (rglob fs d ext).
Proof. apply NoDup_filter, NoDup_fst_map_to_list. Qed.

Lemma NoDup_glob (fs : filesystem) (d : path) (ext : string) : NoDup (glob fs d ext).
Proof. do 2 apply NoDup_filter. apply NoDup_fst_map_to_list. Qed.

(** Among entries that exist, the attempts that fail are those on folders. *)
Lemma unlink_present (mk : path → exn → msg) (fs : filesystem) (l : list path) :
  Forall (λ p, is_Some (fs !! p)) l →
  omap (λ p, match unlink_fs p fs with
             | inl e => Some (warn, mk p e)
             | inr _ => None
             end) l
  = (λ p, (warn, mk p (IsADirectoryError p)))
      <$> filter (λ p, is_dir fs p = true) l
  ∧ length (filter (λ p, is_file fs p = true) l)
    + length (filter (λ p, is_dir fs p = true) l) = length l.
Proof.
  induction 1 as [|x l [n Hx] _ [IH1 IH2]]; [done|].
  csimpl. rewrite IH1. unfold unlink_fs at 1. rewrite Hx.
  destruct n as [data|].
  - rewrite (filter_cons_True (λ p, is_file fs p = true))
      by (unfold is_file; by rewrite Hx).
    rewrite (filter_cons_False (λ p, is_dir fs p = true))
      by (rewrite not_true_iff_false; apply is_dir_false; by rewrite Hx).
    split; [done|]. simpl. lia.
  - rewrite (filter_cons_False (λ p, is_file fs p = true))
      by (unfold is_file; by rewrite Hx).
    rewrite (filter_cons_True (λ p, is_dir fs p = true))
      by (apply is_dir_true; by rewrite Hx).
    split; [done|]. simpl. lia.
Qed.

(** X5. What step 2 reports.  Where [logs] is a folder, the step tries every
    entry below it whose name ends in [.log]: the regular files are deleted
    and counted, and the number in the closing line is exactly the number of
    entries that left the file system; the folders of such a name are not
    deleted and each gets one warning, in the order met; every matching entry
    is one or the other.  Where [logs] is no folder the only effect is one
    warning. *)
Theorem step_logs_reports (bot_path : path) (w : world) :
  let logs := bot_path // "logs" in
  let found := rglob (files w) logs ".log" in
  let deleted := filter (λ p, is_file (files w) p = true) found in
  let kept := filter (λ p, is_dir (files w) p = true) found in
  ∃ w', step_logs bot_path w = (Return (), w') ∧
    if is_dir (files w) logs then
      log_text w'
      = log_text w
        ++ ((λ p, (warn, DidNotRemoveLog p (IsADirectoryError p))) <$> kept)
        ++ [(info, RemovedLogs (length deleted) logs)] ∧
      size (files w) = size (files w') + length deleted ∧
      length deleted + length kept = length found ∧
      (∀ p, p ∈ deleted → files w' !! p = None) ∧
      (∀ p, p ∈ kept → files w' !! p = Some Dir)
    else
      files w' = files w ∧
      log_text w' = log_text w ++ [(warn, NoLogsFolder bot_path)].
Proof.
  intros logs found deleted kept. subst logs.
  unfold step_logs. erewrite bind_return; [|reflexivity]. simpl.
  rewrite is_dir_exists.
  destruct (is_dir (files w) (bot_path // "logs")) eqn:Hd; [|by eexists].
  destruct (unlink_loop DidNotRemoveLog found 0 w (NoDup_rglob _ _ _))
    as (w1 & Hloop & Hfiles & Hsize & Hlog).
  fold found. rewrite (bind_return _ _ _ _ _ Hloop).
  assert (Forall (λ p, is_Some (files w !! p)) found) as Hpresent.
  { apply Forall_forall. intros p Hp. by apply elem_of_rglob in Hp as (_ & _ & Hp). }
  destruct (unlink_present DidNotRemoveLog (files w) found Hpresent) as [Hwarn Hcount].
  eexists. split; [reflexivity|]. simpl. rewrite Hlog, Hwarn, <- app_assoc.
  split; [done|]. split; [done|]. split; [done|].
  assert (∀ p, files w1 !! p
               = if is_dir (files w) (bot_path // "logs")
                    && below (bot_path // "logs") p && has_ext ".log" p
                    && is_file (files w) p
                 then None else files w !! p) as Hlookup.
  { intros p. rewrite Hfiles, <- lookup_logs_effect. unfold logs_effect.
    by rewrite Hd. }
  split; intros p [Hp1 Hp2]%list_elem_of_filter;
    apply elem_of_rglob in Hp2 as (Hb & He & _); rewrite Hlookup, Hd, Hb, He; simpl.
  - by rewrite Hp1.
  - apply is_dir_true in Hp1. unfold is_file. by rewrite Hp1.
Qed.

(** ** The log-only batch *)

(** The log-only procedure unlinks its targets that are regular files, and
    nothing else. *)
Lemma lookup_purge_if_dir (bp : path) (fs : filesystem) (q : path) :
  purge_if_dir bp fs !! q
  = if is_file fs q && purge_target fs bp q then None else fs !! q.
Proof.
  unfold purge_if_dir, purge_target.
  destruct (is_dir fs bp); [|by rewrite andb_false_r].
  unfold purge_effect. rewrite lookup_plugins_old_effect, lookup_logs_effect.
  assert (is_dir (logs_effect bp fs) (bp // "plugins" // "old")
          = is_dir fs (bp // "plugins" // "old")) as ->.
  { unfold is_dir. apply bool_decide_ext, logs_effect_dirs. }
  assert (is_file (logs_effect bp fs) q
          = is_file fs q
            && negb (is_dir fs (bp // "logs") && below (bp // "logs") q
                     && has_ext ".log" q)) as ->.
  { unfold is_file at 1. rewrite lookup_logs_effect. unfold is_file.
    destruct (fs !! q) as [[data|]|]; rewrite ?andb_false_r; simpl; try done.
    rewrite andb_true_r. by destruct (_ && _). }
  destruct (is_file fs q); rewrite ?andb_false_r; simpl; [|done].
  rewrite andb_true_r.
  destruct (is_dir fs (bp // "logs") && below (bp // "logs") q && has_ext ".log" q);
    simpl; [|by rewrite andb_true_r].
  by rewrite andb_false_r.
Qed.

Lemma is_dir_purge_if_dir (bp : path) (fs : filesystem) (p : path) :
  is_dir (purge_if_dir bp fs) p = is_dir fs p.
Proof.
  unfold is_dir. apply bool_decide_ext. rewrite lookup_purge_if_dir.
  unfold is_file. destruct (fs !! p) as [[data|]|]; simpl; try done.
  by destruct (purge_target fs bp p).
Qed.

Lemma purge_target_purge_if_dir (bp bp' : path) (fs : filesystem) (q : path) :
  purge_target (purge_if_dir bp fs) bp' q = purge_target fs bp' q.
Proof. unfold purge_target. by rewrite !is_dir_purge_if_dir. Qed.

Lemma is_file_purge_if_dir (bp : path) (fs : filesystem) (q : path) :
  is_file (purge_if_dir bp fs) q = is_file fs q && negb (purge_target fs bp q).
Proof.
  unfold is_file at 1. rewrite lookup_purge_if_dir. unfold is_file.
  destruct (fs !! q) as [[data|]|]; simpl; try done.
  by destruct (purge_target fs bp q).
Qed.

(** The log-only procedure over a list of folders, entry by entry. *)
Lemma lookup_purge_all (l : list path) (fs : filesystem) (q : path) :
  foldl (λ fs bp, purge_if_dir bp fs) fs l !! q
  = if is_file fs q && existsb (λ bp, purge_target fs bp q) l then None
    else fs !! q.
Proof.
  revert fs. induction l as [|bp l IH]; intros fs; simpl.
  - by rewrite andb_false_r.
  - rewrite IH, is_file_purge_if_dir, lookup_purge_if_dir.
    assert (existsb (λ bp', purge_target (purge_if_dir bp fs) bp' q) l
            = existsb (λ bp', purge_target fs bp' q) l) as ->.
    { clear IH. induction l as [|bp' l IHl]; [done|]. simpl.
      by rewrite purge_target_purge_if_dir, IHl. }
    by destruct (is_file fs q), (purge_target fs bp q), (existsb _ l).
Qed.

(** The folders never change, so the number of failures of the log-only
    batch is the number of listed paths that are no folder at the start. *)
Lemma tally_purge (l : list path) (fs : filesystem) :
  tally (λ bp fs, negb (is_dir fs bp)) purge_if_dir l fs
  = length (filter (λ bp, is_dir fs bp = false) l).
Proof.
  revert fs. induction l as [|bp l IH]; intros fs; [done|].
  simpl. rewrite IH, filter_cons.
  rewrite (filter_same (λ bp', is_dir (purge_if_dir bp fs) bp' = false)
             (λ bp', is_dir fs bp' = false))
    by (intros bp'; by rewrite is_dir_purge_if_dir).
  by destruct (is_dir fs bp).
Qed.

(** The log-only worker, start to end. *)
Lemma clear_worker_spec (bot_paths : list path) (w : world) :
  let total := length bot_paths in
  ∃ w' lg errors,
    clear_old_logs_worker bot_paths w = (Return (), w') ∧
    errors = tally (λ bp fs, negb (is_dir fs bp)) purge_if_dir
                   bot_paths (files w) ∧
    batch_log Clearing Cleared ErrorClearing total
      (enumerate1 bot_paths) lg errors ∧
    log_text w' = log_text w
      ++ [(info, ClearingStart total)] ++ lg
      ++ [if bool_decide (errors = 0) then (success, ClearingOk total)
          else (warn, ClearingErrors errors)] ∧
    files w' = foldl (λ fs bp, purge_if_dir bp fs) (files w) bot_paths ∧
    cfg w' = cfg w ∧
    progress_value w' = total ∧ progress_maximum w' = total.
Proof.
  intros total.
  unfold clear_old_logs_worker. fold total.
  do 3 (erewrite bind_return; [|reflexivity]). simpl.
  set (w1 := touch LogText _).
  destruct (batch_loop_spec clear_single_bot purge_if_dir
              (λ bp fs, negb (is_dir fs bp)) MissingFolder
              Clearing Cleared ErrorClearing total
              clear_single_bot_spec
              (enumerate1 bot_paths) 0 w1)
    as (w2 & lg & n & Hloop & Hn & Hbatch & Hlog & Hfiles & Hcfg & Hval & Hmax).
  rewrite Nat.add_0_r in Hloop. rewrite snd_enumerate1 in Hn.
  rewrite (bind_return _ _ _ _ _ Hloop).
  rewrite (foldl_enumerate1 purge_if_dir) in Hfiles.
  rewrite fst_enumerate1, last_seq1 in Hval.
  fold total in Hval.
  assert (progress_value w2 = total) as Hval'.
  { rewrite Hval. subst total. by destruct (length bot_paths). }
  unfold log_success, log_warn, _log, showinfo, mbind, M_bind, bind.
  destruct (bool_decide (n = 0)) eqn:Hn0; simpl;
    eexists _, lg, n; (split; [done|]); (split; [done|]); (split; [done|]); simpl;
    rewrite Hlog, Hfiles, Hcfg, Hval', Hmax, Hn0; simpl;
    rewrite <- !app_assoc; done.
Qed.

Lemma existsb_Permutation {A} (f : A → bool) (l l' : list A) :
  l ≡ₚ l' → existsb f l = existsb f l'.
Proof.
  induction 1 as [|x l l' _ IH|x y l|l l' l'' _ IH1 _ IH2]; simpl;
    [done|by rewrite IH| |congruence].
  by destruct (f x), (f y).
Qed.

Lemma length_filter_Permutation {A} (P : A → Prop) `{!∀ x, Decision (P x)}
    (l l' : list A) :
  l ≡ₚ l' → length (filter P l) = length (filter P l').
Proof.
  induction 1 as [|x l l' _ IH|x y l|l l' l'' _ IH1 _ IH2];
    [done| | |congruence].
  - rewrite !filter_cons. destruct (decide (P x)); simpl; by rewrite IH.
  - rewrite !filter_cons. by destruct (decide (P x)), (decide (P y)).
Qed.

(** X6. The log-only worker, for every list of paths and every file system,
    well formed or not.  It returns normally; the log gets the opening line,
    one block of lines per path in the given order, and the summary; the
    number of errors in the summary is the number of listed paths that are
    no folder at the start; and the files at the end are given entry by
    entry: a regular file is gone exactly when it is a target of the
    procedure for some listed folder, that is, it matches [logs/**/*.log] or
    [plugins/old/*.jar] of a listed folder; everything else, every folder
    included, is as before.  The progress bar ends at the number of paths. *)
Theorem clear_old_logs_worker_result (bot_paths : list path) (w : world) :
  let total := length bot_paths in
  let errors := length (filter (λ bp, is_dir (files w) bp = false) bot_paths) in
  ∃ w' blocks,
    clear_old_logs_worker bot_paths w = (Return (), w') ∧
    log_text w' = log_text w
      ++ [(info, ClearingStart total)] ++ blocks
      ++ [if bool_decide (errors = 0) then (success, ClearingOk total)
          else (warn, ClearingErrors errors)] ∧
    batch_log Clearing Cleared ErrorClearing total
      (enumerate1 bot_paths) blocks errors ∧
    (∀ q, files w' !! q
          = if is_file (files w) q
               && existsb (λ bp, purge_target (files w) bp q) bot_paths
            then None else files w !! q) ∧
    cfg w' = cfg w ∧ progress_value w' = total ∧ progress_maximum w' = total.
Proof.
  intros total errors.
  destruct (clear_worker_spec bot_paths w)
    as (w' & blocks & n & Hrun & Hn & Hbatch & Hlog & Hfiles & Hcfg & Hval & Hmax).
  rewrite tally_purge in Hn. fold errors in Hn. subst n.
  exists w', blocks. repeat split; try done.
  intros q. rewrite Hfiles. apply lookup_purge_all.
Qed.

Lemma dirs_purge_all (l : list path) (fs : filesystem) (p : path) :
  is_dir (foldl (λ fs bp, purge_if_dir bp fs) fs l) p = is_dir fs p.
Proof.
  revert fs. induction l as [|bp l IH]; intros fs; [done|].
  simpl. by rewrite IH, is_dir_purge_if_dir.
Qed.

Lemma purge_target_purge_all (k l : list path) (fs : filesystem) (q : path) :
  existsb (λ bp, purge_target (foldl (λ fs bp, purge_if_dir bp fs) fs k) bp q) l
  = existsb (λ bp, purge_target fs bp q) l.
Proof.
  induction l as [|bp l IH]; [done|]. simpl. rewrite IH. f_equal.
  unfold purge_target. by rewrite !dirs_purge_all.
Qed.

Lemma purge_all_twice (l : list path) (fs : filesystem) :
  let fs1 := foldl (λ fs bp, purge_if_dir bp fs) fs l in
  foldl (λ fs bp, purge_if_dir bp fs) fs1 l = fs1.
Proof.
  intros fs1. apply map_eq. intros q. rewrite lookup_purge_all.
  assert (is_file fs1 q && existsb (λ bp, purge_target fs1 bp q) l = false) as ->;
    [|done].
  unfold fs1. rewrite purge_target_purge_all.
  unfold is_file. rewrite lookup_purge_all.
  destruct (existsb _ l); [|by rewrite andb_false_r].
  rewrite andb_true_r. unfold is_file. by destruct (fs !! q) as [[]|].
Qed.

(** X7. Running the log-only worker a second time on the same list changes
    no file, whatever the list and the file system, and ends with the same
    summary line as the first run. *)
Theorem clear_old_logs_worker_twice (bot_paths : list path) (w : world) :
  let w1 := (clear_old_logs_worker bot_paths w).2 in
  let w2 := (clear_old_logs_worker bot_paths w1).2 in
  files w2 = files w1 ∧ last (log_text w2) = last (log_text w1).
Proof.
  intros w1 w2.
  destruct (clear_worker_spec bot_paths w)
    as (w1' & lg1 & n1 & Hrun1 & Hn1 & _ & Hlog1 & Hfiles1 & _).
  assert (w1 = w1') as Hw1 by (unfold w1; by rewrite Hrun1).
  destruct (clear_worker_spec bot_paths w1)
    as (w2' & lg2 & n2 & Hrun2 & Hn2 & _ & Hlog2 & Hfiles2 & _).
  assert (w2 = w2') as Hw2 by (unfold w2; by rewrite Hrun2).
  rewrite Hw2, Hfiles2, Hlog2, Hw1, Hlog1, Hfiles1.
  split; [apply purge_all_twice|].
  rewrite !app_assoc, !last_snoc. do 2 f_equal.
  assert (n2 = n1) as ->; [|done].
  rewrite Hn2, Hn1, !tally_purge, Hw1, Hfiles1.
  f_equal. apply filter_same. intros bp. by rewrite dirs_purge_all.
Qed.

(** X8. For the log-only worker the order of the folders does not matter:
    two lists that are rearrangements of each other leave the same files and
    end with the same summary line. *)
Theorem clear_old_logs_worker_order (l l' : list path) (w : world) :
  l ≡ₚ l' →
  let w1 := (clear_old_logs_worker l w).2 in
  let w2 := (clear_old_logs_worker l' w).2 in
  files w1 = files w2 ∧ last (log_text w1) = last (log_text w2).
Proof.
  intros Hperm w1 w2.
  destruct (clear_worker_spec l w)
    as (w1' & lg1 & n1 & Hrun1 & Hn1 & _ & Hlog1 & Hfiles1 & _).
  assert (w1 = w1') as -> by (unfold w1; by rewrite Hrun1).
  destruct (clear_worker_spec l' w)
    as (w2' & lg2 & n2 & Hrun2 & Hn2 & _ & Hlog2 & Hfiles2 & _).
  assert (w2 = w2') as -> by (unfold w2; by rewrite Hrun2).
  split.
  - apply map_eq. intros q. rewrite Hfiles1, Hfiles2, !lookup_purge_all.
    by rewrite (existsb_Permutation _ l l').
  - rewrite Hlog1, Hlog2, !app_assoc, !last_snoc.
    assert (n1 = n2) as ->.
    { rewrite Hn1, Hn2, !tally_purge. by apply length_filter_Permutation. }
    by rewrite (Permutation_length Hperm).
Qed.

(** The bot folder and the source folder of the sample, in both orders. *)
Lemma clear_old_logs_worker_order_witness :
  let w := started sample_files [] [] in
  let w1 := (clear_old_logs_worker [["bot"]; ["src"]] w).2 in
  let w2 := (clear_old_logs_worker [["src"]; ["bot"]] w).2 in
  files w1 = files w2 ∧ last (log_text w1) = last (log_text w2).
Proof.
  exact (clear_old_logs_worker_order [["bot"]; ["src"]] [["src"]; ["bot"]]
           (started sample_files [] []) (perm_swap _ _ _)).
Defined.

(** ** The batch of the full procedure *)

Lemma process_all_confined (darkjar plugin_src : path) (l : list path)
    (fs : filesystem) :
  wf fs →
  let fs' := foldl (λ fs bp, process_effect bp darkjar plugin_src fs) fs l in
  wf fs' ∧
  (∀ q, (∀ bp, bp ∈ l → below bp q = false) → fs' !! q = fs !! q) ∧
  (∀ q, (∀ bp, bp ∈ l → below (bp // "plugins" // "updates") q = false) →
        fs !! q = Some Dir → fs' !! q = Some Dir).
Proof.
  revert fs. induction l as [|bp l IH]; intros fs Hwf; [done|]. simpl.
  destruct (IH (process_effect bp darkjar plugin_src fs)
              (process_effect_wf bp darkjar plugin_src fs Hwf))
    as (Hwf' & Hframe & Hdirs).
  split; [done|]. split.
  - intros q Hq. rewrite Hframe by (intros bp' Hbp'; apply Hq; by right).
    apply process_effect_frame; [done|]. apply Hq. by left.
  - intros q Hq Hd. apply Hdirs; [intros bp' Hbp'; apply Hq; by right|].
    apply process_effect_dirs; [done| |done]. apply Hq. by left.
Qed.

(** X9. The batch worker of the full procedure is confined to the listed
    folders.  From a well-formed file system it leaves the file system well
    formed, changes no entry that is not strictly below one of the listed
    folders, removes no folder other than those inside the staging folder of
    a listed folder, and leaves the configuration as it was. *)
Theorem run_worker_confined (bot_paths : list path) (w : world) :
  wf (files w) →
  let w' := (_run_worker bot_paths w).2 in
  wf (files w') ∧
  (∀ q, (∀ bp, bp ∈ bot_paths → below bp q = false) →
        files w' !! q = files w !! q) ∧
  (∀ q, (∀ bp, bp ∈ bot_paths → below (bp // "plugins" // "updates") q = false) →
        files w !! q = Some Dir → files w' !! q = Some Dir) ∧
  cfg w' = cfg w.
Proof.
  intros Hwf w'.
  destruct (run_worker_spec bot_paths w)
    as (w1 & lg & errors & Hrun & _ & _ & _ & Hfiles & Hcfg & _).
  assert (w' = w1) as -> by (unfold w'; by rewrite Hrun).
  rewrite Hfiles.
  destruct (process_all_confined (darkbot_jar_path (cfg w))
              (plugin_updates_folder (cfg w)) bot_paths (files w) Hwf)
    as (Hwf' & Hframe & Hdirs).
  done.
Qed.

(** The bot folder of the sample, listed twice. *)
Lemma run_worker_confined_witness :
  let w := started sample_files ["DarkBot.jar"; "src"] ["src"] in
  let w' := (_run_worker [["bot"]; ["bot"]] w).2 in
  wf (files w') ∧
  (∀ q, (∀ bp, bp ∈ [["bot"]; ["bot"]] → below bp q = false) →
        files w' !! q = files w !! q) ∧
  (∀ q, (∀ bp, bp ∈ [["bot"]; ["bot"]] →
               below (bp // "plugins" // "updates") q = false) →
        files w !! q = Some Dir → files w' !! q = Some Dir) ∧
  cfg w' = cfg w.
Proof.
  exact (run_worker_confined [["bot"]; ["bot"]]
           (started sample_files ["DarkBot.jar"; "src"] ["src"])
           ltac:(apply (bool_decide_unpack _); vm_compute; reflexivity)).
Defined.

(** ** Listing the folders and processing all of them *)

Lemma listbox_fill_fields (fs : filesystem) (l : list path) (w : world) :
  ∃ w', for_each l ()
          (λ p _, if is_bot_folder fs p then listbox_insert p else mret ()) w
        = (Return (), w') ∧
        files w' = files w ∧ log_text w' = log_text w ∧ cfg w' = cfg w ∧
        thread w' = thread w ∧
        listbox w' = listbox w ++ filter (λ p, is_bot_folder fs p = true) l.
Proof.
  revert w. induction l as [|p l IH]; intros w; simpl.
  - exists w. by rewrite app_nil_r.
  - rewrite filter_cons. destruct (is_bot_folder fs p) eqn:Hp.
    + erewrite bind_return; [|reflexivity].
      destruct (IH (touch ListBox (World (files w) (cfg w) (log_text w)
                      (progress_value w) (progress_maximum w) (listbox w ++ [p])
                      (thread w) (widget_writes w))))
        as (w' & -> & Hf & Hl & Hc & Ht & Hb).
      exists w'. rewrite decide_True by done. simpl in *.
      by rewrite Hb, <- app_assoc.
    + erewrite bind_return; [|reflexivity].
      destruct (IH w) as (w' & -> & Hf & Hl & Hc & Ht & Hb).
      exists w'. by rewrite decide_False by done.
Qed.

(** The enumerator on a root that is a folder, with the fields it leaves
    alone. *)
Lemma refresh_bot_list_fields (root : path) (w : world) :
  files w !! root = Some Dir →
  ∃ w', refresh_bot_list (Some root) w = (Return (), w') ∧
    files w' = files w ∧ cfg w' = cfg w ∧ thread w' = thread w ∧
    listbox w' = sorted (filter (λ p, is_dir (files w) p = true)
                           (listdir (files w) root))
                        (λ p, lower (name p)) ∧
    log_text w' = log_text w ++ [(info, LoadedBots (length (listbox w')) root)].
Proof.
  intros Hroot. unfold refresh_bot_list.
  unfold mbind at 1 2. unfold M_bind, bind, listbox_clear, get_files. simpl.
  rewrite (proj2 (exists_true _ _)) by by rewrite Hroot. simpl.
  unfold mbind at 1. unfold M_bind, bind, iterdir. simpl. rewrite Hroot.
  set (children := sorted _ _). set (w1 := touch ListBox _).
  destruct (listbox_fill_fields (files w) children w1)
    as (w2 & Hfill & Hf & Hl & Hc & Ht & Hb).
  rewrite (bind_return _ _ _ _ _ Hfill).
  unfold mbind, M_bind, bind, get_listbox, log_info, _log. simpl.
  eexists. split; [done|]. simpl. rewrite Hf, Hl, Hb, Hc, Ht. simpl.
  assert (filter (λ p, is_bot_folder (files w) p = true) children = children) as ->.
  { apply filter_all, Forall_forall. intros p Hp. unfold children in Hp.
    rewrite sorted_perm in Hp. apply list_elem_of_filter in Hp as [Hp _].
    by apply is_bot_folder_of_dir. }
  done.
Qed.

(** Processing one subfolder of the root neither removes nor replaces
    another one, so no listed folder is found missing. *)
Lemma tally_children (root darkjar plugin_src : path) (l : list path)
    (fs : filesystem) :
  wf fs →
  Forall (λ bp, child_of root bp = true ∧ is_dir fs bp = true) l →
  tally (λ bp fs, negb (is_dir fs bp))
        (λ bp, process_effect bp darkjar plugin_src) l fs = 0
  ∧ Forall (λ bp, is_dir (foldl (λ fs bp, process_effect bp darkjar plugin_src fs)
                             fs l) bp = true) l.
Proof.
  revert fs. induction l as [|bp l IH]; intros fs Hwf Hl; [done|].
  apply Forall_cons in Hl as [[Hc Hd] Hl]. simpl. rewrite Hd. simpl.
  assert (∀ bp', child_of root bp' = true → is_dir fs bp' = true →
                 is_dir (process_effect bp darkjar plugin_src fs) bp' = true)
    as Hkeep.
  { intros bp' [y ->]%child_of_true Hd'%is_dir_true. apply is_dir_true.
    apply process_effect_dirs; [done| |done].
    apply child_of_true in Hc as [x ->]. apply not_true_is_false.
    intros [Hs%suffix_length _]%below_true. simpl in Hs. lia. }
  destruct (IH (process_effect bp darkjar plugin_src fs)) as [Htally Hdirs].
  { by apply process_effect_wf. }
  { eapply Forall_impl; [exact Hl|]. intros bp' [Hc' Hd']. split; [done|].
    by apply Hkeep. }
  split; [done|]. constructor; [|done].
  destruct (process_all_confined darkjar plugin_src l
              (process_effect bp darkjar plugin_src fs)
              (process_effect_wf bp darkjar plugin_src fs Hwf))
    as (_ & _ & Hdirs').
  apply is_dir_true, Hdirs'; [|by apply is_dir_true, Hkeep].
  intros bp' Hbp'. apply (proj1 (Forall_forall _ _) Hl) in Hbp' as [Hc' _].
  apply child_of_true in Hc as [x ->]. apply child_of_true in Hc' as [y ->].
  apply not_true_is_false.
  intros [Hs%suffix_length _]%below_true. simpl in Hs. lia.
Qed.

(** X10. Listing the folders of a root and then running the full procedure
    on all of them.  On a well-formed file system whose root is a folder and
    whose subfolders have names of ASCII characters (on which [lower] is
    [str.lower], so that the order of the model is the order of the code),
    the two calls return normally; the folders listed are the subfolders of
    the root, sorted by lower-cased name; every listed folder is processed
    and none fails, whatever the sources are: the summary says so, every
    listed folder is still a folder at the end, the files are those obtained
    by processing the listed folders in turn, the file system is well formed,
    and nothing outside the root has changed.  With no subfolder only the
    line of the enumerator is logged.  The calls end on the thread they
    started on. *)
Theorem refresh_then_run_on_all (root : path) (w : world) :
  let darkjar := darkbot_jar_path (cfg w) in
  let plugin_src := plugin_updates_folder (cfg w) in
  let items := listbox (refresh_bot_list (Some root) w).2 in
  wf (files w) → files w !! root = Some Dir →
  Forall (λ p, is_ascii (name p) = true)
    (filter (λ p, is_dir (files w) p = true) (listdir (files w) root)) →
  ∃ w',
    (refresh_bot_list (Some root);; run_on_all) w = (Return (), w') ∧
    items ≡ₚ filter (λ p, is_dir (files w) p = true) (listdir (files w) root) ∧
    StronglySorted (λ p q, String.le (lower (name p)) (lower (name q))) items ∧
    files w' = foldl (λ fs bp, process_effect bp darkjar plugin_src fs)
                 (files w) items ∧
    wf (files w') ∧
    Forall (λ bp, is_dir (files w') bp = true) items ∧
    (∀ q, below root q = false → files w' !! q = files w !! q) ∧
    (if bool_decide (items = [])
     then log_text w' = log_text w ++ [(info, LoadedBots 0 root)]
     else ∃ blocks,
       log_text w'
       = log_text w
         ++ [(info, LoadedBots (length items) root);
             (info, OperationStart (length items))]
         ++ blocks ++ [(success, OperationOk (length items))] ∧
       batch_log Processing Completed ErrorProcessing (length items)
         (enumerate1 items) blocks 0) ∧
    thread w' = thread w.
Proof.
  intros darkjar plugin_src items Hwf Hroot _.
  destruct (refresh_bot_list_fields root w Hroot)
    as (w1 & Hrefresh & Hf1 & Hc1 & Ht1 & Hbox & Hlog1).
  assert (items = listbox w1) as Hdef by (unfold items; by rewrite Hrefresh).
  clearbody items. rewrite <- Hdef in Hbox, Hlog1.
  assert (items ≡ₚ filter (λ p, is_dir (files w) p = true)
                     (listdir (files w) root)) as Hperm.
  { rewrite Hbox. apply sorted_perm. }
  assert (Forall (λ bp, child_of root bp = true ∧ is_dir (files w) bp = true) items)
    as Hitems.
  { apply Forall_forall. intros bp Hbp. rewrite Hperm in Hbp.
    apply list_elem_of_filter in Hbp as [Hd Hbp].
    by apply elem_of_listdir in Hbp as [Hc _]. }
  destruct (tally_children root darkjar plugin_src items (files w) Hwf Hitems)
    as [Htally Hdirs].
  destruct (process_all_confined darkjar plugin_src items (files w) Hwf)
    as (Hwf' & Hframe & _).
  assert (∀ q, below root q = false →
               foldl (λ fs bp, process_effect bp darkjar plugin_src fs)
                 (files w) items !! q = files w !! q) as Hout.
  { intros q Hq. apply Hframe. intros bp Hbp.
    apply (proj1 (Forall_forall _ _) Hitems) in Hbp as [[x ->]%child_of_true _].
    apply not_true_is_false. intros [Hs Hne]%below_true.
    assert (below root q = true); [|congruence].
    apply below_true. split; [by apply suffix_cons_l in Hs|].
    intros ->. by apply suffix_cons_not in Hs. }
  assert (StronglySorted (λ p q, String.le (lower (name p)) (lower (name q))) items)
    as Hsorted.
  { rewrite Hbox. apply sorted_sorted. }
  unfold mbind at 1. unfold M_bind, bind. rewrite Hrefresh.
  unfold run_on_all, mbind at 1, M_bind, bind at 1, get_listbox.
  rewrite <- Hdef.
  destruct (decide (items = [])) as [Hnil|Hcons].
  - rewrite (bool_decide_eq_true_2 _ Hnil).
    rewrite Hnil in *. exists (touch MessageBox w1). unfold showinfo. simpl.
    rewrite Hf1, Hlog1, Ht1. simpl. repeat split; try done.
  - rewrite (bool_decide_eq_false_2 _ Hcons).
    assert (∀ (m1 m2 : M unit), match items with [] => m1 | _ => m2 end = m2) as ->.
    { intros m1 m2. by destruct items. }
    unfold mbind, M_bind, bind, in_thread.
    set (w0 := World _ _ _ _ _ _ WorkerThread _).
    destruct (run_worker_spec items w0)
      as (w2 & blocks & errors & Hrun & Herrors & Hbatch & Hlog2 & Hfiles2 & _).
    change (cfg w0) with (cfg w1) in *. change (files w0) with (files w1) in *.
    change (log_text w0) with (log_text w1) in *.
    rewrite Hc1, Hf1 in *. fold darkjar plugin_src in Herrors, Hfiles2.
    rewrite Htally in Herrors. subst errors.
    rewrite Hrun. unfold showinfo. simpl.
    eexists. split; [done|]. simpl.
    rewrite Hfiles2, Hlog2, Hlog1, Ht1.
    repeat (split; [done|]). split; [|done].
    exists blocks. split; [|done]. by rewrite <- !app_assoc.
Qed.

(** A root with two folders, [Alpha] and [beta], and a regular file. *)
Lemma refresh_then_run_on_all_witness :
  let w := started root_files ["DarkBot.jar"; "src"] ["src"] in
  let items := listbox (refresh_bot_list (Some ["bots"]) w).2 in
  ∃ w',
    (refresh_bot_list (Some ["bots"]);; run_on_all) w = (Return (), w') ∧
    items ≡ₚ filter (λ p, is_dir (files w) p = true) (listdir (files w) ["bots"]) ∧
    StronglySorted (λ p q, String.le (lower (name p)) (lower (name q))) items ∧
    files w' = foldl (λ fs bp, process_effect bp ["DarkBot.jar"; "src"] ["src"] fs)
                 (files w) items ∧
    wf (files w') ∧
    Forall (λ bp, is_dir (files w') bp = true) items ∧
    (∀ q, below ["bots"] q = false → files w' !! q = files w !! q) ∧
    (if bool_decide (items = [])
     then log_text w' = log_text w ++ [(info, LoadedBots 0 ["bots"])]
     else ∃ blocks,
       log_text w'
       = log_text w
         ++ [(info, LoadedBots (length items) ["bots"]);
             (info, OperationStart (length items))]
         ++ blocks ++ [(success, OperationOk (length items))] ∧
       batch_log Processing Completed ErrorProcessing (length items)
         (enumerate1 items) blocks 0) ∧
    thread w' = thread w.
Proof.
  exact (refresh_then_run_on_all ["bots"]
           (started root_files ["DarkBot.jar"; "src"] ["src"])
           ltac:(apply (bool_decide_unpack _); vm_compute; reflexivity)
           ltac:(vm_compute; reflexivity)
           ltac:(apply (bool_decide_unpack _); vm_compute; reflexivity)).
Defined.

(** ** The log-only entry point and its thread *)



(** ** What step 4 reports *)

(** One round of the loop over [plugins/updates] on an entry that exists:
    it is removed and counted, and nothing is logged. *)
Lemma remove_round (p : path) (removed : nat) (w : world) :
  is_Some (files w !! p) →
  ∃ w',
    try_except
      (fs ← get_files;
       if is_file fs p then unlink p;; mret (S removed)
       else if is_dir fs p then rmtree p;; mret (S removed)
       else mret removed)
      (λ e, log_warn (DidNotRemove p e);; mret removed) w
    = (Return (S removed), w') ∧
    log_text w' = log_text w ∧
    files w' !! p = None ∧
    ∀ q, length q = length p → q ≠ p → files w' !! q = files w !! q.
Proof.
  intros [n Hp].
  unfold try_except, mbind, M_bind, bind, get_files. simpl.
  destruct n as [data|].
  - assert (is_file (files w) p = true) as -> by (unfold is_file; by rewrite Hp).
    unfold unlink, fs_op, unlink_fs. rewrite Hp. simpl.
    eexists. split; [done|]. simpl. split; [done|].
    split; [apply lookup_delete_eq|]. intros q _ Hq. by apply lookup_delete_ne.
  - assert (is_file (files w) p = false) as -> by (unfold is_file; by rewrite Hp).
    rewrite (proj2 (is_dir_true _ _) Hp).
    unfold rmtree, fs_op, rmtree_fs. rewrite Hp. simpl.
    eexists. split; [done|]. simpl. split; [done|].
    split.
    + rewrite lookup_prune. by rewrite bool_decide_eq_true_2.
    + intros q Hlen Hq. rewrite lookup_prune.
      rewrite bool_decide_eq_false_2; [done|].
      intros Hs. apply Hq. symmetry. apply suffix_length_eq; [done|lia].
Qed.

Lemma remove_loop (n : nat) (l : list path) (acc : nat) (w : world) :
  NoDup l →
  Forall (λ p, length p = n ∧ is_Some (files w !! p)) l →
  ∃ w',
    for_each l acc
      (λ p removed,
         try_except
           (fs ← get_files;
            if is_file fs p then unlink p;; mret (S removed)
            else if is_dir fs p then rmtree p;; mret (S removed)
            else mret removed)
           (λ e, log_warn (DidNotRemove p e);; mret removed)) w
    = (Return (acc + length l), w') ∧
    log_text w' = log_text w ∧
    Forall (λ p, files w' !! p = None) l ∧
    ∀ q, length q = n → q ∉ l → files w' !! q = files w !! q.
Proof.
  revert acc w. induction l as [|p l IH]; intros acc w Hnd Hl.
  - exists w. simpl. by rewrite Nat.add_0_r.
  - apply NoDup_cons in Hnd as [Hp Hnd]. apply Forall_cons in Hl as [[Hlen Hsome] Hl].
    destruct (remove_round p acc w Hsome) as (w1 & Hround & Hlog1 & Hgone & Hkeep).
    destruct (IH (S acc) w1 Hnd) as (w' & Hrun & Hlog & Hnone & Hframe).
    { apply Forall_forall. intros q Hq.
      destruct (proj1 (Forall_forall _ _) Hl q Hq) as [Hlq Hsq].
      split; [done|]. rewrite Hkeep; [done|congruence|]. by intros ->. }
    exists w'. simpl for_each. rewrite (bind_return _ _ _ _ _ Hround), Hrun.
    split; [do 2 f_equal; simpl; lia|]. split; [congruence|]. split.
    + constructor; [|done]. rewrite Hframe; [done..|]. done.
    + intros q Hq [Hne Hin]%not_elem_of_cons.
      rewrite Hframe by done. apply Hkeep; congruence.
Qed.

(** X12. What step 4 reports when the staging folder exists.  Every entry
    directly in [plugins/updates], regular file or folder, is removed and
    counted: the step logs no warning, its closing line gives the number of
    entries the folder held, and none of them is left; the other entries at
    that depth are as before. *)
Theorem step_plugins_updates_reports (bot_path : path) (w : world) :
  let updates := bot_path // "plugins" // "updates" in
  is_dir (files w) updates = true →
  ∃ w', step_plugins_updates bot_path w = (Return (), w') ∧
    log_text w'
    = log_text w
      ++ [(info, RemovedElements (length (listdir (files w) updates)) updates)] ∧
    listdir (files w') updates = [] ∧
    (∀ q, length q = S (length updates) →
          files w' !! q = if child_of updates q then None else files w !! q).
Proof.
  intros updates Hd. subst updates. unfold step_plugins_updates.
  erewrite bind_return; [|reflexivity]. simpl. rewrite is_dir_exists, Hd.
  unfold mbind at 1, M_bind, bind at 1, iterdir.
  rewrite (proj1 (is_dir_true _ _) Hd).
  set (l := listdir _ _).
  destruct (remove_loop (S (S (S (length bot_path)))) l 0 w)
    as (w1 & Hloop & Hlog & Hnone & Hframe).
  { apply NoDup_filter, NoDup_fst_map_to_list. }
  { apply Forall_forall. intros p [[x ->]%child_of_true Hp]%elem_of_listdir. done. }
  rewrite (bind_return _ _ _ _ _ Hloop).
  eexists. split; [reflexivity|]. simpl. rewrite Hlog. split; [done|].
  assert (∀ q, child_of (bot_path // "plugins" // "updates") q = true →
               files w1 !! q = None) as Hgone.
  { intros q Hq. destruct (files w !! q) as [n|] eqn:Hfq.
    - apply (proj1 (Forall_forall _ _) Hnone). apply elem_of_listdir.
      split; [done|]. by rewrite Hfq.
    - rewrite Hframe; [done| |].
      + by apply child_of_true in Hq as [x ->].
      + intros [_ Hin]%elem_of_listdir. rewrite Hfq in Hin. by destruct Hin. }
  split.
  - apply elem_of_nil_inv. intros q [Hc Hq]%elem_of_listdir.
    rewrite Hgone in Hq by done. by destruct Hq.
  - intros q Hlen.
    destruct (child_of (bot_path // "plugins" // "updates") q) eqn:Hc;
      [by apply Hgone|].
    apply Hframe; [done|]. intros [Hc' _]%elem_of_listdir. congruence.
Qed.

(** The staging folder of the sample holds one left-over file. *)
Lemma step_plugins_updates_reports_witness :
  let w := started sample_files [] [] in
  ∃ w', step_plugins_updates ["bot"] w = (Return (), w') ∧
    log_text w'
    = log_text w
      ++ [(info, RemovedElements
                   (length (listdir (files w) ["updates"; "plugins"; "bot"]))
                   ["updates"; "plugins"; "bot"])] ∧
    listdir (files w') ["updates"; "plugins"; "bot"] = [] ∧
    (∀ q, length q = S (length ["updates"; "plugins"; "bot"]) →
          files w' !! q
          = if child_of ["updates"; "plugins"; "bot"] q then None
            else files w !! q).
Proof.
  exact (step_plugins_updates_reports ["bot"] (started sample_files [] [])
           ltac:(vm_compute; reflexivity)).
Defined.

(** * The configuration file *)

Lemma mkdir_parents_done (p : path) (fs : filesystem) :
  fs !! p = Some Dir → mkdir_parents_fs p fs = inr fs.
Proof. intros Hp. destruct p; simpl; by rewrite Hp. Qed.

Lemma mkdir_parents_dir (p : path) (fs fs1 : filesystem) :
  mkdir_parents_fs p fs = inr fs1 → fs1 !! p = Some Dir.
Proof.
  destruct p as [|x par]; simpl.
  - destruct (fs !! []) as [[]|] eqn:Hp; intros [= <-]; done.
  - destruct (fs !! (par // x)) as [[]|] eqn:Hp; [done|by intros [= <-]|].
    destruct (fs !! par) as [[]|]; [done| |].
    + intros [= <-]. apply lookup_insert_eq.
    + destruct (mkdir_parents_fs par fs); [done|]. intros [= <-].
      apply lookup_insert_eq.
Qed.

(** Creating a folder removes and replaces nothing. *)
Lemma mkdir_parents_keeps (p : path) (fs fs1 : filesystem) (q : path) (n : node) :
  mkdir_parents_fs p fs = inr fs1 → fs !! q = Some n → fs1 !! q = Some n.
Proof.
  revert fs1. induction p as [|x par IH]; intros fs1; simpl.
  - destruct (fs !! []) as [[]|] eqn:Hp; intros [= <-]; done.
  - destruct (fs !! (par // x)) as [[]|] eqn:Hp; [done|by intros [= <-]|].
    destruct (fs !! par) as [[]|] eqn:Hpar; [done| |].
    + intros [= <-] Hq. rewrite lookup_insert_ne; [done|]. intros <-. congruence.
    + destruct (mkdir_parents_fs par fs) as [e|fs'] eqn:Hm; [done|].
      intros [= <-] Hq. rewrite lookup_insert_ne; [by apply IH|].
      intros <-. congruence.
Qed.

Lemma assoc_set_new (k : string) (x : json) (items : list (string * json)) :
  k ∉ items.*1 → assoc_set k x items = items ++ [(k, x)].
Proof.
  induction items as [|[k' y] items IH]; [done|]. simpl.
  intros [Hne Hk]%not_elem_of_cons. rewrite decide_False by done.
  by rewrite IH.
Qed.

(** The loop over the defaults on a dict: the keys it lacks are appended
    with their default values, in the order of the defaults, and [changed]
    is set when there is one. *)
Lemma complete_dict (defaults items : list (string * json)) (changed : bool) :
  NoDup defaults.*1 →
  let missing := filter (λ kv, kv.1 ∉ items.*1) defaults in
  complete defaults (JDict items) changed
  = Some (JDict (items ++ missing), changed || negb (bool_decide (missing = []))).
Proof.
  revert items changed. induction defaults as [|[k v] defaults IH];
    intros items changed Hnd.
  - simpl. by rewrite app_nil_r, orb_false_r.
  - rewrite fmap_cons in Hnd. apply NoDup_cons in Hnd as [Hk Hnd].
    cbn [complete py_in]. rewrite filter_cons. cbn [fst].
    case_bool_decide as Hin.
    + rewrite decide_False by (by intros ?). by apply IH.
    + rewrite decide_True by done. cbn [py_setitem].
      rewrite assoc_set_new by done. rewrite IH by done. cbn zeta.
      assert (filter (λ kv : string * json, kv.1 ∉ (items ++ [(k, v)]).*1) defaults
              = filter (λ kv : string * json, kv.1 ∉ items.*1) defaults) as ->.
      { apply filter_same_in. intros [k' v'] Hkv. cbn [fst].
        rewrite fmap_app, elem_of_app, fmap_cons. cbn [fst fmap list_fmap].
        rewrite list_elem_of_singleton.
        split; [tauto|]. intros Hn [?|Heq]; [done|]. apply Hk.
        apply list_elem_of_fmap. exists (k', v'). split; [by simpl|done]. }
      rewrite <- app_assoc. cbn [app]. by rewrite !orb_true_r.
Qed.

(** On a value that is no dict the loop either fails or changes nothing. *)
Lemma complete_other (defaults : list (string * json)) (v v' : json)
    (changed changed' : bool) :
  (∀ items, v ≠ JDict items) →
  complete defaults v changed = Some (v', changed') → v' = v ∧ changed' = changed.
Proof.
  intros Hv. induction defaults as [|[k x] defaults IH]; simpl.
  - by intros [= <- <-].
  - destruct (py_in k v) as [[]|]; [done| |done].
    destruct v; try done. by destruct (Hv items).
Qed.

Lemma NoDup_DEFAULT_CONFIG : NoDup DEFAULT_CONFIG.*1.
Proof. apply (bool_decide_unpack _). vm_compute. reflexivity. Qed.

Lemma filter_none {A} (P : A → Prop) `{!∀ x, Decision (P x)} (l : list A) :
  Forall (λ x, ¬ P x) l → filter P l = [].
Proof.
  induction 1 as [|x l Hx _ IH]; [done|]. by rewrite filter_cons_False.
Qed.

Section config_props.
Variable CONFIG_DIR : path.
Variable json_dump : json → string.
Variable json_load : string → option json.

Local Abbreviation config_file := (CONFIG_FILE CONFIG_DIR).
Local Abbreviation ensure := (ensure_config CONFIG_DIR json_dump json_load).
Local Abbreviation save := (save_config CONFIG_DIR json_dump).

(** Saving where the configuration folder is in place and the file is no
    folder. *)
Lemma save_config_writes (cfg : json) (fs : filesystem) :
  fs !! CONFIG_DIR = Some Dir → fs !! config_file ≠ Some Dir →
  save cfg fs = (inr (), <[config_file := File (json_dump cfg)]> fs).
Proof.
  intros Hdir Hfile. unfold save_config.
  rewrite mkdir_parents_done by done. unfold write_text_fs. simpl.
  rewrite Hdir. by destruct (fs !! config_file) as [[]|].
Qed.

(** The outcome of [ensure_config] on a stored dict. *)
Lemma ensure_config_dict (fs fs1 : filesystem) (data : string)
    (items : list (string * json)) :
  mkdir_parents_fs CONFIG_DIR fs = inr fs1 →
  fs1 !! config_file = Some (File data) →
  json_load data = Some (JDict items) →
  let missing := filter (λ kv, kv.1 ∉ items.*1) DEFAULT_CONFIG in
  ensure fs
  = (inr (JDict (items ++ missing)),
     if bool_decide (missing = []) then fs1
     else <[config_file := File (json_dump (JDict (items ++ missing)))]> fs1).
Proof.
  intros Hmk Hfile Hload missing. unfold ensure_config. rewrite Hmk.
  rewrite (proj2 (exists_true _ _)) by by rewrite Hfile. cbn [negb].
  unfold read_text_fs. rewrite Hfile, Hload.
  rewrite (complete_dict DEFAULT_CONFIG items false NoDup_DEFAULT_CONFIG).
  fold missing. cbn [orb]. destruct (bool_decide (missing = [])); cbn [negb]; [done|].
  rewrite save_config_writes; [done|by eapply mkdir_parents_dir|by rewrite Hfile].
Qed.

(** X13. [ensure_config] on a stored object.  When the configuration folder
    exists or can be created and the file holds a JSON object, the call
    returns the object with every default key it lacks appended, with the
    default value and in the order of the defaults; the values and the order
    of the stored keys are kept, keys unknown to the program included.  The
    file is rewritten, with the completed object, exactly when a key was
    missing.  The result has all four keys. *)
Theorem ensure_config_completes (fs fs1 : filesystem) (data : string)
    (items : list (string * json)) :
  mkdir_parents_fs CONFIG_DIR fs = inr fs1 →
  fs1 !! config_file = Some (File data) →
  json_load data = Some (JDict items) →
  let missing := filter (λ kv, kv.1 ∉ items.*1) DEFAULT_CONFIG in
  ensure fs
  = (inr (JDict (items ++ missing)),
     if bool_decide (missing = []) then fs1
     else <[config_file := File (json_dump (JDict (items ++ missing)))]> fs1) ∧
  (∀ k, k ∈ DEFAULT_CONFIG.*1 → k ∈ (items ++ missing).*1) ∧
  (∀ k v, (k, v) ∈ missing → (k ∉ items.*1) ∧ (k, v) ∈ DEFAULT_CONFIG).
Proof.
  intros Hmk Hfile Hload missing.
  split; [by eapply ensure_config_dict|]. split.
  - intros k [[k' v] [-> Hkv]]%list_elem_of_fmap. simpl.
    rewrite fmap_app, elem_of_app.
    destruct (decide (k' ∈ items.*1)) as [Hin|Hin]; [by left|right].
    apply list_elem_of_fmap. exists (k', v). split; [done|].
    by apply list_elem_of_filter.
  - intros k v [Hk Hkv]%list_elem_of_filter. done.
Qed.


(** X15. [ensure_config] on stored JSON that is no object.  When the file
    holds a value other than an object for which ["bots_root" in value] is
    not true, so [null], a number, a boolean, a list without the element
    ["bots_root"] or a string without that substring, the call raises
    [TypeError], after creating the configuration folder and without writing
    the file. *)
Theorem ensure_config_type_error (fs fs1 : filesystem) (data : string) (v : json) :
  mkdir_parents_fs CONFIG_DIR fs = inr fs1 →
  fs1 !! config_file = Some (File data) →
  json_load data = Some v →
  (∀ items, v ≠ JDict items) →
  py_in "bots_root" v ≠ Some true →
  ensure fs = (inl TypeError, fs1).
Proof.
  intros Hmk Hfile Hload Hv Hin. unfold ensure_config. rewrite Hmk.
  rewrite (proj2 (exists_true _ _)) by by rewrite Hfile. cbn [negb].
  unfold read_text_fs. rewrite Hfile, Hload.
  unfold DEFAULT_CONFIG. cbn [complete].
  destruct (py_in "bots_root" v) as [[]|]; [done| |done].
  destruct v; try done. by destruct (Hv items).
Qed.

(** X16. A second call of [ensure_config] returns what the first returned
    and writes nothing, provided [json.load] reads back what [json.dump]
    wrote for the returned value. *)
Theorem ensure_config_twice (fs fs' : filesystem) (v : json) :
  ensure fs = (inr v, fs') →
  json_load (json_dump v) = Some v →
  ensure fs' = (inr v, fs').
Proof.
  intros Hrun Hround. unfold ensure_config in Hrun.
  destruct (mkdir_parents_fs CONFIG_DIR fs) as [e|fs1] eqn:Hmk; [done|].
  pose proof (mkdir_parents_dir _ _ _ Hmk) as Hdir.
  assert (config_file ≠ CONFIG_DIR) as Hne.
  { intros H. apply (f_equal length) in H. unfold CONFIG_FILE in H. simpl in H. lia. }
  destruct (exists_ fs1 config_file) eqn:Hex; cbn [negb] in Hrun.
  - destruct (complete DEFAULT_CONFIG _ false) as [[cfg' changed]|] eqn:Hc; [|done].
    destruct changed.
    + (* the file was rewritten *)
      apply exists_true in Hex.
      set (cfg0 := match read_text_fs config_file fs1 with
                   | inr data => _
                   | inl _ => _
                   end) in Hc.
      assert (∃ items, cfg0 = JDict items) as [items Hitems].
      { destruct cfg0 as [|b|literal|str|l|items0] eqn:Hcfg0;
          [..|by exists items0]; exfalso;
          apply complete_other in Hc as [_ ?]; done. }
      rewrite Hitems in Hc.
      rewrite (complete_dict DEFAULT_CONFIG items false NoDup_DEFAULT_CONFIG) in Hc.
      cbn zeta in Hc. injection Hc as Hcfg' Hchanged.
      unfold save_config in Hrun. rewrite mkdir_parents_done in Hrun by done.
      destruct (write_text_fs config_file (json_dump cfg') fs1) as [e|fs2] eqn:Hw;
        [done|].
      injection Hrun as <- <-.
      unfold write_text_fs in Hw. simpl in Hw. rewrite Hdir in Hw.
      assert (fs2 = <[config_file := File (json_dump cfg')]> fs1) as ->.
      { destruct (fs1 !! config_file) as [[]|]; congruence. }
      assert (mkdir_parents_fs CONFIG_DIR
                (<[config_file := File (json_dump cfg')]> fs1)
              = inr (<[config_file := File (json_dump cfg')]> fs1)) as Hmk2.
      { apply mkdir_parents_done. by rewrite lookup_insert_ne. }
      rewrite <- Hcfg' in *.
      rewrite (ensure_config_dict _ _ (json_dump (JDict (items ++ filter
                 (λ kv, kv.1 ∉ items.*1) DEFAULT_CONFIG)))
                 (items ++ filter (λ kv, kv.1 ∉ items.*1) DEFAULT_CONFIG) Hmk2);
        [|by rewrite lookup_insert_eq|done].
      assert (filter (λ kv : string * json,
                kv.1 ∉ (items ++ filter (λ kv, kv.1 ∉ items.*1) DEFAULT_CONFIG).*1)
                DEFAULT_CONFIG = []) as ->.
      { apply filter_none, Forall_forall. intros [k x] Hkx Hn. apply Hn.
        simpl. rewrite fmap_app, elem_of_app.
        destruct (decide (k ∈ items.*1)) as [Hin|Hin]; [by left|right].
        apply list_elem_of_fmap. exists (k, x). split; [done|].
        by apply list_elem_of_filter. }
      by rewrite app_nil_r.
    + (* nothing was written *)
      injection Hrun as -> ->. unfold ensure_config.
      rewrite mkdir_parents_done by done. rewrite Hex. cbn [negb].
      by rewrite Hc.
  - (* the defaults were written *)
    unfold write_text_fs in Hrun. simpl in Hrun. rewrite Hdir in Hrun.
    assert (fs1 !! config_file = None) as Hnone.
    { apply eq_None_not_Some. intros Hs. apply exists_true in Hs. congruence. }
    rewrite Hnone in Hrun. injection Hrun as <- <-.
    assert (mkdir_parents_fs CONFIG_DIR
              (<[config_file := File (json_dump (JDict DEFAULT_CONFIG))]> fs1)
            = inr (<[config_file := File (json_dump (JDict DEFAULT_CONFIG))]> fs1))
      as Hmk2.
    { apply mkdir_parents_done. by rewrite lookup_insert_ne. }
    rewrite (ensure_config_dict _ _ (json_dump (JDict DEFAULT_CONFIG))
               DEFAULT_CONFIG Hmk2); [|by rewrite lookup_insert_eq|done].
    reflexivity.
Qed.

(** X17. Saving and starting again.  Saving a configuration object succeeds
    where the configuration folder exists or can be created and the file
    path is no folder; the file then holds the text of the object, every
    other entry being as after creating the folder.  If [json.load] reads
    that text back, the next [ensure_config] returns the object completed
    with the default keys it lacks, and writes only if one was lacking. *)
Theorem save_config_then_ensure (fs fs1 : filesystem)
    (items : list (string * json)) :
  mkdir_parents_fs CONFIG_DIR fs = inr fs1 →
  fs1 !! config_file ≠ Some Dir →
  json_load (json_dump (JDict items)) = Some (JDict items) →
  let fs2 := <[config_file := File (json_dump (JDict items))]> fs1 in
  let missing := filter (λ kv, kv.1 ∉ items.*1) DEFAULT_CONFIG in
  save (JDict items) fs = (inr (), fs2) ∧
  ensure fs2
  = (inr (JDict (items ++ missing)),
     if bool_decide (missing = []) then fs2
     else <[config_file := File (json_dump (JDict (items ++ missing)))]> fs2).
Proof.
  intros Hmk Hfile Hround fs2 missing.
  pose proof (mkdir_parents_dir _ _ _ Hmk) as Hdir.
  assert (config_file ≠ CONFIG_DIR) as Hne.
  { intros H. apply (f_equal length) in H. unfold CONFIG_FILE in H. simpl in H. lia. }
  split.
  - unfold save_config. rewrite Hmk. unfold write_text_fs. simpl. rewrite Hdir.
    by destruct (fs1 !! config_file) as [[]|].
  - apply (ensure_config_dict fs2 fs2 (json_dump (JDict items))); [|..|done].
    + apply mkdir_parents_done. unfold fs2. by rewrite lookup_insert_ne.
    + unfold fs2. by rewrite lookup_insert_eq.
Qed.
End config_props.

(** A stored configuration with two of the four keys. *)
Lemma ensure_config_completes_witness :
  let missing := filter (λ kv, kv.1 ∉ stored_config.*1) DEFAULT_CONFIG in
  ensure_config ["cfg"] sample_dump sample_load config_files
  = (inr (JDict (stored_config ++ missing)),
     if bool_decide (missing = []) then config_files
     else <[CONFIG_FILE ["cfg"]
            := File (sample_dump (JDict (stored_config ++ missing)))]> config_files) ∧
  (∀ k, k ∈ DEFAULT_CONFIG.*1 → k ∈ (stored_config ++ missing).*1) ∧
  (∀ k v, (k, v) ∈ missing → (k ∉ stored_config.*1) ∧ (k, v) ∈ DEFAULT_CONFIG).
Proof.
  exact (ensure_config_completes ["cfg"] sample_dump sample_load
           config_files config_files "stored" stored_config
           ltac:(vm_compute; reflexivity) ltac:(vm_compute; reflexivity)
           ltac:(vm_compute; reflexivity)).
Defined.


(** The stored text read as [null]. *)
Lemma ensure_config_type_error_witness :
  ensure_config ["cfg"] sample_dump (λ _, Some JNull) config_files
  = (inl TypeError, config_files).
Proof.
  exact (ensure_config_type_error ["cfg"] sample_dump (λ _, Some JNull)
           config_files config_files "stored" JNull
           ltac:(vm_compute; reflexivity) ltac:(vm_compute; reflexivity)
           ltac:(reflexivity) ltac:(intros items; discriminate)
           ltac:(simpl; discriminate)).
Defined.

(** The stored configuration, completed by the first call. *)
Lemma ensure_config_twice_witness :
  let v := JDict (stored_config
                  ++ [("darkbot_jar_path", JStr ""); ("plugin_updates_folder", JStr "")]) in
  let fs' := <[CONFIG_FILE ["cfg"] := File "completed"]> config_files in
  ensure_config ["cfg"] sample_dump sample_load config_files = (inr v, fs') ∧
  ensure_config ["cfg"] sample_dump sample_load fs' = (inr v, fs').
Proof.
  intros v fs'.
  assert (ensure_config ["cfg"] sample_dump sample_load config_files = (inr v, fs'))
    as Hrun by (vm_compute; reflexivity).
  split; [exact Hrun|].
  apply (ensure_config_twice ["cfg"] sample_dump sample_load config_files fs' v Hrun).
  vm_compute; reflexivity.
Defined.

(** Saving the completed configuration of the sample. *)
Lemma save_config_then_ensure_witness :
  let items := stored_config
               ++ [("darkbot_jar_path", JStr ""); ("plugin_updates_folder", JStr "")] in
  let fs2 := <[CONFIG_FILE ["cfg"] := File (sample_dump (JDict items))]> config_files in
  let missing := filter (λ kv, kv.1 ∉ items.*1) DEFAULT_CONFIG in
  save_config ["cfg"] sample_dump (JDict items) config_files = (inr (), fs2) ∧
  ensure_config ["cfg"] sample_dump sample_load fs2
  = (inr (JDict (items ++ missing)),
     if bool_decide (missing = []) then fs2
     else <[CONFIG_FILE ["cfg"]
            := File (sample_dump (JDict (items ++ missing)))]> fs2).
Proof.
  exact (save_config_then_ensure ["cfg"] sample_dump sample_load
           config_files config_files
           (stored_config
            ++ [("darkbot_jar_path", JStr ""); ("plugin_updates_folder", JStr "")])
           ltac:(vm_compute; reflexivity) ltac:(vm_compute; discriminate)
           ltac:(vm_compute; reflexivity)).
Defined.

(** * The translations file *)

Section translations_props.
Variable CONFIG_DIR : path.

Local Abbreviation target := (translations_path CONFIG_DIR).
Local Abbreviation sync := (ensure_translations CONFIG_DIR).

(** X18. [ensure_translations] brings the stored translations in line with
    the bundled ones.  When the bundled file is a regular file, the
    configuration folder exists or can be created, and the stored path is
    no folder and is not the bundled file itself, the call returns normally;
    afterwards the stored file has the content of the bundled one and every
    other entry is as after creating the folder; the file is written unless
    it already had that content; and a second call finds the file up to date
    and changes nothing. *)
Theorem ensure_translations_syncs (bundled_path : path) (fs fs1 : filesystem)
    (data : string) :
  fs !! bundled_path = Some (File data) →
  mkdir_parents_fs CONFIG_DIR fs = inr fs1 →
  fs1 !! target ≠ Some Dir →
  bundled_path ≠ target →
  let fs2 := <[target := File data]> fs1 in
  sync bundled_path fs
  = (inr (match fs1 !! target with
          | None => CopiedTranslations
          | Some n => if bool_decide (n = File data) then TranslationsUpToDate
                      else UpdatedTranslations
          end),
     fs2) ∧
  (fs1 !! target = Some (File data) → fs2 = fs1) ∧
  sync bundled_path fs2 = (inr TranslationsUpToDate, fs2).
Proof.
  intros Hb Hmk Ht Hne fs2.
  pose proof (mkdir_parents_dir _ _ _ Hmk) as Hdir.
  pose proof (mkdir_parents_keeps _ _ _ _ _ Hmk Hb) as Hb1.
  assert (copy2_fs bundled_path target fs1 = inr fs2) as Hcopy.
  { unfold copy2_fs. rewrite (proj2 (is_dir_false _ _) Ht).
    rewrite (bool_decide_eq_false_2 _ Hne). simpl. rewrite Hb1, Hdir.
    by destruct (fs1 !! target) as [[]|]. }
  assert (target ≠ CONFIG_DIR) as Hne'.
  { intros H. apply (f_equal length) in H. unfold translations_path in H.
    simpl in H. lia. }
  split; [|split].
  - unfold ensure_translations.
    rewrite (proj2 (exists_true _ _)) by by rewrite Hb. cbn [negb]. rewrite Hmk.
    destruct (fs1 !! target) as [[tdata|]|] eqn:Htarget; [| done |].
    + rewrite (proj2 (exists_true _ _)) by by rewrite Htarget. cbn [negb].
      unfold read_text_fs. rewrite Hb1, Htarget.
      destruct (decide (data = tdata)) as [<-|Hd].
      * rewrite bool_decide_eq_false_2 by (by intros ?).
        rewrite bool_decide_eq_true_2 by done.
        unfold fs2. by rewrite insert_id.
      * rewrite bool_decide_eq_true_2 by done. rewrite Hcopy.
        rewrite bool_decide_eq_false_2; [done|]. intros [= ->]. done.
    + assert (exists_ fs1 target = false) as ->.
      { apply bool_decide_eq_false. rewrite Htarget. by intros [? ?]. }
      cbn [negb]. by rewrite Hcopy.
  - intros Hsame. unfold fs2. by rewrite insert_id.
  - unfold ensure_translations.
    assert (fs2 !! bundled_path = Some (File data)) as Hb2.
    { unfold fs2. by rewrite lookup_insert_ne. }
    assert (fs2 !! target = Some (File data)) as Ht2.
    { unfold fs2. by rewrite lookup_insert_eq. }
    rewrite (proj2 (exists_true _ _)) by by rewrite Hb2. cbn [negb].
    rewrite mkdir_parents_done by (unfold fs2; by rewrite lookup_insert_ne).
    rewrite (proj2 (exists_true _ _)) by by rewrite Ht2. cbn [negb].
    unfold read_text_fs. rewrite Hb2, Ht2.
    by rewrite bool_decide_eq_false_2 by (by intros ?).
Qed.

End translations_props.

(** The bundled translations of the sample, with no stored copy yet. *)
Lemma ensure_translations_syncs_witness :
  let fs2 := <[translations_path ["cfg"] := File "bundled"]> config_files in
  ensure_translations ["cfg"] ["translations.json"; "app"] config_files
  = (inr (match config_files !! translations_path ["cfg"] with
          | None => CopiedTranslations
          | Some n => if bool_decide (n = File "bundled") then TranslationsUpToDate
                      else UpdatedTranslations
          end),
     fs2) ∧
  (config_files !! translations_path ["cfg"] = Some (File "bundled") →
   fs2 = config_files) ∧
  ensure_translations ["cfg"] ["translations.json"; "app"] fs2
  = (inr TranslationsUpToDate, fs2).
Proof.
  exact (ensure_translations_syncs ["cfg"] ["translations.json"; "app"]
           config_files config_files "bundled"
           ltac:(vm_compute; reflexivity) ltac:(vm_compute; reflexivity)
           ltac:(vm_compute; discriminate) ltac:(discriminate)).
Defined.


(** * What step 5b reports *)

Lemma child_of_cons (d : path) (x : string) : child_of d (d // x) = true.
Proof. simpl. by apply bool_decide_eq_true_2. Qed.

Section copy_report.
Variables (bot_path plugin_src_folder : path).

Local Abbreviation staging := (bot_path // "plugins" // "updates").

(** The staging folder is in place and holds no folder. *)
Local Abbreviation ready fs :=
  (fs !! staging = Some Dir ∧ ∀ q, child_of staging q = true → fs !! q ≠ Some Dir).

(** The line a source entry gets besides being counted. *)
Local Abbreviation remark fs :=
  (λ jar : path,
     if bool_decide (name jar = "DarkBot.jar")
     then Some (warn, SkippedDarkBotPlugin (name jar))
     else if is_dir fs jar
          then Some (warn, FailedToCopy jar staging (IsADirectoryError jar))
          else None).

Local Abbreviation copied fs :=
  (λ jar : path, name jar ≠ "DarkBot.jar" ∧ is_file fs jar = true).

Lemma copied_decide (fs : filesystem) (n : string) :
  bool_decide (n ≠ "DarkBot.jar" ∧ is_file fs (plugin_src_folder // n) = true)
  = negb (bool_decide (n = "DarkBot.jar")) && is_file fs (plugin_src_folder // n).
Proof.
  destruct (decide (n = "DarkBot.jar")) as [->|Hn].
  - rewrite bool_decide_eq_false_2 by (by intros [? _]).
    by rewrite (bool_decide_eq_true_2 (_ = _)) by done.
  - rewrite (bool_decide_eq_false_2 (n = _)) by done. simpl.
    destruct (is_file fs (plugin_src_folder // n)).
    + by rewrite bool_decide_eq_true_2.
    + rewrite bool_decide_eq_false_2; [done|]. by intros [_ ?].
Qed.

(** One round of the loop of step 5b on an entry of the source folder. *)
Lemma copy_round (jar : path) (n : nat) (w : world) :
  ready (files w) → plugin_src_folder ≠ staging →
  child_of plugin_src_folder jar = true → is_Some (files w !! jar) →
  ∃ w',
    (if bool_decide (name jar = "DarkBot.jar") then
       log_warn (SkippedDarkBotPlugin (name jar));; mret n
     else
       try_except
         (let dest := staging // name jar in
          copy2 jar dest;; mret (S n))
         (λ e, log_warn (FailedToCopy jar staging e);; mret n)) w
    = (Return (n + if bool_decide (copied (files w) jar) then 1 else 0), w') ∧
    log_text w' = log_text w ++ option_list (remark (files w) jar) ∧
    ready (files w') ∧
    (∀ q, child_of staging q = false → files w' !! q = files w !! q) ∧
    (∀ m, files w' !! (staging // m)
          = if bool_decide (name jar = m) && bool_decide (copied (files w) jar)
            then files w !! jar else files w !! (staging // m)).
Proof.
  intros [Hstaging Hflat] Hsrc [x ->]%child_of_true [node Hjar].
  cbn [name].
  case_bool_decide as Hname.
  { rewrite bool_decide_eq_false_2 by (cbn [name]; tauto).
    eexists. split; [by rewrite Nat.add_0_r|]. simpl.
    repeat split; try done. intros m. by rewrite andb_false_r. }
  assert (plugin_src_folder // x ≠ staging // x) as Hne by congruence.
  unfold try_except, copy2, fs_op, copy2_fs, mbind, M_bind, bind, log_warn, _log,
    mret, M_ret, ret.
  rewrite (proj2 (is_dir_false _ _) (Hflat (staging // x) (child_of_cons _ _))).
  rewrite (bool_decide_eq_false_2 _ Hne). cbn [andb name parent tail].
  rewrite Hjar, Hstaging. destruct node as [data|].
  - rewrite bool_decide_eq_true_2
      by (split; [done|unfold is_file; by rewrite Hjar]).
    assert (is_dir (files w) (plugin_src_folder // x) = false) as ->.
    { apply is_dir_false. by rewrite Hjar. }
    assert (∀ fs' : filesystem,
              fs' = <[staging // x := File data]> (files w) →
              ready fs' ∧
              (∀ q, child_of staging q = false → fs' !! q = files w !! q) ∧
              (∀ m, fs' !! (staging // m)
                    = if bool_decide (x = m) && true
                      then Some (File data) else files w !! (staging // m)))
      as Hins.
    { intros fs' ->. split; [split|split].
      - rewrite lookup_insert_ne; [done|].
        intros H. apply (f_equal length) in H. simpl in H. lia.
      - intros q Hq. destruct (decide (q = staging // x)) as [->|Hq'].
        + by rewrite lookup_insert_eq.
        + rewrite lookup_insert_ne by done. by apply Hflat.
      - intros q Hq. rewrite lookup_insert_ne; [done|]. intros <-.
        simpl in Hq. by rewrite bool_decide_eq_true_2 in Hq.
      - intros m. rewrite andb_true_r. case_bool_decide as Hm.
        + subst m. by rewrite lookup_insert_eq.
        + rewrite lookup_insert_ne; [done|]. congruence. }
    destruct (files w !! (staging // x)) as [[tdata|]|] eqn:Htarget.
    + eexists. split; [by rewrite Nat.add_1_r|]. simpl. rewrite app_nil_r.
      split; [done|]. by apply Hins.
    + by destruct (Hflat (staging // x) (child_of_cons _ _)).
    + eexists. split; [by rewrite Nat.add_1_r|]. simpl. rewrite app_nil_r.
      split; [done|]. by apply Hins.
  - rewrite bool_decide_eq_false_2
      by (intros [_ Hf]; unfold is_file in Hf; by rewrite Hjar in Hf).
    rewrite (proj2 (is_dir_true _ _) Hjar).
    eexists. split; [by rewrite Nat.add_0_r|]. simpl.
    repeat split; try done. intros m. by rewrite andb_false_r.
Qed.

Lemma copy_loop (l : list path) (n : nat) (w : world) :
  ready (files w) → plugin_src_folder ≠ staging →
  Forall (λ jar, child_of plugin_src_folder jar = true
                 ∧ is_Some (files w !! jar)) l →
  ∃ w',
    for_each l n
      (λ jar n,
         if bool_decide (name jar = "DarkBot.jar") then
           log_warn (SkippedDarkBotPlugin (name jar));; mret n
         else
           try_except
             (let dest := staging // name jar in
              copy2 jar dest;; mret (S n))
             (λ e, log_warn (FailedToCopy jar staging e);; mret n)) w
    = (Return (n + length (filter (copied (files w)) l)), w') ∧
    log_text w' = log_text w ++ omap (remark (files w)) l ∧
    ready (files w') ∧
    (∀ q, child_of staging q = false → files w' !! q = files w !! q) ∧
    (∀ m, files w' !! (staging // m)
          = if bool_decide (plugin_src_folder // m ∈ l)
               && negb (bool_decide (m = "DarkBot.jar"))
               && is_file (files w) (plugin_src_folder // m)
            then files w !! (plugin_src_folder // m)
            else files w !! (staging // m)).
Proof.
  revert n w. induction l as [|jar l IH]; intros n w Hready Hsrc Hl.
  - exists w. simpl. by rewrite Nat.add_0_r, app_nil_r.
  - apply Forall_cons in Hl as [[Hc Hsome] Hl].
    destruct (copy_round jar n w Hready Hsrc Hc Hsome)
      as (w1 & Hround & Hlog1 & Hready1 & Hframe1 & Hat1).
    assert (∀ q, child_of plugin_src_folder q = true →
                 files w1 !! q = files w !! q) as Hsame.
    { intros q [y ->]%child_of_true. apply Hframe1. simpl.
      by apply bool_decide_eq_false_2. }
    destruct (IH (n + if bool_decide (copied (files w) jar) then 1 else 0) w1
                Hready1 Hsrc) as (w' & Hrun & Hlog & Hready' & Hframe & Hat).
    { eapply Forall_impl; [exact Hl|]. intros q [Hq Hs]. split; [done|].
      by rewrite Hsame. }
    assert (filter (copied (files w1)) l = filter (copied (files w)) l) as Hfilter.
    { apply filter_same_in. intros q Hq.
      destruct (proj1 (Forall_forall _ _) Hl q Hq) as [Hcq _].
      unfold is_file. by rewrite Hsame. }
    assert (omap (remark (files w1)) l = omap (remark (files w)) l) as Homap.
    { clear -Hl Hsame. induction l as [|q l IHl]; [done|].
      apply Forall_cons in Hl as [[Hcq _] Hl]. csimpl.
      rewrite IHl by done. unfold is_dir. by rewrite Hsame. }
    rewrite Hfilter in Hrun. rewrite Homap in Hlog.
    exists w'. cbn [for_each]. rewrite (bind_return _ _ _ _ _ Hround).
    cbn zeta in Hrun. rewrite Hrun.
    split; [|split; [|split; [done|split]]].
    + do 2 f_equal. rewrite filter_cons.
      destruct (decide (copied (files w) jar)) as [Hy|Hn].
      * rewrite bool_decide_eq_true_2 by done. simpl. lia.
      * rewrite bool_decide_eq_false_2 by done. lia.
    + rewrite Hlog, Hlog1, <- app_assoc. f_equal. csimpl.
      by destruct (bool_decide (name jar = "DarkBot.jar")),
                  (is_dir (files w) jar).
    + intros q Hq. rewrite Hframe by done. by apply Hframe1.
    + intros m. rewrite Hat, Hat1. unfold is_file at 1.
      rewrite (Hsame (plugin_src_folder // m)) by apply child_of_cons.
      fold (is_file (files w) (plugin_src_folder // m)).
      apply child_of_true in Hc as [x ->]. cbn [name].
      rewrite (copied_decide (files w) x).
      destruct (decide (x = m)) as [->|Hxm].
      * rewrite (bool_decide_eq_true_2 (m = m)) by done.
        rewrite (bool_decide_eq_true_2 (_ ∈ _ :: l)) by apply list_elem_of_here.
        cbn [andb].
        by destruct (bool_decide (plugin_src_folder // m ∈ l)),
                    (negb (bool_decide (m = "DarkBot.jar"))),
                    (is_file (files w) (plugin_src_folder // m)).
      * rewrite (bool_decide_eq_false_2 (x = m)) by done. cbn [andb].
        assert (bool_decide (plugin_src_folder // m ∈ (plugin_src_folder // x) :: l)
                = bool_decide (plugin_src_folder // m ∈ l)) as ->; [|done].
        apply bool_decide_ext. rewrite elem_of_cons.
        split; [intros [[=]|?]; done|by right].
Qed.

(** Step 5b on a source that is a folder other than the staging folder,
    the staging folder being in place and holding no folder: the log, and
    every entry of the file system. *)
Lemma step_copy_plugins_spec (w : world) :
  let found := glob (files w) plugin_src_folder ".jar" in
  is_dir (files w) plugin_src_folder = true →
  plugin_src_folder ≠ staging →
  files w !! staging = Some Dir →
  (∀ q, child_of staging q = true → files w !! q ≠ Some Dir) →
  ∃ w', step_copy_plugins bot_path plugin_src_folder w = (Return (), w') ∧
    log_text w'
    = log_text w ++ omap (remark (files w)) found
      ++ [(info, CopiedPlugins (length (filter (copied (files w)) found)) staging)] ∧
    (∀ q, child_of staging q = false → files w' !! q = files w !! q) ∧
    (∀ n, files w' !! (staging // n)
          = if plugin_jar n && is_file (files w) (plugin_src_folder // n)
            then files w !! (plugin_src_folder // n)
            else files w !! (staging // n)).
Proof.
  intros found Hsrc Hne Hstaging Hflat. unfold step_copy_plugins.
  erewrite bind_return; [|reflexivity]. simpl. rewrite is_dir_exists, Hsrc.
  fold found.
  destruct (copy_loop found 0 w (conj Hstaging Hflat) Hne)
    as (w1 & Hloop & Hlog & _ & Hframe & Hat).
  { apply Forall_forall. intros jar (_ & Hc & Hs)%elem_of_glob. done. }
  rewrite (bind_return _ _ _ _ _ Hloop).
  eexists. split; [reflexivity|]. simpl. rewrite Hlog, <- app_assoc.
  split; [done|]. split; [exact Hframe|].
  intros n. rewrite Hat. unfold plugin_jar.
  destruct (is_file (files w) (plugin_src_folder // n)) eqn:Hf;
    [|by rewrite !andb_false_r].
  rewrite !andb_true_r.
  assert (bool_decide (plugin_src_folder // n ∈ found) = has_ext ".jar" [n]) as ->;
    [|done].
  apply is_file_true in Hf as [data Hf].
  destruct (has_ext ".jar" [n]) eqn:He.
  - apply bool_decide_eq_true, elem_of_glob. split; [done|].
    split; [apply child_of_cons|by rewrite Hf].
  - apply bool_decide_eq_false. intros (He' & _)%elem_of_glob.
    unfold has_ext in *. simpl in *. congruence.
Qed.

(** X20. What step 5b does and reports.  When the source is a folder other
    than the staging folder, and the staging folder is in place and holds no
    folder, the step tries every entry of the source whose name ends in
    [.jar]: an entry named [DarkBot.jar] is skipped with a warning; of the
    others the regular files are copied and counted, and the folders are not
    copied and each gets one warning, in the order of the listing.  Copied
    means: afterwards the staging folder holds, under the name of each such
    regular file, a regular file with its content, replacing what was there
    under that name; every other entry of the staging folder, and everything
    outside it, is as before.  The number in the closing line is the number
    of regular files copied. *)
Theorem step_copy_plugins_reports (w : world) :
  let found := glob (files w) plugin_src_folder ".jar" in
  is_dir (files w) plugin_src_folder = true →
  plugin_src_folder ≠ staging →
  files w !! staging = Some Dir →
  (∀ q, child_of staging q = true → files w !! q ≠ Some Dir) →
  ∃ w', step_copy_plugins bot_path plugin_src_folder w = (Return (), w') ∧
    log_text w'
    = log_text w ++ omap (remark (files w)) found
      ++ [(info, CopiedPlugins (length (filter (copied (files w)) found)) staging)] ∧
    (∀ q, child_of staging q = false → files w' !! q = files w !! q) ∧
    (∀ n, files w' !! (staging // n)
          = if plugin_jar n && is_file (files w) (plugin_src_folder // n)
            then files w !! (plugin_src_folder // n)
            else files w !! (staging // n)) ∧
    (∀ jar, jar ∈ filter (copied (files w)) found →
            files w' !! (staging // name jar) = files w !! jar) ∧
    NoDup found.
Proof.
  intros found Hsrc Hne Hstaging Hflat.
  destruct (step_copy_plugins_spec w Hsrc Hne Hstaging Hflat)
    as (w' & Hrun & Hlog & Hframe & Hat).
  exists w'. repeat (split; [done|]). split; [|apply NoDup_glob].
  intros jar [[Hname Hfile] Hjar]%list_elem_of_filter.
  apply elem_of_glob in Hjar as (He & [x ->]%child_of_true & _).
  cbn [name] in *. rewrite Hat, Hfile, andb_true_r.
  unfold plugin_jar. unfold has_ext in *. cbn [name] in *. rewrite He.
  by rewrite bool_decide_eq_false_2.
Qed.
End copy_report.

(** The sample: the source holds the application jar, two plugins and a jar
    under another name; the staging folder holds one regular file. *)
Lemma step_copy_plugins_reports_witness :
  let w := started sample_files ["DarkBot.jar"; "src"] ["src"] in
  let staging := ["updates"; "plugins"; "bot"] in
  let found := glob (files w) ["src"] ".jar" in
  ∃ w', step_copy_plugins ["bot"] ["src"] w = (Return (), w') ∧
    log_text w'
    = log_text w
      ++ omap (λ jar : path,
                 if bool_decide (name jar = "DarkBot.jar")
                 then Some (warn, SkippedDarkBotPlugin (name jar))
                 else if is_dir (files w) jar
                      then Some (warn, FailedToCopy jar staging (IsADirectoryError jar))
                      else None) found
      ++ [(info, CopiedPlugins
                   (length (filter (λ jar : path, name jar ≠ "DarkBot.jar"
                                                  ∧ is_file (files w) jar = true)
                              found)) staging)] ∧
    (∀ q, child_of staging q = false → files w' !! q = files w !! q) ∧
    (∀ n, files w' !! (staging // n)
          = if plugin_jar n && is_file (files w) (["src"] // n)
            then files w !! (["src"] // n)
            else files w !! (staging // n)) ∧
    (∀ jar, jar ∈ filter (λ jar : path, name jar ≠ "DarkBot.jar"
                                        ∧ is_file (files w) jar = true) found →
            files w' !! (staging // name jar) = files w !! jar) ∧
    NoDup found.
Proof.
  assert (map_Forall (λ (q : path) (n : node),
                        child_of ["updates"; "plugins"; "bot"] q = true → n ≠ Dir)
            sample_files) as Hflat
    by (apply (bool_decide_unpack _); vm_compute; reflexivity).
  exact (step_copy_plugins_reports ["bot"] ["src"]
           (started sample_files ["DarkBot.jar"; "src"] ["src"])
           ltac:(vm_compute; reflexivity) ltac:(discriminate)
           ltac:(vm_compute; reflexivity)
           (λ q Hq Hd, Hflat q Dir Hd Hq eq_refl)).
Defined.

(** * Steps 4 and 5b together *)

(** C1 (amended). From any well-formed state with the bot folder in place,
    steps 4, 5a and 5b return normally.

    Where neither [<folder>/plugins] nor [<folder>/plugins/updates] is a
    regular file: after step 4 [plugins/updates] is a folder and is empty;
    after step 5b it is a folder that holds, under its own name, a copy of
    every regular file directly in the plugin source folder whose name ends
    in [.jar] and is not [DarkBot.jar], and holds nothing else, at any
    depth.  The source folder meant is the one step 5b reads; unless it lies
    in the staging folder itself, its plugin jars are those found before
    step 4.  What step 5b logs is: for every entry of the source named
    [*.jar], in the order of the listing, the warning that it was skipped if
    its name is [DarkBot.jar], a warning that the copy failed if it is a
    folder, and nothing otherwise; then the number of files copied.

    Where [plugins] or [plugins/updates] is a regular file: step 4 changes
    no file and logs the one warning that the staging folder could not be
    created; steps 5a and 5b still run; step 5b changes no file, and at the
    end [plugins/updates] is no folder and nothing lies below it. *)
Theorem staging_after_steps_4_and_5b
    (bot_path darkjar_src plugin_src_folder : path) (w : world) :
  let plugins := bot_path // "plugins" in
  let plugins_updates := plugins // "updates" in
  wf (files w) →
  is_dir (files w) bot_path = true →
  ∃ w4 w5a w5,
    step_plugins_updates bot_path w = (Return (), w4) ∧
    step_copy_darkbot bot_path darkjar_src w4 = (Return (), w5a) ∧
    step_copy_plugins bot_path plugin_src_folder w5a = (Return (), w5) ∧
    if is_file (files w) plugins || is_file (files w) plugins_updates then
      files w4 = files w ∧
      (∃ e, log_text w4 = log_text w ++ [(warn, FailedToCreate plugins_updates e)]) ∧
      files w5 = files w5a ∧
      is_dir (files w5) plugins_updates = false ∧
      (∀ q, below plugins_updates q = true → files w5 !! q = None)
    else
      is_dir (files w4) plugins_updates = true ∧
      listdir (files w4) plugins_updates = [] ∧
      is_dir (files w5) plugins_updates = true ∧
      (∀ n, files w5 !! (plugins_updates // n)
            = if plugin_jar n
              then File <$> file_at (files w5a) (plugin_src_folder // n)
              else None) ∧
      (∀ q, below plugins_updates q = true → child_of plugins_updates q = false →
            files w5 !! q = None) ∧
      (¬ plugins_updates `suffix_of` plugin_src_folder →
       ∀ n, plugin_jar n = true →
            file_at (files w5a) (plugin_src_folder // n)
            = file_at (files w) (plugin_src_folder // n)) ∧
      (if is_dir (files w5a) plugin_src_folder then
         log_text w5
         = log_text w5a
           ++ omap (λ jar : path,
                      if bool_decide (name jar = "DarkBot.jar")
                      then Some (warn, SkippedDarkBotPlugin (name jar))
                      else if is_dir (files w5a) jar
                           then Some (warn, FailedToCopy jar plugins_updates
                                              (IsADirectoryError jar))
                           else None)
                (glob (files w5a) plugin_src_folder ".jar")
           ++ [(info, CopiedPlugins
                        (length (filter (λ jar : path,
                                           name jar ≠ "DarkBot.jar"
                                           ∧ is_file (files w5a) jar = true)
                                   (glob (files w5a) plugin_src_folder ".jar")))
                        plugins_updates)]
       else log_text w5
            = log_text w5a ++ [(warn, InvalidPluginFolder plugin_src_folder)]).
Proof.
  intros plugins plugins_updates Hwf Hbot%is_dir_true.
  subst plugins plugins_updates.
  destruct (step_plugins_updates_runs bot_path w) as ([] & w4 & Hrun4 & Hf4 & _).
  destruct (step_copy_darkbot_runs bot_path darkjar_src w4)
    as ([] & w5a & Hrun5a & Hf5a & _).
  destruct (step_copy_plugins_runs bot_path plugin_src_folder w5a)
    as ([] & w5 & Hrun5 & Hf5 & _).
  exists w4, w5a, w5. do 3 (split; [done|]).
  assert (wf (files w4)) as Hwf4.
  { rewrite Hf4. by apply wf_plugins_updates_effect. }
  assert (wf (files w5a)) as Hwf5a.
  { rewrite Hf5a. by apply wf_copy_darkbot_effect. }
  destruct (is_file (files w) (bot_path // "plugins")
            || is_file (files w) (bot_path // "plugins" // "updates")) eqn:Hb.
  - (* a regular file is in the way *)
    assert (is_file (files w) (bot_path // "plugins" // "updates") = true
            ∨ is_file (files w) (bot_path // "plugins") = true) as Hblocked.
    { apply orb_true_iff in Hb. tauto. }
    assert (is_dir (files w) (bot_path // "plugins" // "updates") = false) as Hd.
    { apply is_dir_false. destruct Hblocked as [Hu|Hp].
      - apply is_file_true in Hu as [data ->]. done.
      - rewrite (wf_below_file (files w) (bot_path // "plugins")); [done..| |].
        + apply is_dir_false. apply is_file_true in Hp as [data ->]. done.
        + apply below_child. }
    assert (files w4 = files w) as Hsame4.
    { rewrite Hf4.
      destruct (plugins_updates_mkdir bot_path (files w) Hbot Hd)
        as [[_ Heq]|(Hu & Hp & _)]; [done|].
      rewrite Hu, Hp in Hb. done. }
    assert (is_dir (files w5a) (bot_path // "plugins" // "updates") = false) as Hd5a.
    { apply is_dir_false. rewrite Hf5a. intros Hdir%copy_darkbot_dirs.
      rewrite Hsame4 in Hdir. by apply is_dir_false in Hd. }
    assert (files w5 = files w5a) as Hsame5.
    { rewrite Hf5. by apply copy_plugins_unstaged. }
    split; [done|]. split.
    { destruct (mkdir_updates_blocked bot_path (files w) Hbot Hblocked Hwf) as [e He].
      exists e. unfold step_plugins_updates, mbind, M_bind, bind, get_files in Hrun4.
      rewrite is_dir_exists, Hd in Hrun4.
      unfold try_except, mkdir_parents, fs_op in Hrun4.
      rewrite He in Hrun4. unfold log_warn, _log in Hrun4. by simplify_eq. }
    split; [done|]. rewrite Hsame5. split; [done|].
    intros q Hq. by apply (wf_below_file (files w5a) (bot_path // "plugins" // "updates")).
  - (* the staging folder can be made *)
    apply orb_false_iff in Hb as [Hp Hu].
    assert (files w4 !! (bot_path // "plugins" // "updates") = Some Dir) as Hd4.
    { rewrite Hf4. by apply plugins_updates_staged. }
    assert (∀ q, below (bot_path // "plugins" // "updates") q = true →
                 files w4 !! q = None) as He4.
    { intros q Hq. rewrite Hf4. by apply plugins_updates_empty. }
    assert (files w5a !! (bot_path // "plugins" // "updates") = Some Dir) as Hd5a.
    { rewrite Hf5a. by apply copy_darkbot_dirs. }
    assert (∀ q, below (bot_path // "plugins" // "updates") q = true →
                 files w5a !! q = None) as He5a.
    { intros q Hq. rewrite Hf5a, copy_darkbot_frame; [by apply He4|].
      intros Hs. apply below_true in Hq as [Hq%suffix_cons_l _].
      by apply (dest_plugins_disjoint bot_path q). }
    destruct (copy_plugins_staged bot_path plugin_src_folder (files w5a)
                Hwf5a Hd5a He5a) as [Hchildren Hdeep].
    split; [by apply is_dir_true|]. split.
    { apply elem_of_nil_inv. intros q [Hc [n Hq]]%elem_of_listdir.
      rewrite He4 in Hq; [done|by apply child_below]. }
    split.
    { apply is_dir_true. rewrite Hf5, copy_plugins_frame; [done|].
      apply updates_not_below_updates. }
    split; [intros n; rewrite Hf5; apply Hchildren|].
    split; [intros q Hq Hc; rewrite Hf5; by apply Hdeep|].
    split.
    { intros Hout n Hn. rewrite Hf5a, Hf4.
      transitivity (file_at (plugins_updates_effect bot_path (files w))
                      (plugin_src_folder // n)).
      - unfold file_at. rewrite copy_darkbot_other_names; [done|].
        simpl. intros ->. by vm_compute in Hn.
      - apply plugins_updates_file_at; [done..|].
        apply not_true_is_false.
        intros [Heq|[Hs _]%below_true]%below_cons; apply Hout;
          [by rewrite Heq|done]. }
    destruct (is_dir (files w5a) plugin_src_folder) eqn:Hsrc.
    + destruct (decide (plugin_src_folder = bot_path // "plugins" // "updates"))
        as [Heq|Hne].
      * assert (glob (files w5a) plugin_src_folder ".jar" = []) as Hnone.
        { apply elem_of_nil_inv.
          intros jar (_ & [x ->]%child_of_true & [? Hjar])%elem_of_glob.
          rewrite He5a in Hjar; [done|]. rewrite Heq. apply below_child. }
        rewrite Hnone. simpl.
        unfold step_copy_plugins, mbind, M_bind, bind, get_files in Hrun5.
        rewrite is_dir_exists, Hsrc, Hnone in Hrun5. simpl in Hrun5.
        unfold log_info, _log in Hrun5. by simplify_eq.
      * destruct (step_copy_plugins_spec bot_path plugin_src_folder w5a Hsrc Hne Hd5a)
          as (w5' & Hrun5' & Hlog & _).
        { intros q Hq. rewrite He5a; [done|by apply child_below]. }
        rewrite Hrun5 in Hrun5'. by simplify_eq.
    + unfold step_copy_plugins, mbind, M_bind, bind, get_files in Hrun5.
      rewrite is_dir_exists, Hsrc in Hrun5.
      unfold log_warn, _log in Hrun5. by simplify_eq.
Qed.

(** The sample satisfies the conditions: its [plugins] and
    [plugins/updates] are folders, and its source holds a [DarkBot.jar],
    which gets the one warning of step 5b. *)
Lemma staging_after_steps_4_and_5b_witness :
  ∃ w4 w5a w5,
    step_plugins_updates ["bot"] (started sample_files ["DarkBot.jar"; "src"] ["src"])
    = (Return (), w4) ∧
    step_copy_darkbot ["bot"] ["DarkBot.jar"; "src"] w4 = (Return (), w5a) ∧
    step_copy_plugins ["bot"] ["src"] w5a = (Return (), w5) ∧
    is_dir (files w4) ["updates"; "plugins"; "bot"] = true ∧
    listdir (files w4) ["updates"; "plugins"; "bot"] = [] ∧
    is_dir (files w5) ["updates"; "plugins"; "bot"] = true ∧
    (∀ n, files w5 !! (["updates"; "plugins"; "bot"] // n)
          = if plugin_jar n then File <$> file_at (files w5a) (["src"] // n) else None) ∧
    (∀ q, below ["updates"; "plugins"; "bot"] q = true →
          child_of ["updates"; "plugins"; "bot"] q = false → files w5 !! q = None) ∧
    (¬ ["updates"; "plugins"; "bot"] `suffix_of` ["src"] →
     ∀ n, plugin_jar n = true →
          file_at (files w5a) (["src"] // n) = file_at sample_files (["src"] // n)) ∧
    (if is_dir (files w5a) ["src"] then
       log_text w5
       = log_text w5a
         ++ omap (λ jar : path,
                    if bool_decide (name jar = "DarkBot.jar")
                    then Some (warn, SkippedDarkBotPlugin (name jar))
                    else if is_dir (files w5a) jar
                         then Some (warn, FailedToCopy jar ["updates"; "plugins"; "bot"]
                                            (IsADirectoryError jar))
                         else None)
              (glob (files w5a) ["src"] ".jar")
         ++ [(info, CopiedPlugins
                      (length (filter (λ jar : path,
                                         name jar ≠ "DarkBot.jar"
                                         ∧ is_file (files w5a) jar = true)
                                 (glob (files w5a) ["src"] ".jar")))
                      ["updates"; "plugins"; "bot"])]
     else log_text w5 = log_text w5a ++ [(warn, InvalidPluginFolder ["src"])]).
Proof.
  exact (staging_after_steps_4_and_5b ["bot"] ["DarkBot.jar"; "src"] ["src"]
           (started sample_files ["DarkBot.jar"; "src"] ["src"])
           ltac:(apply (bool_decide_unpack _); vm_compute; reflexivity)
           ltac:(vm_compute; reflexivity)).
Defined.

(** * What step 5a does with a valid source *)

(** X21. Step 5a with a source that is a regular file named [DarkBot.jar],
    in a bot folder that exists.  The file is written to
    [<folder>/DarkBot.jar], or, where that path is a folder, into it under
    the same name.  If the source is that very file, or that path is itself a
    folder, nothing is copied and the failure is logged as a warning;
    otherwise the file gets the content of the source, nothing else changes,
    and the line logged names [<folder>/DarkBot.jar] in both cases. *)
Theorem step_copy_darkbot_reports (bot_path darkjar_src : path) (w : world) :
  let dest := bot_path // "DarkBot.jar" in
  let target := if is_dir (files w) dest then dest // "DarkBot.jar" else dest in
  is_dir (files w) bot_path = true →
  darkbot_ok (files w) darkjar_src = true →
  ∃ w' data,
    step_copy_darkbot bot_path darkjar_src w = (Return (), w') ∧
    files w !! darkjar_src = Some (File data) ∧
    if bool_decide (darkjar_src = target) then
      files w' = files w ∧
      log_text w'
      = log_text w
        ++ [(warn, FailedToCopyDarkBot bot_path (SameFileError darkjar_src target))]
    else if is_dir (files w) target then
      files w' = files w ∧
      log_text w'
      = log_text w
        ++ [(warn, FailedToCopyDarkBot bot_path (IsADirectoryError target))]
    else
      files w' = <[target := File data]> (files w) ∧
      log_text w' = log_text w ++ [(info, CopiedDarkBot dest)].
Proof.
  intros dest target Hbot Hok. subst dest.
  pose proof Hok as Hok'. unfold darkbot_ok in Hok'.
  apply andb_true_iff in Hok' as [Hok' Hname%bool_decide_eq_true].
  apply andb_true_iff in Hok' as [Hex [data Hsrc]%is_file_true].
  apply is_dir_true in Hbot.
  assert (files w !! parent target = Some Dir) as Hparent.
  { unfold target. destruct (is_dir (files w) (bot_path // "DarkBot.jar")) eqn:Hd;
      [by apply is_dir_true in Hd|done]. }
  assert ((if is_dir (files w) (bot_path // "DarkBot.jar")
           then bot_path // "DarkBot.jar" // name darkjar_src
           else bot_path // "DarkBot.jar") = target) as Htarget.
  { unfold target. by rewrite Hname. }
  unfold step_copy_darkbot. erewrite bind_return; [|reflexivity]. simpl.
  fold (darkbot_ok (files w) darkjar_src). rewrite Hok.
  unfold try_except, copy2, fs_op, copy2_fs, mbind, M_bind, bind, log_info, log_warn,
    _log, mret, M_ret, ret.
  rewrite Htarget, Hex, andb_true_r, Hsrc.
  case_bool_decide as Hsame.
  { eexists _, data. split; [done|]. split; [done|]. done. }
  destruct (is_dir (files w) target) eqn:Hdir.
  - rewrite (proj1 (is_dir_true _ _) Hdir).
    eexists _, data. split; [done|]. split; [done|]. done.
  - apply is_dir_false in Hdir. rewrite Hparent.
    destruct (files w !! target) as [[tdata|]|] eqn:Ht; [|done|];
      (eexists _, data; split; [done|]; split; [done|]; done).
Qed.

(** The sample, and the sample with the source taken from the bot folder
    itself. *)
Lemma step_copy_darkbot_reports_witness :
  let w := started sample_files ["DarkBot.jar"; "bot"] ["src"] in
  let dest := ["DarkBot.jar"; "bot"] in
  let target := if is_dir (files w) dest then dest // "DarkBot.jar" else dest in
  ∃ w' data,
    step_copy_darkbot ["bot"] ["DarkBot.jar"; "bot"] w = (Return (), w') ∧
    files w !! ["DarkBot.jar"; "bot"] = Some (File data) ∧
    if bool_decide (["DarkBot.jar"; "bot"] = target) then
      files w' = files w ∧
      log_text w'
      = log_text w
        ++ [(warn, FailedToCopyDarkBot ["bot"]
                     (SameFileError ["DarkBot.jar"; "bot"] target))]
    else if is_dir (files w) target then
      files w' = files w ∧
      log_text w'
      = log_text w
        ++ [(warn, FailedToCopyDarkBot ["bot"] (IsADirectoryError target))]
    else
      files w' = <[target := File data]> (files w) ∧
      log_text w' = log_text w ++ [(info, CopiedDarkBot dest)].
Proof.
  exact (step_copy_darkbot_reports ["bot"] ["DarkBot.jar"; "bot"]
           (started sample_files ["DarkBot.jar"; "bot"] ["src"])
           ltac:(vm_compute; reflexivity) ltac:(vm_compute; reflexivity)).
Defined.
